(** * Behavioral timing governor: rate limiter and activity scheduler

    A shallow embedding of [internal/stealth/rate_limit.go] and of the
    parts of [internal/stealth/schedule.go] that decide break times and
    scheduler construction, followed by the properties of the design
    document that concern them.

    Conventions of the embedding.
    - A [time.Time] is the number of nanoseconds since Go's zero Time
      (January 1, year 1, 00:00:00 UTC), an unbounded integer: Go keeps
      seconds and nanoseconds apart, so instants do not wrap in practice.
    - A [time.Duration] is an [int64] count of nanoseconds; [Sub]
      saturates and plain [-] on durations wraps, as in Go.
    - Every method runs under the limiter's mutex, so a call is one atomic
      step; all readings of [time.Now()] inside one call are taken to be
      the same instant [now], which the caller of the model supplies.
    - The [limits] map holds [*ActionLimit]; the field is unexported and
      only [NewRateLimiter] fills it, always with non-nil pointers, so the
      model stores the limits themselves. *)

From Stdlib Require Import ZArith QArith Qabs Lia Ascii DecimalString.
From stdpp Require Import gmap strings list fin_maps sorting.

Local Open Scope Z_scope.

(** ** The [time] package *)

Module GoTime.

Definition Time := Z.
Definition Duration := Z.

Definition Nanosecond : Duration := 1.
Definition Microsecond : Duration := 1000 * Nanosecond.
Definition Millisecond : Duration := 1000 * Microsecond.
Definition Second : Duration := 1000 * Millisecond.
Definition Minute : Duration := 60 * Second.
Definition Hour : Duration := 60 * Minute.

Definition minDuration : Duration := - 2 ^ 63.
Definition maxDuration : Duration := 2 ^ 63 - 1.

(** Two's complement wrap-around of [int64] arithmetic. *)
Definition wrap64 (z : Z) : Z := (z + 2 ^ 63) mod 2 ^ 64 - 2 ^ 63.

(** [time.Time{}]. *)
Definition zeroTime : Time := 0.

(** [t.Add(d)]. *)
Definition Add (t : Time) (d : Duration) : Time := t + d.

(** [t.Sub(u)]: the difference, clamped to the range of a Duration. *)
Definition Sub (t u : Time) : Duration :=
  if t - u <? minDuration then minDuration
  else if maxDuration <? t - u then maxDuration
  else t - u.

(** [t.Before(u)] and [t.After(u)]. *)
Definition Before (t u : Time) : bool := t <? u.
Definition After (t u : Time) : bool := u <? t.

(** [time.Until(t)] and [time.Since(t)] at the clock reading [now]. *)
Definition Until (now t : Time) : Duration := Sub t now.
Definition Since (now t : Time) : Duration := Sub now t.

(** [lessThanHalf(x, y)]: [uint64(x)+uint64(x) < uint64(y)]. *)
Definition lessThanHalf (x y : Duration) : bool :=
  (x mod 2 ^ 64 + x mod 2 ^ 64) mod 2 ^ 64 <? y mod 2 ^ 64.

(** [d.Round(m)]: nearest multiple of [m], halves away from zero. *)
Definition Round (d m : Duration) : Duration :=
  if m <=? 0 then d
  else
    let r := Z.rem d m in
    if d <? 0 then
      let r := wrap64 (- r) in
      if lessThanHalf r m then wrap64 (d + r)
      else
        let d1 := wrap64 (d - m + r) in
        if d1 <? d then d1 else minDuration
    else
      if lessThanHalf r m then wrap64 (d - r)
      else
        let d1 := wrap64 (d + m - r) in
        if d <? d1 then d1 else maxDuration.

(** Decimal rendering of a non-negative integer ([fmtInt]). *)
Definition fmtInt (v : Z) : string := NilZero.string_of_uint (N.to_uint (Z.to_N v)).

Definition digitChar (d : Z) : ascii := ascii_of_nat (48 + Z.to_nat d).

(** [fmtFrac]: the fraction [v / 10^prec] without trailing zeros, written
    in front of [acc]; also returns [v / 10^prec]. *)
Fixpoint fmtFracLoop (prec : nat) (v : Z) (print : bool) (acc : string)
  : string * bool * Z :=
  match prec with
  | O => (acc, print, v)
  | S p =>
      let digit := v mod 10 in
      let print := print || negb (digit =? 0) in
      let acc := if print then String (digitChar digit) acc else acc in
      fmtFracLoop p (v / 10) print acc
  end.

Definition fmtFrac (acc : string) (v : Z) (prec : nat) : string * Z :=
  match fmtFracLoop prec v false acc with
  | (acc, print, v) => (if print then String "."%char acc else acc, v)
  end.

(** [d.String()], the rendering [%v] uses for a Duration. *)
Definition DurationString (d : Duration) : string :=
  let u := Z.abs d in
  let neg := d <? 0 in
  let body :=
    if u <? Second then
      if u =? 0 then "0s"
      else
        let '(unit, prec) :=
          if u <? Microsecond then ("ns", 0%nat)
          else if u <? Millisecond
               then (String "194"%char (String "181"%char "s"), 3%nat)
               else ("ms", 6%nat) in
        let '(w, u) := fmtFrac unit u prec in
        fmtInt u +:+ w
    else
      let '(w, u) := fmtFrac "s" u 9 in
      let w := fmtInt (u mod 60) +:+ w in
      let u := u / 60 in
      if 0 <? u then
        let w := fmtInt (u mod 60) +:+ "m" +:+ w in
        let u := u / 60 in
        if 0 <? u then fmtInt u +:+ "h" +:+ w else w
      else w in
  if neg then "-" +:+ body else body.

(** [%d] of an [int]. *)
Definition fmtD (n : Z) : string :=
  if n <? 0 then "-" +:+ fmtInt (- n) else fmtInt n.

End GoTime.
Export GoTime.

(** ** The rate limiter ([rate_limit.go]) *)

(** [type ActionType string]. *)
Abbreviation ActionType := string (only parsing).

Definition ActionProfileView : ActionType := "profile_view".
Definition ActionConnectionReq : ActionType := "connection_request".
Definition ActionMessage : ActionType := "message".
Definition ActionSearch : ActionType := "search".
Definition ActionScroll : ActionType := "scroll".
Definition ActionLike : ActionType := "like".
Definition ActionComment : ActionType := "comment".
Definition ActionPageView : ActionType := "page_view".

Record ActionLimit := mkActionLimit {
  HourlyMax : Z;
  DailyMax : Z;
  MinInterval : Duration;
  CooldownAfter : Z;
  CooldownDuration : Duration
}.

(** The struct without its mutex: the model is sequential. *)
Record RateLimiter := mkRateLimiter {
  limits : gmap string ActionLimit;
  actionHistory : gmap string (list Time);
  dailyResetTime : Time;
  hourlyResetTime : Time;
  cooldownUntil : Time;
  consecutiveActions : Z
}.

Definition set_actionHistory (h : gmap string (list Time)) (rl : RateLimiter) :=
  mkRateLimiter (limits rl) h (dailyResetTime rl) (hourlyResetTime rl)
                (cooldownUntil rl) (consecutiveActions rl).
Definition set_dailyResetTime (t : Time) (rl : RateLimiter) :=
  mkRateLimiter (limits rl) (actionHistory rl) t (hourlyResetTime rl)
                (cooldownUntil rl) (consecutiveActions rl).
Definition set_hourlyResetTime (t : Time) (rl : RateLimiter) :=
  mkRateLimiter (limits rl) (actionHistory rl) (dailyResetTime rl) t
                (cooldownUntil rl) (consecutiveActions rl).
Definition set_cooldownUntil (t : Time) (rl : RateLimiter) :=
  mkRateLimiter (limits rl) (actionHistory rl) (dailyResetTime rl)
                (hourlyResetTime rl) t (consecutiveActions rl).
Definition set_consecutiveActions (n : Z) (rl : RateLimiter) :=
  mkRateLimiter (limits rl) (actionHistory rl) (dailyResetTime rl)
                (hourlyResetTime rl) (cooldownUntil rl) n.

(** [rl.actionHistory[actionType]]: a missing key reads as the nil slice,
    which has length zero like the empty one. *)
Definition historyOf (rl : RateLimiter) (actionType : string) : list Time :=
  default [] (actionHistory rl !! actionType).

(** [resetTimers]. *)
Definition resetTimers (now : Time) (rl : RateLimiter) : RateLimiter :=
  set_dailyResetTime (Add now (24 * Hour))
    (set_hourlyResetTime (Add now Hour) rl).

(** [NewRateLimiter], called at the instant [now]. *)
Definition NewRateLimiter (now : Time) : RateLimiter :=
  let rl := mkRateLimiter ∅ ∅ zeroTime zeroTime zeroTime 0 in
  let l := limits rl in
  let l := <[ActionProfileView := mkActionLimit 40 200 (15 * Second) 10 (5 * Minute)]> l in
  let l := <[ActionConnectionReq := mkActionLimit 10 50 (90 * Second) 5 (10 * Minute)]> l in
  let l := <[ActionMessage := mkActionLimit 15 80 (60 * Second) 7 (8 * Minute)]> l in
  let l := <[ActionSearch := mkActionLimit 30 150 (20 * Second) 8 (3 * Minute)]> l in
  let l := <[ActionScroll := mkActionLimit 200 1000 (2 * Second) 20 (2 * Minute)]> l in
  let l := <[ActionLike := mkActionLimit 25 120 (30 * Second) 8 (5 * Minute)]> l in
  let l := <[ActionComment := mkActionLimit 8 30 (120 * Second) 3 (15 * Minute)]> l in
  let l := <[ActionPageView := mkActionLimit 100 500 (5 * Second) 15 (3 * Minute)]> l in
  resetTimers now
    (mkRateLimiter l (actionHistory rl) (dailyResetTime rl) (hourlyResetTime rl)
                   (cooldownUntil rl) (consecutiveActions rl)).

(** The loop of [countActionsInWindow], over the history read from its
    most recent entry backwards: it stops at the first entry that is not
    after the cutoff. *)
Fixpoint countBackwards (cutoff : Time) (newestFirst : list Time) : Z :=
  match newestFirst with
  | [] => 0
  | t :: older => if After t cutoff then 1 + countBackwards cutoff older else 0
  end.

(** [countActionsInWindow]. *)
Definition countActionsInWindow (now : Time) (history : list Time)
    (window : Duration) : Z :=
  if (length history =? 0)%nat then 0
  else
    let cutoff := Add now (- window) in
    countBackwards cutoff (rev history).

(** The entries [cleanHistory] keeps. *)
Definition keepRecent (now : Time) (history : list Time) : list Time :=
  let cutoff := Add now (- (24 * Hour)) in
  List.filter (fun t => After t cutoff) history.

(** [cleanHistory]. *)
Definition cleanHistory (now : Time) (actionType : string) (rl : RateLimiter)
  : RateLimiter :=
  let history := historyOf rl actionType in
  if (length history =? 0)%nat then rl
  else set_actionHistory (<[actionType := keepRecent now history]> (actionHistory rl)) rl.

(** [CanPerformAction]: the pair it returns, and the limiter afterwards. *)
Definition CanPerformAction (now : Time) (actionType : string) (rl : RateLimiter)
  : (bool * string) * RateLimiter :=
  if Before now (cooldownUntil rl) then
    let remaining := Until now (cooldownUntil rl) in
    ((false, "In cooldown period. Wait " +:+ DurationString (Round remaining Second)), rl)
  else
    match limits rl !! actionType with
    | None => ((true, ""), rl)
    | Some limit =>
        let rl := cleanHistory now actionType rl in
        let history := historyOf rl actionType in
        let hourlyCount := countActionsInWindow now history Hour in
        if HourlyMax limit <=? hourlyCount then
          ((false, "Hourly limit reached (" +:+ fmtD hourlyCount +:+ "/"
                     +:+ fmtD (HourlyMax limit) +:+ ")"), rl)
        else
          let dailyCount := countActionsInWindow now history (24 * Hour) in
          if DailyMax limit <=? dailyCount then
            ((false, "Daily limit reached (" +:+ fmtD dailyCount +:+ "/"
                       +:+ fmtD (DailyMax limit) +:+ ")"), rl)
          else
            match last history with
            | Some lastAction =>
                if Sub now lastAction <? MinInterval limit then
                  let remaining := wrap64 (MinInterval limit - Sub now lastAction) in
                  ((false, "Too soon. Wait " +:+ DurationString (Round remaining Second)), rl)
                else ((true, ""), rl)
            | None => ((true, ""), rl)
            end
    end.

(** [RecordAction]: the error (if any) and the limiter afterwards. *)
Definition RecordAction (now : Time) (actionType : string) (rl : RateLimiter)
  : option string * RateLimiter :=
  match limits rl !! actionType with
  | None => (Some ("no limit defined for action type: " +:+ actionType), rl)
  | Some limit =>
      let rl := set_actionHistory
                  (<[actionType := historyOf rl actionType ++ [now]]> (actionHistory rl)) rl in
      let rl := set_consecutiveActions (wrap64 (consecutiveActions rl + 1)) rl in
      let rl :=
        if CooldownAfter limit <=? consecutiveActions rl then
          set_consecutiveActions 0
            (set_cooldownUntil (Add now (CooldownDuration limit)) rl)
        else rl in
      let rl :=
        if After now (hourlyResetTime rl) then set_hourlyResetTime (Add now Hour) rl
        else rl in
      let rl :=
        if After now (dailyResetTime rl) then set_dailyResetTime (Add now (24 * Hour)) rl
        else rl in
      (None, rl)
  end.

(** [GetWaitTime]. *)
Definition GetWaitTime (now : Time) (actionType : string) (rl : RateLimiter)
  : Duration :=
  if Before now (cooldownUntil rl) then Until now (cooldownUntil rl)
  else
    match limits rl !! actionType with
    | None => 0
    | Some limit =>
        match last (historyOf rl actionType) with
        | None => 0
        | Some lastAction =>
            let elapsed := Since now lastAction in
            if elapsed <? MinInterval limit then wrap64 (MinInterval limit - elapsed)
            else 0
        end
    end.

(** The values stored in the [map[string]interface{}] of the statistics. *)
Inductive StatValue :=
| VAction (a : string)
| VInt (n : Z)
| VBool (b : bool)
| VDuration (d : Duration).

(** A call either returns or panics (nil pointer dereference). *)
Inductive outcome (A : Type) :=
| Returned (a : A)
| Panicked.
Arguments Returned {A} a.
Arguments Panicked {A}.

(** [GetActionStats]: [rl.limits[actionType]] is the nil pointer for a
    missing key, and reading [limit.HourlyMax] through it panics. *)
Definition GetActionStats (now : Time) (actionType : string) (rl : RateLimiter)
  : outcome (gmap string StatValue) :=
  let limit := limits rl !! actionType in
  let history := historyOf rl actionType in
  let hourlyCount := countActionsInWindow now history Hour in
  let dailyCount := countActionsInWindow now history (24 * Hour) in
  match limit with
  | None => Panicked
  | Some limit =>
      Returned (list_to_map
        [ ("action_type", VAction actionType);
          ("hourly_count", VInt hourlyCount);
          ("hourly_limit", VInt (HourlyMax limit));
          ("hourly_remaining", VInt (wrap64 (HourlyMax limit - hourlyCount)));
          ("daily_count", VInt dailyCount);
          ("daily_limit", VInt (DailyMax limit));
          ("daily_remaining", VInt (wrap64 (DailyMax limit - dailyCount)));
          ("in_cooldown", VBool (Before now (cooldownUntil rl)));
          ("cooldown_remaining",
             VDuration (if Before now (cooldownUntil rl)
                        then Until now (cooldownUntil rl) else 0)) ])
  end.

(** [ResetCooldown]. *)
Definition ResetCooldown (rl : RateLimiter) : RateLimiter :=
  set_consecutiveActions 0 (set_cooldownUntil zeroTime rl).

(** [ResetDaily]: [cleanHistory] for every key of the history map, then
    the daily timer. *)
Definition ResetDaily (now : Time) (rl : RateLimiter) : RateLimiter :=
  let rl := foldr (fun kv rl => cleanHistory now kv.1 rl) rl
                  (map_to_list (actionHistory rl)) in
  set_dailyResetTime (Add now (24 * Hour)) rl.

(** [IsInCooldown] and [GetCooldownRemaining]. *)
Definition IsInCooldown (now : Time) (rl : RateLimiter) : bool :=
  Before now (cooldownUntil rl).

Definition GetCooldownRemaining (now : Time) (rl : RateLimiter) : Duration :=
  if Before now (cooldownUntil rl) then Until now (cooldownUntil rl) else 0.

(** ** The activity scheduler ([schedule.go]) *)

(** A [*time.Location]: its name and the offset from UTC, in seconds east,
    in force at each instant. *)
Record Location := mkLocation {
  locName : string;
  utcOffset : Time -> Z
}.

(** [time.UTC]. *)
Definition UTC : Location := mkLocation "UTC" (fun _ => 0).

(** Seconds of local time since the zero Time, and the clock fields
    [t.In(loc).Hour()] and [t.In(loc).Minute()]. *)
Definition localSeconds (loc : Location) (t : Time) : Z :=
  t / Second + utcOffset loc t.
Definition HourIn (loc : Location) (t : Time) : Z :=
  (localSeconds loc t mod 86400) / 3600.
Definition MinuteIn (loc : Location) (t : Time) : Z :=
  (localSeconds loc t mod 3600) / 60.

(** [t.UnixNano()]: nanoseconds since January 1, 1970 UTC, as an [int64]. *)
Definition UnixNano (t : Time) : Z := wrap64 (t - 62135596800 * Second).

(** [TimeWindow]. *)
Record TimeWindow := mkTimeWindow {
  Start : Time;
  End : Time
}.

(** The [float64] constants of [IsBreakTime], as the rationals they denote:
    a comparison of finite floats is the comparison of their values. *)
Definition f64_0_70 : Q := 3152519739159347 # (2 ^ 52).
Definition f64_0_40 : Q := 3602879701896397 # (2 ^ 53).

(** [x < y] on float values. *)
Definition f64_lt (x y : Q) : bool := negb (Qle_bool y x).

Section Scheduler.

(** The environment: the time zone database behind [time.LoadLocation]
    ([None] is its error) and the pseudo-random generator of [math/rand],
    [rand.New(rand.NewSource(seed))] with its [Float64] method, which
    returns the draw and the generator's next state. *)
Variable LoadLocation : string -> option Location.
Variable Rand : Type.
Variable NewSource : Z -> Rand.
Variable Float64 : Rand -> Q * Rand.

Record ActivityScheduler := mkActivityScheduler {
  timezone : Location;
  workHoursStart : Z;
  workHoursEnd : Z;
  breakTimes : list TimeWindow;
  lastActivityTime : Time;
  dailyActionCount : Z;
  rand : Rand
}.

Definition set_rand (r : Rand) (sch : ActivityScheduler) : ActivityScheduler :=
  mkActivityScheduler (timezone sch) (workHoursStart sch) (workHoursEnd sch)
    (breakTimes sch) (lastActivityTime sch) (dailyActionCount sch) r.

(** [NewActivityScheduler], called at the instant [now]: the scheduler
    and the error. *)
Definition NewActivityScheduler (now : Time) (tz : string)
  : ActivityScheduler * option string :=
  let loc := match LoadLocation tz with
             | Some loc => loc
             | None => UTC
             end in
  (mkActivityScheduler loc 9 18 [mkTimeWindow zeroTime zeroTime]
     zeroTime 0 (NewSource (UnixNano now)),
   None).

(** [IsBreakTime]: the answer and the scheduler afterwards (its
    generator advances by the draws made). *)
Definition IsBreakTime (now : Time) (sch : ActivityScheduler)
  : bool * ActivityScheduler :=
  let hour := HourIn (timezone sch) now in
  let minute := MinuteIn (timezone sch) now in
  if (hour =? 12) || ((hour =? 13) && (minute <? 30)) then
    let '(x, r) := Float64 (rand sch) in (f64_lt x f64_0_70, set_rand r sch)
  else if (hour =? 10) && (minute <? 15) then
    let '(x, r) := Float64 (rand sch) in (f64_lt x f64_0_40, set_rand r sch)
  else if (hour =? 15) && (minute <? 15) then
    let '(x, r) := Float64 (rand sch) in (f64_lt x f64_0_40, set_rand r sch)
  else (false, sch).

End Scheduler.

Arguments timezone {Rand} _.
Arguments workHoursStart {Rand} _.
Arguments workHoursEnd {Rand} _.
Arguments breakTimes {Rand} _.
Arguments lastActivityTime {Rand} _.
Arguments dailyActionCount {Rand} _.
Arguments rand {Rand} _.
Arguments set_rand {Rand} _ _.
Arguments IsBreakTime {Rand} Float64 now sch.

(** The local time of day in minutes since midnight, in which the break
    bands read 12:00-13:29, 10:00-10:14 and 15:00-15:14. *)
Definition minuteOfDay (loc : Location) (t : Time) : Z :=
  60 * HourIn loc t + MinuteIn loc t.

(** An environment for concrete runs: a three-entry zone table and a
    linear congruential generator whose draws are [state / 2^31]. These
    stand in for the host's zone database and for Go's generator. *)
Definition sampleLoadLocation (tz : string) : option Location :=
  if decide (tz = "UTC") then Some UTC
  else if decide (tz = "") then Some UTC
  else if decide (tz = "Asia/Kolkata")
       then Some (mkLocation "Asia/Kolkata" (fun _ => 19800))
       else None.

Definition sampleNewSource (seed : Z) : Z := seed mod 2 ^ 31.
Definition sampleFloat64 (st : Z) : Q * Z :=
  let st' := (1103515245 * st + 12345) mod 2 ^ 31 in
  (st' # (2 ^ 31), st').

(** ** The other methods of the scheduler, and [timing.go] *)

(** [t.In(loc).Weekday()], Sunday being 0: the zero Time is a Monday. *)
Definition WeekdayIn (loc : Location) (t : Time) : Z :=
  (localSeconds loc t / 86400 + 1) mod 7.
Definition Sunday : Z := 0.
Definition Saturday : Z := 6.

(** [t.IsZero()]. *)
Definition IsZero (t : Time) : bool := t =? zeroTime.

(** The other [float64] constants, as the rationals they denote. *)
Definition f64_0_10 : Q := 3602879701896397 # (2 ^ 55).
Definition f64_0_60 : Q := 5404319552844595 # (2 ^ 53).
Definition f64_0_85 : Q := 7656119366529843 # (2 ^ 53).
Definition f64_0_15 : Q := 5404319552844595 # (2 ^ 55).
Definition f64_0_05 : Q := 3602879701896397 # (2 ^ 56).

(** [time.Duration(n) * unit] on [int64]. *)
Definition durationOf (n : Z) (unit : Duration) : Duration := wrap64 (n * unit).

Section Delays.

(** The generator of [math/rand] again: [Float64], [Intn] and [Int63n]
    return the draw and the generator's next state. [Intn(n)] and
    [Int63n(n)] panic for [n <= 0]; the two functions below are their
    behaviour for a positive [n], and [IntnChecked] and [Int63nChecked]
    add the panic. *)
Variable Rand : Type.
Variable Float64 : Rand -> Q * Rand.
Variable Intn : Rand -> Z -> Z * Rand.
Variable Int63n : Rand -> Z -> Z * Rand.

Definition IntnChecked (r : Rand) (n : Z) : outcome (Z * Rand) :=
  if n <=? 0 then Panicked else Returned (Intn r n).

Definition Int63nChecked (r : Rand) (n : Z) : outcome (Z * Rand) :=
  if n <=? 0 then Panicked else Returned (Int63n r n).

(** [IsWorkingHours]. *)
Definition IsWorkingHours (now : Time) (sch : ActivityScheduler Rand)
  : bool * ActivityScheduler Rand :=
  let hour := HourIn (timezone sch) now in
  let weekday := WeekdayIn (timezone sch) now in
  if (weekday =? Saturday) || (weekday =? Sunday) then
    let '(x, r) := Float64 (rand sch) in (f64_lt x f64_0_10, set_rand r sch)
  else
    let '(i, r) := Intn (rand sch) 2 in
    let startHour := wrap64 (wrap64 (workHoursStart sch + i) - 1) in
    let '(j, r) := Intn r 3 in
    let endHour := wrap64 (wrap64 (workHoursEnd sch + j) - 1) in
    ((startHour <=? hour) && (hour <? endHour), set_rand r sch).

(** [GetBreakDuration]. *)
Definition GetBreakDuration (sch : ActivityScheduler Rand)
  : Duration * ActivityScheduler Rand :=
  let '(breakType, r) := Float64 (rand sch) in
  if f64_lt breakType f64_0_60 then
    let '(i, r) := Intn r 4 in (durationOf (2 + i) Minute, set_rand r sch)
  else if f64_lt breakType f64_0_85 then
    let '(i, r) := Intn r 11 in (durationOf (5 + i) Minute, set_rand r sch)
  else
    let '(i, r) := Intn r 31 in (durationOf (15 + i) Minute, set_rand r sch).

(** [GetThinkTime]. *)
Definition GetThinkTime (sch : ActivityScheduler Rand)
  : Duration * ActivityScheduler Rand :=
  let '(i, r) := Intn (rand sch) 4000 in
  let base := 1000 + i in
  let '(x, r) := Float64 r in
  if f64_lt x f64_0_15 then
    let '(j, r) := Intn r 7000 in
    (durationOf (base + (3000 + j)) Millisecond, set_rand r sch)
  else (durationOf base Millisecond, set_rand r sch).

(** [GetActionInterval]. *)
Definition GetActionInterval (now : Time) (sch : ActivityScheduler Rand)
  : Duration * ActivityScheduler Rand :=
  let '(i, r) := Intn (rand sch) 76 in
  let baseSeconds := 15 + i in
  let hour := HourIn (timezone sch) now in
  let '(baseSeconds, r) :=
    if (hour <? 10) || (17 <? hour) then
      let '(j, r) := Intn r 30 in (baseSeconds + j, r)
    else (baseSeconds, r) in
  let '(baseSeconds, r) :=
    if (10 <=? hour) && (hour <=? 15) then
      let '(j, r) := Intn r 10 in
      let baseSeconds := baseSeconds - j in
      (if baseSeconds <? 10 then 10 else baseSeconds, r)
    else (baseSeconds, r) in
  (durationOf baseSeconds Second, set_rand r sch).

(** [GetScrollDelay]. *)
Definition GetScrollDelay (sch : ActivityScheduler Rand)
  : Duration * ActivityScheduler Rand :=
  let '(x, r) := Float64 (rand sch) in
  if f64_lt x f64_0_70 then
    let '(i, r) := Intn r 600 in (durationOf (200 + i) Millisecond, set_rand r sch)
  else
    let '(i, r) := Intn r 2000 in (durationOf (1000 + i) Millisecond, set_rand r sch).

(** [GetTypingDelay]. *)
Definition GetTypingDelay (sch : ActivityScheduler Rand)
  : Duration * ActivityScheduler Rand :=
  let '(i, r) := Intn (rand sch) 151 in
  let base := 50 + i in
  let '(x, r) := Float64 r in
  if f64_lt x f64_0_10 then
    let '(j, r) := Intn r 700 in
    (durationOf (base + (300 + j)) Millisecond, set_rand r sch)
  else (durationOf base Millisecond, set_rand r sch).

(** [GetPageLoadWait]. *)
Definition GetPageLoadWait (sch : ActivityScheduler Rand)
  : Duration * ActivityScheduler Rand :=
  let '(i, r) := Intn (rand sch) 3000 in
  (durationOf (2000 + i) Millisecond, set_rand r sch).

(** [RecordActivity], [ResetDailyCount] and [GetDailyActionCount]. *)
Definition RecordActivity (now : Time) (sch : ActivityScheduler Rand)
  : ActivityScheduler Rand :=
  mkActivityScheduler Rand (timezone sch) (workHoursStart sch) (workHoursEnd sch)
    (breakTimes sch) now (wrap64 (dailyActionCount sch + 1)) (rand sch).

Definition ResetDailyCount (sch : ActivityScheduler Rand) : ActivityScheduler Rand :=
  mkActivityScheduler Rand (timezone sch) (workHoursStart sch) (workHoursEnd sch)
    (breakTimes sch) (lastActivityTime sch) 0 (rand sch).

Definition GetDailyActionCount (sch : ActivityScheduler Rand) : Z :=
  dailyActionCount sch.

(** [SimulateHumanRhythm]. *)
Definition SimulateHumanRhythm (now : Time) (sch : ActivityScheduler Rand)
  : Duration * ActivityScheduler Rand :=
  let hour := HourIn (timezone sch) now in
  if (9 <=? hour) && (hour <? 11) then
    let '(i, r) := Intn (rand sch) 3000 in
    (durationOf (2000 + i) Millisecond, set_rand r sch)
  else if (11 <=? hour) && (hour <? 14) then
    let '(i, r) := Intn (rand sch) 1200 in
    (durationOf (800 + i) Millisecond, set_rand r sch)
  else if (14 <=? hour) && (hour <? 16) then
    let '(i, r) := Intn (rand sch) 2000 in
    (durationOf (1500 + i) Millisecond, set_rand r sch)
  else if (16 <=? hour) && (hour <? 18) then
    let '(i, r) := Intn (rand sch) 3500 in
    (durationOf (2500 + i) Millisecond, set_rand r sch)
  else
    let '(i, r) := Intn (rand sch) 2000 in
    (durationOf (1500 + i) Millisecond, set_rand r sch).

(** [GetRandomDelay]: the bounds are [int]s, and [Intn] panics when the
    width it is given is not positive. *)
Definition GetRandomDelay (minMs maxMs : Z) (sch : ActivityScheduler Rand)
  : outcome (Duration * ActivityScheduler Rand) :=
  let maxMs := if maxMs <=? minMs then wrap64 (minMs + 1000) else maxMs in
  match IntnChecked (rand sch) (wrap64 (maxMs - minMs)) with
  | Panicked => Panicked
  | Returned (i, r) =>
      Returned (durationOf (wrap64 (minMs + i)) Millisecond, set_rand r sch)
  end.

(** [RandomDelay] of [timing.go], on the generator it draws from: the
    duration it sleeps for. *)
Definition RandomDelay (minMs maxMs : Z) (r : Rand) : outcome (Duration * Rand) :=
  match IntnChecked r (wrap64 (maxMs - minMs)) with
  | Panicked => Panicked
  | Returned (i, r) => Returned (durationOf (wrap64 (minMs + i)) Millisecond, r)
  end.

(** [1 << uint(attempt)] at type [time.Duration]: the count is the
    unsigned reading of [attempt], and a count of 64 or more shifts
    everything out. *)
Definition shiftOne (attempt : Z) : Duration :=
  let count := attempt mod 2 ^ 64 in
  if count <? 64 then wrap64 (2 ^ count) else 0.

(** [ExponentialBackoff]. *)
Definition ExponentialBackoff (attempt : Z) (baseDelay maxDelay : Duration)
    (r : Rand) : outcome (Duration * Rand) :=
  let delay := wrap64 (baseDelay * shiftOne attempt) in
  let delay := if maxDelay <? delay then maxDelay else delay in
  match Int63nChecked r (Z.quot delay 4) with
  | Panicked => Panicked
  | Returned (jitter, r) => Returned (wrap64 (delay + jitter), r)
  end.

(** [RandomizeSchedule]. *)
Definition RandomizeSchedule (baseTime : Time) (windowMinutes : Z) (r : Rand)
  : outcome (Time * Rand) :=
  match IntnChecked r (wrap64 (windowMinutes * 60)) with
  | Panicked => Panicked
  | Returned (offset, r) => Returned (Add baseTime (durationOf offset Second), r)
  end.

End Delays.

Arguments IsWorkingHours {Rand} Float64 Intn now sch.
Arguments GetBreakDuration {Rand} Float64 Intn sch.
Arguments GetThinkTime {Rand} Float64 Intn sch.
Arguments GetActionInterval {Rand} Intn now sch.
Arguments GetScrollDelay {Rand} Float64 Intn sch.
Arguments GetTypingDelay {Rand} Float64 Intn sch.
Arguments GetPageLoadWait {Rand} Intn sch.
Arguments RecordActivity {Rand} now sch.
Arguments ResetDailyCount {Rand} sch.
Arguments GetDailyActionCount {Rand} sch.
Arguments SimulateHumanRhythm {Rand} Intn now sch.
Arguments GetRandomDelay {Rand} Intn minMs maxMs sch.
Arguments RandomDelay {Rand} Intn minMs maxMs r.
Arguments ExponentialBackoff {Rand} Int63n attempt baseDelay maxDelay r.
Arguments RandomizeSchedule {Rand} Intn baseTime windowMinutes r.

(** Bounded draws for the sample generator of the concrete runs. *)
Definition sampleIntn (st : Z) (n : Z) : Z * Z :=
  let st' := (1103515245 * st + 12345) mod 2 ^ 31 in
  (st' mod n, st').

(** What the programs rely on from [Intn] and [Int63n]: for a positive
    [n] the draw lies in [0, n). *)
Definition boundedDraws {Rand : Type} (draw : Rand -> Z -> Z * Rand) : Prop :=
  forall r n, 0 < n -> 0 <= (draw r n).1 < n.

(** [RecordActivity] at each of the given instants, in order. *)
Definition recordActivities {Rand : Type} (times : list Time)
    (sch : ActivityScheduler Rand) : ActivityScheduler Rand :=
  foldl (fun sch t => RecordActivity t sch) sch times.

(** The scheduler of the concrete runs. *)
Definition sampleScheduler : ActivityScheduler Z :=
  (NewActivityScheduler sampleLoadLocation Z sampleNewSource 0 "UTC").1.

(** ** [typing.go] and [login.go]: two string helpers *)

(** [splitIntoWords] reads its text rune by rune ([for _, char := range
    text]) and builds each word from runes ([current += string(char)]):
    the model works on the sequence of runes of the text, and a word is
    the empty string exactly when it has no rune. *)
Definition rune := Z.
Definition spaceRune : rune := 32.

Definition isEmpty {A : Type} (l : list A) : bool :=
  match l with
  | [] => true
  | _ => false
  end.

Fixpoint splitLoop (text : list rune) (words : list (list rune))
    (current : list rune) : list (list rune) * list rune :=
  match text with
  | [] => (words, current)
  | char :: text =>
      if char =? spaceRune then
        if negb (isEmpty current) then splitLoop text (words ++ [current]) []
        else splitLoop text words current
      else splitLoop text words (current ++ [char])
  end.

Definition splitIntoWords (text : list rune) : list (list rune) :=
  let '(words, current) := splitLoop text [] [] in
  if negb (isEmpty current) then words ++ [current] else words.

(** The words with one space between neighbours, which is what
    [TypeWithBackspace] types for them. *)
Fixpoint joinWords (words : list (list rune)) : list rune :=
  match words with
  | [] => []
  | [w] => w
  | w :: words => w ++ spaceRune :: joinWords words
  end.

(** A word as [splitIntoWords] makes them: not empty, no space in it. *)
Definition properWord (w : list rune) : Prop :=
  w <> [] /\ Forall (fun c => c <> spaceRune) w.

(** [contains] of [login.go], on the bytes of its two strings:
    [s[i:i+len(sub)]] is [take (len sub) (drop i s)]. The loop runs while
    [i+len(sub) <= len(s)], so at most [len(s)+1] times. *)
Fixpoint containsFrom (rounds : nat) (i : nat) (s sub : list ascii) : bool :=
  match rounds with
  | O => false
  | S rounds =>
      if (i + length sub <=? length s)%nat then
        if bool_decide (take (length sub) (drop i s) = sub) then true
        else containsFrom rounds (S i) s sub
      else false
  end.

Definition contains (s sub : list ascii) : bool :=
  containsFrom (S (length s)) 0 s sub.

(** ** Runs of the limiter *)

(** [RecordAction] for one kind at each of the given instants, in order. *)
Definition recordAll (k : string) (times : list Time) (rl : RateLimiter)
  : RateLimiter :=
  foldl (fun rl t => (RecordAction t k rl).2) rl times.

(** [CanPerformAction] for each of the given instants and kinds, in order,
    keeping only the limiter. *)
Definition queryAll (qs : list (Time * string)) (rl : RateLimiter) : RateLimiter :=
  foldl (fun rl q => (CanPerformAction q.1 q.2 rl).2) rl qs.

(** Five connection requests 90 seconds apart, the first at [t0], on a
    limiter built at [c]. *)
Definition cooldownScenario (c t0 : Time) : RateLimiter :=
  recordAll ActionConnectionReq
    [t0; t0 + 90 * Second; t0 + 180 * Second; t0 + 270 * Second; t0 + 360 * Second]
    (NewRateLimiter c).

(** Twenty scrolls two seconds apart from instant 0 (the twentieth, at
    38s, starts a cooldown of two minutes), then a comment at 40s. *)
Definition scrollsThenComment : RateLimiter :=
  recordAll ActionComment [40 * Second]
    (recordAll ActionScroll
       (List.map (fun i => 2 * Second * Z.of_nat i) (seq 0 20))
       (NewRateLimiter 0)).

(** One message recorded at instant 0. *)
Definition oneMessage : RateLimiter :=
  recordAll ActionMessage [0] (NewRateLimiter 0).

(** What the scenario needs of a limiter: the configured limit, the
    cooldown end, and a history of at most five requests, none after the
    fifth record. Queries keep it. *)
Definition afterFiveRequests (t0 : Time) (rl : RateLimiter) : Prop :=
  limits rl !! ActionConnectionReq
    = Some (mkActionLimit 10 50 (90 * Second) 5 (10 * Minute)) /\
  cooldownUntil rl = t0 + 960 * Second /\
  consecutiveActions rl = 0 /\
  (length (historyOf rl ActionConnectionReq) <= 5)%nat /\
  forall t, t ∈ historyOf rl ActionConnectionReq -> t <= t0 + 360 * Second.

(** ** The remaining methods of the limiter, and its callers *)

(** [GetAllStats]: [GetActionStats] for every key of [limits], gathered
    in a map; a panic of one call is a panic of the whole. *)
Definition GetAllStats (now : Time) (rl : RateLimiter)
  : outcome (gmap string (gmap string StatValue)) :=
  foldr (fun kv acc =>
           match acc with
           | Panicked => Panicked
           | Returned stats =>
               match GetActionStats now kv.1 rl with
               | Panicked => Panicked
               | Returned s => Returned (<[kv.1 := s]> stats)
               end
           end)
        (Returned ∅) (map_to_list (limits rl)).

(** The calls a client makes on the limiter. [CallAttempt k lag] is the
    use the two-call interface is made for: ask [CanPerformAction], and
    only when allowed act and report it with [RecordAction], [lag] later. *)
Inductive Call :=
| CallCanPerformAction (k : string)
| CallRecordAction (k : string)
| CallAttempt (k : string) (lag : Duration)
| CallResetCooldown
| CallResetDaily.

Definition attempt (now : Time) (k : string) (lag : Duration) (rl : RateLimiter)
  : RateLimiter :=
  let '((allowed, _), rl1) := CanPerformAction now k rl in
  if allowed then (RecordAction (now + lag) k rl1).2 else rl1.

Definition call (now : Time) (c : Call) (rl : RateLimiter) : RateLimiter :=
  match c with
  | CallCanPerformAction k => (CanPerformAction now k rl).2
  | CallRecordAction k => (RecordAction now k rl).2
  | CallAttempt k lag => attempt now k lag rl
  | CallResetCooldown => ResetCooldown rl
  | CallResetDaily => ResetDaily now rl
  end.

(** A client's calls with the instants they are made at, run in order. *)
Definition runCalls (cs : list (Time * Call)) (rl : RateLimiter) : RateLimiter :=
  foldl (fun rl tc => call tc.1 tc.2 rl) rl cs.

(** The clock when a call is over. *)
Definition callEnd (now : Time) (c : Call) : Time :=
  match c with
  | CallAttempt _ lag => now + lag
  | _ => now
  end.

(** The calls are made at instants that never go back, from [from] on. *)
Fixpoint clockOrdered (from : Time) (cs : list (Time * Call)) : Prop :=
  match cs with
  | [] => True
  | tc :: cs => from <= tc.1 /\ tc.1 <= callEnd tc.1 tc.2 /\
                clockOrdered (callEnd tc.1 tc.2) cs
  end.

Definition clockEnd (from : Time) (cs : list (Time * Call)) : Time :=
  foldl (fun _ tc => callEnd tc.1 tc.2) from cs.

(** The client never reports an action it did not ask permission for. *)
Definition checksFirst (cs : list (Time * Call)) : Prop :=
  Forall (fun tc => match tc.2 with
                    | CallRecordAction _ => False
                    | _ => True
                    end) cs.

(** The entries of a history inside the window that ends at [now]. *)
Definition inWindow (now : Time) (window : Duration) (history : list Time)
  : list Time :=
  List.filter (fun t => After t (Add now (- window))) history.

(** Every history is in time order and holds no instant after [t]. *)
Definition historiesOrdered (t : Time) (rl : RateLimiter) : Prop :=
  forall k, StronglySorted Z.le (historyOf rl k) /\
            Forall (fun x => x <= t) (historyOf rl k).

(** Every configured kind is within its hourly and daily caps at [t], and
    its recorded instants are at least its minimum interval apart. *)
Definition withinQuota (t : Time) (rl : RateLimiter) : Prop :=
  forall k limit, limits rl !! k = Some limit ->
    Z.of_nat (length (inWindow t Hour (historyOf rl k))) <= Z.max 0 (HourlyMax limit) /\
    Z.of_nat (length (inWindow t (24 * Hour) (historyOf rl k))) <= Z.max 0 (DailyMax limit) /\
    StronglySorted (fun a b => a + MinInterval limit <= b) (historyOf rl k).

(** A client's afternoon: a message sent, a second one refused as too
    soon, a third sent, histories pruned, and a look at scrolling. *)
Definition sampleCalls : list (Time * Call) :=
  [ (0, CallAttempt ActionMessage (1 * Second));
    (10 * Second, CallAttempt ActionMessage 0);
    (100 * Second, CallAttempt ActionMessage (2 * Second));
    (200 * Second, CallResetDaily);
    (300 * Second, CallCanPerformAction ActionScroll) ].

(** [ThrottleAction] of [timing.go], called at [now]: the time it sleeps,
    zero when it does not sleep. *)
Definition ThrottleAction (now : Time) (lastActionTime : Time)
    (minInterval : Duration) : Duration :=
  let elapsed := Since now lastActionTime in
  if elapsed <? minInterval then wrap64 (minInterval - elapsed) else 0.

(** At the clock [t], not before the zero Time: either no cooldown is
    running, or the running one outlasts the minimum interval of every
    recorded instant. *)
Definition cooldownCoversIntervals (t : Time) (rl : RateLimiter) : Prop :=
  zeroTime <= t /\
  (cooldownUntil rl <= t \/
   forall k limit l,
     limits rl !! k = Some limit -> l ∈ historyOf rl k ->
     l + MinInterval limit <= cooldownUntil rl).

(** No minimum interval is longer than any cooldown, and all are
    Durations. *)
Definition intervalsWithinCooldowns (limits : gmap string ActionLimit) : Prop :=
  forall k1 limit1 k2 limit2,
    limits !! k1 = Some limit1 -> limits !! k2 = Some limit2 ->
    minDuration <= MinInterval limit1 <= maxDuration /\
    MinInterval limit1 <= CooldownDuration limit2.

(** Ten connection requests reported 100 seconds apart from instant 0. *)
Definition tenRequests : RateLimiter :=
  recordAll ActionConnectionReq
    (List.map (fun i => 100 * Second * Z.of_nat i) (seq 0 10))
    (NewRateLimiter 0).

(** * Properties *)

(** Reduce the projections of a limiter built by the setters. *)
Ltac limiter_fields :=
  cbn [limits actionHistory dailyResetTime hourlyResetTime cooldownUntil
       consecutiveActions set_actionHistory set_dailyResetTime
       set_hourlyResetTime set_cooldownUntil set_consecutiveActions fst snd] in *.

(** ** Durations as Go prints and rounds them *)

Example DurationString_samples :
  DurationString (10 * Minute) = "10m0s" /\
  DurationString (90 * Second) = "1m30s" /\
  DurationString (3 * Hour + 7 * Second) = "3h0m7s" /\
  DurationString 0 = "0s" /\
  DurationString (1500 * Millisecond) = "1.5s" /\
  DurationString (- 40 * Second) = "-40s" /\
  DurationString 1500 = String "049" (String "046" (String "053" (String "194" (String "181" "s")))) /\
  DurationString maxDuration = "2562047h47m16.854775807s".
Proof. vm_compute. repeat split. Qed.

Example Round_samples :
  Round (599 * Second + 500 * Millisecond) Second = 10 * Minute /\
  Round (599 * Second + 499 * Millisecond) Second = 599 * Second /\
  Round (- 1500 * Millisecond) Second = - 2 * Second /\
  Round maxDuration Second = maxDuration.
Proof. vm_compute. repeat split. Qed.

(** ** Histories *)

Lemma historyOf_insert_eq h rl k v :
  historyOf (set_actionHistory (<[k := v]> h) rl) k = v.
Proof. unfold historyOf; simpl. by rewrite lookup_insert_eq. Qed.

(** A history of length zero is the empty list. *)
Lemma length_eqb_0 {A} (l : list A) : (length l =? 0)%nat = true <-> l = [].
Proof. destruct l; simpl; split; congruence. Qed.

(** ** [RecordAction] *)

(** The fields [RecordAction] leaves alone on success, and the history it
    writes. *)
Lemma RecordAction_success now k rl limit :
  limits rl !! k = Some limit ->
  (RecordAction now k rl).1 = None /\
  limits (RecordAction now k rl).2 = limits rl /\
  actionHistory (RecordAction now k rl).2
    = <[k := historyOf rl k ++ [now]]> (actionHistory rl).
Proof.
  intros Hl. destruct rl as [l h d hr c n]. unfold RecordAction.
  limiter_fields. rewrite Hl. limiter_fields.
  destruct (CooldownAfter limit <=? wrap64 (n + 1)); limiter_fields;
    destruct (After now hr); limiter_fields;
    destruct (After now d); repeat split; reflexivity.
Qed.

(** C7. [RecordAction] fails exactly for a kind without a configured limit,
    with the message naming the kind; a failed call leaves the whole limiter
    as it was (histories, consecutive counter and cooldown end included); a
    successful call appends the current instant, and nothing else, to the
    history of that kind and leaves the other histories alone. *)
Theorem RecordAction_error_iff_unconfigured :
  forall (now : Time) (k : string) (rl : RateLimiter),
    ((RecordAction now k rl).1 <> None <-> limits rl !! k = None) /\
    (limits rl !! k = None ->
       (RecordAction now k rl).1 = Some ("no limit defined for action type: " +:+ k) /\
       (RecordAction now k rl).2 = rl) /\
    (limits rl !! k <> None ->
       (RecordAction now k rl).1 = None /\
       historyOf (RecordAction now k rl).2 k = historyOf rl k ++ [now] /\
       forall k', k' ≠ k ->
         actionHistory (RecordAction now k rl).2 !! k' = actionHistory rl !! k').
Proof.
  intros now k rl. destruct (limits rl !! k) as [limit|] eqn:Hl.
  - destruct (RecordAction_success now k rl limit Hl) as (He & _ & Hh).
    split; [|split].
    + rewrite He. split; congruence.
    + congruence.
    + intros _. split; [exact He|]. split.
      * unfold historyOf at 1. rewrite Hh. by rewrite lookup_insert_eq.
      * intros k' Hne. rewrite Hh. by rewrite lookup_insert_ne.
  - unfold RecordAction. rewrite Hl. cbn [fst snd]. split; [|split].
    + split; congruence.
    + intros _. split; reflexivity.
    + congruence.
Qed.

(** ** Pruning *)

Lemma keepRecent_spec now (h : list Time) t :
  t ∈ keepRecent now h <-> t ∈ h /\ now - 24 * Hour < t.
Proof.
  unfold keepRecent, After, Add. rewrite list_elem_of_In, filter_In.
  rewrite <- list_elem_of_In, Z.ltb_lt. split; intros [? ?]; split; auto; lia.
Qed.

Lemma keepRecent_id now (h : list Time) :
  (forall t, t ∈ h -> now - 24 * Hour < t) -> keepRecent now h = h.
Proof.
  unfold keepRecent, After, Add. induction h as [|x h IH]; intros Hall; simpl.
  - reflexivity.
  - destruct (Z.ltb_spec (now + - (24 * Hour)) x) as [_|Hle].
    + f_equal. apply IH. intros t Ht. apply Hall. by right.
    + specialize (Hall x ltac:(left)). lia.
Qed.

Lemma keepRecent_idemp now (h : list Time) :
  keepRecent now (keepRecent now h) = keepRecent now h.
Proof. apply keepRecent_id. intros t Ht. by apply keepRecent_spec in Ht as [_ ?]. Qed.

Lemma keepRecent_length now (h : list Time) :
  (length (keepRecent now h) <= length h)%nat.
Proof. unfold keepRecent. apply filter_length_le. Qed.

(** What [cleanHistory] does to the history it is asked to clean, to the
    other histories and to the other fields. *)
Lemma cleanHistory_same now k rl :
  historyOf (cleanHistory now k rl) k = keepRecent now (historyOf rl k).
Proof.
  unfold cleanHistory.
  destruct (length (historyOf rl k) =? 0)%nat eqn:E.
  - apply length_eqb_0 in E. by rewrite E.
  - apply historyOf_insert_eq.
Qed.

Lemma cleanHistory_other now k k' rl :
  k ≠ k' -> actionHistory (cleanHistory now k rl) !! k' = actionHistory rl !! k'.
Proof.
  intros Hne. unfold cleanHistory.
  destruct (length (historyOf rl k) =? 0)%nat; [reflexivity|].
  simpl. by rewrite lookup_insert_ne.
Qed.

Lemma cleanHistory_fields now k rl :
  limits (cleanHistory now k rl) = limits rl /\
  dailyResetTime (cleanHistory now k rl) = dailyResetTime rl /\
  hourlyResetTime (cleanHistory now k rl) = hourlyResetTime rl /\
  cooldownUntil (cleanHistory now k rl) = cooldownUntil rl /\
  consecutiveActions (cleanHistory now k rl) = consecutiveActions rl.
Proof.
  unfold cleanHistory. destruct (length (historyOf rl k) =? 0)%nat; simpl; tauto.
Qed.

(** Nothing to remove: the limiter is the same afterwards. *)
Lemma cleanHistory_id now k rl :
  (forall t, t ∈ historyOf rl k -> now - 24 * Hour < t) ->
  cleanHistory now k rl = rl.
Proof.
  intros Hall. unfold cleanHistory.
  destruct (length (historyOf rl k) =? 0)%nat eqn:E; [reflexivity|].
  rewrite (keepRecent_id _ _ Hall). destruct rl as [l h d hr c n].
  unfold set_actionHistory, historyOf in *; simpl in *. f_equal.
  destruct (h !! k) as [v|] eqn:Hk; simpl in *.
  - by apply insert_id.
  - discriminate.
Qed.

Lemma cleanHistory_idemp now k rl :
  cleanHistory now k (cleanHistory now k rl) = cleanHistory now k rl.
Proof.
  apply cleanHistory_id. intros t. rewrite cleanHistory_same.
  intros Ht. by apply keepRecent_spec in Ht as [_ ?].
Qed.

(** The loop of [ResetDaily] over any list of keys. *)
Lemma cleanHistory_foldr_history now (ks : list (string * list Time)) rl k :
  historyOf (foldr (fun kv rl => cleanHistory now kv.1 rl) rl ks) k
  = if decide (k ∈ ks.*1) then keepRecent now (historyOf rl k) else historyOf rl k.
Proof.
  induction ks as [|[k0 v0] ks IH].
  - simpl. destruct (decide (k ∈ [])) as [Hin|_]; [|reflexivity].
    by apply elem_of_nil in Hin.
  - cbn [foldr fmap list_fmap fst].
    destruct (decide (k0 = k)) as [->|Hne].
    + rewrite cleanHistory_same, IH.
      rewrite (decide_True (P := k ∈ k :: ks.*1)) by (by left).
      destruct (decide (k ∈ ks.*1)); [apply keepRecent_idemp | reflexivity].
    + unfold historyOf at 1. rewrite (cleanHistory_other _ _ _ _ Hne).
      fold (historyOf (foldr (fun kv rl => cleanHistory now kv.1 rl) rl ks) k).
      rewrite IH.
      destruct (decide (k ∈ ks.*1)) as [Hin|Hin].
      * rewrite decide_True; [reflexivity | by right].
      * rewrite decide_False; [reflexivity|].
        intros [?|?]%elem_of_cons; [congruence | contradiction].
Qed.

(** [ResetDaily] prunes the history of every kind. *)
Lemma ResetDaily_history now rl k :
  historyOf (ResetDaily now rl) k = keepRecent now (historyOf rl k).
Proof.
  unfold ResetDaily.
  change (historyOf (set_dailyResetTime ?t ?r) k) with (historyOf r k).
  rewrite cleanHistory_foldr_history. case_decide as Hin; [reflexivity|].
  unfold historyOf. destruct (actionHistory rl !! k) as [v|] eqn:Hk; [|reflexivity].
  exfalso. apply Hin. apply list_elem_of_fmap. exists (k, v). split; [reflexivity|].
  by apply elem_of_map_to_list.
Qed.

(** ** [CanPerformAction] *)

(** The limiter after a call: untouched during a cooldown and for a kind
    without a limit, otherwise cleaned for the queried kind. *)
Lemma CanPerformAction_state now k rl :
  (CanPerformAction now k rl).2 =
    if Before now (cooldownUntil rl) then rl
    else match limits rl !! k with
         | None => rl
         | Some _ => cleanHistory now k rl
         end.
Proof.
  unfold CanPerformAction.
  destruct (Before now (cooldownUntil rl)); [reflexivity|].
  destruct (limits rl !! k) as [limit|]; [|reflexivity].
  repeat (match goal with
          | |- context [if ?b then _ else _] => destruct b
          | |- context [match last ?h with _ => _ end] => destruct (last h)
          end); reflexivity.
Qed.

(** During a cooldown every kind is refused, with the cooldown reason. *)
Lemma CanPerformAction_cooldown now k rl :
  now < cooldownUntil rl ->
  CanPerformAction now k rl =
    ((false, "In cooldown period. Wait "
               +:+ DurationString (Round (Until now (cooldownUntil rl)) Second)), rl).
Proof.
  intros Hlt. unfold CanPerformAction, Before.
  destruct (Z.ltb_spec now (cooldownUntil rl)); [reflexivity | lia].
Qed.

(** A second call at the same instant finds nothing left to prune and
    repeats the first answer. *)
Lemma CanPerformAction_again now k rl :
  CanPerformAction now k (CanPerformAction now k rl).2
  = ((CanPerformAction now k rl).1, (CanPerformAction now k rl).2).
Proof.
  pose proof (CanPerformAction_state now k rl) as Hst.
  rewrite Hst.
  destruct (Before now (cooldownUntil rl)) eqn:Hc.
  { rewrite <- Hst at 3. by destruct (CanPerformAction now k rl). }
  destruct (limits rl !! k) as [limit|] eqn:Hl.
  2:{ rewrite <- Hst at 3. by destruct (CanPerformAction now k rl). }
  destruct (cleanHistory_fields now k rl) as (Hlim & _ & _ & Hcu & _).
  unfold CanPerformAction. rewrite Hcu, Hc, Hlim, Hl, cleanHistory_idemp.
  repeat (match goal with
          | |- context [if ?b then _ else _] => destruct b
          | |- context [match last ?h with _ => _ end] => destruct (last h)
          end); reflexivity.
Qed.

(** What a call may touch: only the history of the queried kind, which
    is either as before or pruned. *)
Lemma CanPerformAction_frame now k rl :
  let rl' := (CanPerformAction now k rl).2 in
  (limits rl' = limits rl /\
   dailyResetTime rl' = dailyResetTime rl /\
   hourlyResetTime rl' = hourlyResetTime rl /\
   cooldownUntil rl' = cooldownUntil rl /\
   consecutiveActions rl' = consecutiveActions rl) /\
  (forall k', k' ≠ k -> actionHistory rl' !! k' = actionHistory rl !! k') /\
  (historyOf rl' k = historyOf rl k \/
   historyOf rl' k = keepRecent now (historyOf rl k)).
Proof.
  intros rl'. subst rl'. rewrite CanPerformAction_state.
  destruct (Before now (cooldownUntil rl)); [by repeat split; auto|].
  destruct (limits rl !! k); [|by repeat split; auto].
  split; [apply cleanHistory_fields|]. split.
  - intros k' Hne. by apply cleanHistory_other.
  - right. apply cleanHistory_same.
Qed.

(** Outside a cooldown, a kind without a limit is allowed. *)
Lemma CanPerformAction_no_limit now k rl :
  limits rl !! k = None -> cooldownUntil rl <= now ->
  CanPerformAction now k rl = ((true, ""), rl).
Proof.
  intros Hl Hc. unfold CanPerformAction, Before.
  destruct (Z.ltb_spec now (cooldownUntil rl)); [lia|]. by rewrite Hl.
Qed.

(** C2, as the code has it. [CanPerformAction] writes to the limiter:
    outside a cooldown and for a configured kind it replaces the history of
    the queried kind by its entries newer than 24 hours; during a cooldown
    and for a kind without a limit it writes nothing. Everything else
    (limits, timers, cooldown end, consecutive counter, the histories of
    the other kinds) is as before. So the limiter changes exactly when no
    cooldown is active, the kind is configured and its history holds an
    entry 24 hours old or older; it is wholly unchanged when the queried
    history holds no entry that old; and a second call at the same instant
    changes nothing more and returns the same answer. *)
Theorem CanPerformAction_only_prunes :
  forall (now : Time) (k : string) (rl : RateLimiter),
    let rl' := (CanPerformAction now k rl).2 in
    (limits rl' = limits rl /\
     dailyResetTime rl' = dailyResetTime rl /\
     hourlyResetTime rl' = hourlyResetTime rl /\
     cooldownUntil rl' = cooldownUntil rl /\
     consecutiveActions rl' = consecutiveActions rl) /\
    (forall k', k' ≠ k -> actionHistory rl' !! k' = actionHistory rl !! k') /\
    (historyOf rl' k = historyOf rl k \/
     historyOf rl' k = keepRecent now (historyOf rl k)) /\
    ((forall t, t ∈ historyOf rl k -> now - 24 * Hour < t) -> rl' = rl) /\
    CanPerformAction now k rl' = ((CanPerformAction now k rl).1, rl') /\
    (cooldownUntil rl <= now -> limits rl !! k <> None ->
       historyOf rl' k = keepRecent now (historyOf rl k) /\
       forall t, t ∈ historyOf rl' k <-> t ∈ historyOf rl k /\ now - 24 * Hour < t) /\
    (now < cooldownUntil rl \/ limits rl !! k = None -> rl' = rl) /\
    (rl' <> rl <->
       cooldownUntil rl <= now /\ limits rl !! k <> None /\
       exists t, t ∈ historyOf rl k /\ t <= now - 24 * Hour).
Proof.
  intros now k rl rl'. subst rl'.
  destruct (CanPerformAction_frame now k rl) as (Hfields & Hother & Hsame).
  assert (Hfresh : (forall t, t ∈ historyOf rl k -> now - 24 * Hour < t) ->
                   (CanPerformAction now k rl).2 = rl).
  { intros Hall. rewrite CanPerformAction_state.
    destruct (Before now (cooldownUntil rl)); [reflexivity|].
    destruct (limits rl !! k); [by apply cleanHistory_id | reflexivity]. }
  assert (Hprune : cooldownUntil rl <= now -> limits rl !! k <> None ->
                   historyOf (CanPerformAction now k rl).2 k
                   = keepRecent now (historyOf rl k)).
  { intros Hc Hl. rewrite CanPerformAction_state. unfold Before.
    destruct (Z.ltb_spec now (cooldownUntil rl)); [lia|].
    destruct (limits rl !! k); [apply cleanHistory_same | congruence]. }
  assert (Hidle : now < cooldownUntil rl \/ limits rl !! k = None ->
                  (CanPerformAction now k rl).2 = rl).
  { intros Hcase. rewrite CanPerformAction_state. unfold Before.
    destruct (Z.ltb_spec now (cooldownUntil rl)); [reflexivity|].
    destruct Hcase as [?|Hl]; [lia|]. by rewrite Hl. }
  split; [exact Hfields|]. split; [exact Hother|]. split; [exact Hsame|].
  split; [exact Hfresh|]. split; [apply CanPerformAction_again|].
  split; [|split; [exact Hidle|]].
  - intros Hc Hl. split; [by apply Hprune|].
    intros t. rewrite (Hprune Hc Hl). apply keepRecent_spec.
  - split.
    + intros Hne.
      destruct (Z.ltb_spec now (cooldownUntil rl)) as [Hc|Hc];
        [exfalso; apply Hne, Hidle; by left|].
      destruct (limits rl !! k) as [limit|] eqn:Hl;
        [|exfalso; apply Hne, Hidle; by right].
      split; [exact Hc|]. split; [discriminate|].
      destruct (decide (Forall (fun t => now - 24 * Hour < t) (historyOf rl k)))
        as [Hall|Hsome].
      * exfalso. apply Hne, Hfresh. intros t Ht.
        rewrite Forall_forall in Hall. by apply Hall.
      * apply not_Forall_Exists in Hsome; [|apply _].
        apply Exists_exists in Hsome as (t & Ht & Hold).
        exists t. split; [exact Ht|]. cbn in Hold. lia.
    + intros (Hc & Hl & t & Ht & Hold) Heq.
      specialize (Hprune Hc Hl). rewrite Heq in Hprune.
      rewrite Hprune in Ht. apply keepRecent_spec in Ht as [_ Hnew]. lia.
Qed.

(** C3, as the code has it. For a kind without a configured limit the
    cooldown check still comes first: the call is refused with the cooldown
    reason while the cooldown end lies in the future, and allowed with the
    empty reason otherwise; the limiter is unchanged either way. *)
Theorem CanPerformAction_unconfigured :
  forall (now : Time) (k : string) (rl : RateLimiter),
    limits rl !! k = None ->
    (cooldownUntil rl <= now -> CanPerformAction now k rl = ((true, ""), rl)) /\
    (now < cooldownUntil rl ->
       CanPerformAction now k rl =
         ((false, "In cooldown period. Wait "
                    +:+ DurationString (Round (Sub (cooldownUntil rl) now) Second)), rl)).
Proof.
  intros now k rl Hl. split; intros Hc.
  - by apply CanPerformAction_no_limit.
  - by apply CanPerformAction_cooldown.
Qed.

(** C6. After a prune pass, every timestamp left in the pruned history is
    newer than 24 hours before the current instant: for [cleanHistory]
    itself, for every kind after [ResetDaily], and for the queried kind
    after a [CanPerformAction] that gets past the cooldown check with a
    configured kind. The entries left are those of the old history that
    are that recent, in their order. *)
Theorem prune_leaves_only_last_24h :
  forall (now : Time) (rl : RateLimiter) (k : string),
    (historyOf (cleanHistory now k rl) k = keepRecent now (historyOf rl k) /\
     forall t, t ∈ historyOf (cleanHistory now k rl) k ->
               t ∈ historyOf rl k /\ now - 24 * Hour < t) /\
    (historyOf (ResetDaily now rl) k = keepRecent now (historyOf rl k) /\
     forall t, t ∈ historyOf (ResetDaily now rl) k ->
               t ∈ historyOf rl k /\ now - 24 * Hour < t) /\
    (cooldownUntil rl <= now -> limits rl !! k <> None ->
     historyOf (CanPerformAction now k rl).2 k = keepRecent now (historyOf rl k) /\
     forall t, t ∈ historyOf (CanPerformAction now k rl).2 k ->
               t ∈ historyOf rl k /\ now - 24 * Hour < t).
Proof.
  intros now rl k. split; [|split].
  - split; [apply cleanHistory_same|].
    intros t. rewrite cleanHistory_same. apply keepRecent_spec.
  - split; [apply ResetDaily_history|].
    intros t. rewrite ResetDaily_history. apply keepRecent_spec.
  - intros Hc Hl. rewrite CanPerformAction_state. unfold Before.
    destruct (Z.ltb_spec now (cooldownUntil rl)); [lia|].
    destruct (limits rl !! k); [|congruence].
    split; [apply cleanHistory_same|].
    intros t. rewrite cleanHistory_same. apply keepRecent_spec.
Qed.

(** ** [GetActionStats] *)

(** C10. [GetActionStats] panics exactly when the queried kind has no
    configured limit, whatever the rest of the limiter and the instant;
    [CanPerformAction] and [GetWaitTime] answer for such a kind (outside a
    cooldown: allowed, and a wait of zero); and such a kind exists for the
    limiter [NewRateLimiter] builds. *)
Theorem GetActionStats_panics_iff_unconfigured :
  forall (now : Time) (k : string) (rl : RateLimiter),
    (GetActionStats now k rl = Panicked <-> limits rl !! k = None) /\
    (limits rl !! k = None ->
       (CanPerformAction now k rl).2 = rl /\
       (cooldownUntil rl <= now ->
          (CanPerformAction now k rl).1 = (true, "") /\ GetWaitTime now k rl = 0)) /\
    (forall limit, limits rl !! k = Some limit ->
       exists stats, GetActionStats now k rl = Returned stats /\
                     stats !! "hourly_limit" = Some (VInt (HourlyMax limit)) /\
                     stats !! "daily_limit" = Some (VInt (DailyMax limit))) /\
    (exists c k0, GetActionStats now k0 (NewRateLimiter c) = Panicked).
Proof.
  intros now k rl. split; [|split; [|split]].
  - unfold GetActionStats. destruct (limits rl !! k); split; congruence.
  - intros Hl. split.
    + rewrite CanPerformAction_state, Hl. by destruct (Before _ _).
    + intros Hc.
      rewrite (CanPerformAction_no_limit now k rl Hl Hc). split; [reflexivity|].
      unfold GetWaitTime, Before.
      destruct (Z.ltb_spec now (cooldownUntil rl)); [lia|]. by rewrite Hl.
  - intros limit Hl. unfold GetActionStats. rewrite Hl.
    eexists. split; [reflexivity|]. split; reflexivity.
  - exists 0, "share". reflexivity.
Qed.

(** ** [GetWaitTime] *)

Lemma wrap64_small z : minDuration <= z <= maxDuration -> wrap64 z = z.
Proof.
  unfold wrap64, minDuration, maxDuration. intros Hz.
  rewrite Z.mod_small; lia.
Qed.

(** [Sub] is the difference cut to the range of a Duration. *)
Lemma Sub_clamp t u : Sub t u = Z.max minDuration (Z.min (t - u) maxDuration).
Proof.
  unfold Sub, minDuration, maxDuration.
  destruct (Z.ltb_spec (t - u) (- 2 ^ 63)); [lia|].
  destruct (Z.ltb_spec (2 ^ 63 - 1) (t - u)); lia.
Qed.

(** The value of [GetWaitTime] in plain arithmetic, for a configured kind
    whose last recorded instant is not in the future. *)
Lemma GetWaitTime_closed_form now k rl limit :
  limits rl !! k = Some limit ->
  (minDuration <= MinInterval limit <= maxDuration) ->
  (forall l, last (historyOf rl k) = Some l -> l <= now) ->
  GetWaitTime now k rl =
    if now <? cooldownUntil rl then Z.min (cooldownUntil rl - now) maxDuration
    else match last (historyOf rl k) with
         | None => 0
         | Some l => Z.max 0 (MinInterval limit - (now - l))
         end.
Proof.
  intros Hl Hmi Hpast. unfold GetWaitTime, Before, Until, Since. rewrite Hl.
  destruct (Z.ltb_spec now (cooldownUntil rl)) as [Hc|Hc].
  - rewrite Sub_clamp. unfold minDuration, maxDuration. lia.
  - destruct (last (historyOf rl k)) as [l|]; [|reflexivity].
    specialize (Hpast l eq_refl). rewrite Sub_clamp.
    unfold minDuration, maxDuration in *.
    destruct (Z.ltb_spec (Z.max (- 2 ^ 63) (Z.min (now - l) (2 ^ 63 - 1)))
                         (MinInterval limit)) as [Hlt|Hge].
    + rewrite wrap64_small; unfold minDuration, maxDuration; lia.
    + lia.
Qed.

(** C4, as the code has it. For a configured kind (its minimum interval a
    valid Duration): the wait is zero when no cooldown is active and the
    kind has no history or at least the minimum interval has elapsed since
    its last entry; while a cooldown is active it is the remaining
    cooldown (at most the largest Duration), whatever the remaining minimum
    interval; with no cooldown active and less than the minimum interval
    elapsed since a last entry that is not in the future, it is the
    remaining minimum interval. *)
Theorem GetWaitTime_cooldown_first :
  forall (now : Time) (k : string) (rl : RateLimiter) (limit : ActionLimit),
    limits rl !! k = Some limit ->
    (minDuration <= MinInterval limit <= maxDuration) ->
    (cooldownUntil rl <= now ->
       (forall l, last (historyOf rl k) = Some l -> MinInterval limit <= now - l) ->
       GetWaitTime now k rl = 0) /\
    (now < cooldownUntil rl ->
       GetWaitTime now k rl = Z.min (cooldownUntil rl - now) maxDuration) /\
    (cooldownUntil rl <= now ->
       forall l, last (historyOf rl k) = Some l -> l <= now ->
                 now - l < MinInterval limit ->
       GetWaitTime now k rl = MinInterval limit - (now - l)).
Proof.
  intros now k rl limit Hl Hmi. split; [|split].
  - intros Hc Hel. unfold GetWaitTime, Before, Since. rewrite Hl.
    destruct (Z.ltb_spec now (cooldownUntil rl)); [lia|].
    destruct (last (historyOf rl k)) as [l|]; [|reflexivity].
    specialize (Hel l eq_refl). rewrite Sub_clamp.
    unfold minDuration, maxDuration in *.
    destruct (Z.ltb_spec (Z.max (- 2 ^ 63) (Z.min (now - l) (2 ^ 63 - 1)))
                         (MinInterval limit)); [lia | reflexivity].
  - intros Hc. unfold GetWaitTime, Before, Until.
    destruct (Z.ltb_spec now (cooldownUntil rl)); [|lia].
    rewrite Sub_clamp. unfold minDuration, maxDuration. lia.
  - intros Hc l Hlast Hpast Hlt.
    rewrite (GetWaitTime_closed_form now k rl limit Hl Hmi).
    + destruct (Z.ltb_spec now (cooldownUntil rl)); [lia|]. rewrite Hlast. lia.
    + intros l' Hl'. congruence.
Qed.

(** C5, as the code has it. For a configured kind whose last recorded
    instant is not in the future, the wait is never negative. Between two
    instants that lie both before the cooldown end, or both at or after
    it, the wait does not grow, and while it is still positive at the later
    instant (and the remaining cooldown fits a Duration) it has shrunk by
    exactly the time elapsed. Across the cooldown end it does not grow
    either when the kind has no history or its minimum interval ends no
    later than the cooldown. *)
Theorem GetWaitTime_nonneg_piecewise_decreasing :
  forall (now1 now2 : Time) (k : string) (rl : RateLimiter) (limit : ActionLimit),
    limits rl !! k = Some limit ->
    (minDuration <= MinInterval limit <= maxDuration) ->
    (forall l, last (historyOf rl k) = Some l -> l <= now1) ->
    now1 <= now2 ->
    0 <= GetWaitTime now1 k rl /\
    (now2 < cooldownUntil rl \/ cooldownUntil rl <= now1 ->
       GetWaitTime now2 k rl <= GetWaitTime now1 k rl /\
       (0 < GetWaitTime now2 k rl -> cooldownUntil rl - now1 <= maxDuration ->
        GetWaitTime now2 k rl = GetWaitTime now1 k rl - (now2 - now1))) /\
    ((forall l, last (historyOf rl k) = Some l ->
                l + MinInterval limit <= cooldownUntil rl) ->
       GetWaitTime now2 k rl <= GetWaitTime now1 k rl).
Proof.
  intros now1 now2 k rl limit Hl Hmi Hpast Hle.
  rewrite (GetWaitTime_closed_form now1 k rl limit Hl Hmi Hpast).
  rewrite (GetWaitTime_closed_form now2 k rl limit Hl Hmi)
    by (intros l Hlast; specialize (Hpast l Hlast); lia).
  unfold minDuration, maxDuration in *.
  destruct (Z.ltb_spec now1 (cooldownUntil rl));
    destruct (Z.ltb_spec now2 (cooldownUntil rl));
    destruct (last (historyOf rl k)) as [l|];
    try specialize (Hpast l eq_refl);
    (split; [lia|]); (split; [intros [?|?]; lia|]);
    intros Hend; try specialize (Hend l eq_refl); lia.
Qed.

(** ** The cooldown scenario *)

(** The consecutive counter and the cooldown end after a successful
    [RecordAction]. *)
Lemma RecordAction_counter now k rl limit :
  limits rl !! k = Some limit ->
  (consecutiveActions (RecordAction now k rl).2, cooldownUntil (RecordAction now k rl).2)
  = if CooldownAfter limit <=? wrap64 (consecutiveActions rl + 1)
    then (0, now + CooldownDuration limit)
    else (wrap64 (consecutiveActions rl + 1), cooldownUntil rl).
Proof.
  intros Hl. destruct rl as [l h d hr c n]. unfold RecordAction.
  limiter_fields. rewrite Hl. limiter_fields.
  destruct (CooldownAfter limit <=? wrap64 (n + 1)); limiter_fields;
    destruct (After now hr); limiter_fields;
    destruct (After now d); reflexivity.
Qed.

(** The loop of [countActionsInWindow] counts at most every entry. *)
Lemma countBackwards_bounds cutoff (l : list Time) :
  0 <= countBackwards cutoff l <= Z.of_nat (length l).
Proof.
  induction l as [|t l IH]; simpl; [lia|].
  destruct (After t cutoff); lia.
Qed.

Lemma countActionsInWindow_bounds now (h : list Time) window :
  0 <= countActionsInWindow now h window <= Z.of_nat (length h).
Proof.
  unfold countActionsInWindow. destruct (length h =? 0)%nat; [lia|].
  pose proof (countBackwards_bounds (Add now (- window)) (rev h)) as Hb.
  rewrite length_rev in Hb. exact Hb.
Qed.

Lemma last_elem_of {A} (l : list A) x : last l = Some x -> x ∈ l.
Proof.
  intros Hlast. apply last_Some in Hlast as [l' ->].
  apply elem_of_app. right. by left.
Qed.

Lemma afterFiveRequests_query t0 now k rl :
  afterFiveRequests t0 rl -> afterFiveRequests t0 (CanPerformAction now k rl).2.
Proof.
  intros (Hl & Hc & Hn & Hlen & Hh).
  destruct (CanPerformAction_frame now k rl)
    as ((Hl' & _ & _ & Hc' & Hn') & Hother & Hsame).
  unfold afterFiveRequests. rewrite Hl', Hc', Hn'.
  repeat split; try assumption.
  - destruct (decide (ActionConnectionReq = k)) as [<-|Hne].
    + destruct Hsame as [->| ->]; [assumption|].
      pose proof (keepRecent_length now (historyOf rl ActionConnectionReq)). lia.
    + unfold historyOf in *. rewrite Hother by done. assumption.
  - intros t. destruct (decide (ActionConnectionReq = k)) as [<-|Hne].
    + destruct Hsame as [->| ->]; [apply Hh|].
      intros Ht. apply keepRecent_spec in Ht as [Ht _]. by apply Hh.
    + unfold historyOf in *. rewrite Hother by done. apply Hh.
Qed.

Lemma afterFiveRequests_queryAll t0 qs rl :
  afterFiveRequests t0 rl -> afterFiveRequests t0 (queryAll qs rl).
Proof.
  revert rl. induction qs as [|q qs IH]; intros rl Hinv; simpl; [assumption|].
  apply IH. by apply afterFiveRequests_query.
Qed.

Lemma afterFiveRequests_scenario c t0 :
  afterFiveRequests t0 (cooldownScenario c t0) /\
  historyOf (cooldownScenario c t0) ActionConnectionReq
    = [t0; t0 + 90 * Second; t0 + 180 * Second; t0 + 270 * Second; t0 + 360 * Second].
Proof.
  unfold cooldownScenario, recordAll. cbn [foldl].
  set (lim := mkActionLimit 10 50 (90 * Second) 5 (10 * Minute)).
  assert (Hstep : forall now rl n h,
            limits rl !! ActionConnectionReq = Some lim ->
            consecutiveActions rl = n ->
            historyOf rl ActionConnectionReq = h ->
            let rl' := (RecordAction now ActionConnectionReq rl).2 in
            limits rl' !! ActionConnectionReq = Some lim /\
            historyOf rl' ActionConnectionReq = h ++ [now] /\
            (wrap64 (n + 1) < 5 -> consecutiveActions rl' = wrap64 (n + 1)) /\
            (5 <= wrap64 (n + 1) ->
               consecutiveActions rl' = 0 /\ cooldownUntil rl' = now + 10 * Minute)).
  { intros now rl n h Hl Hn Hh rl'. subst rl'.
    destruct (RecordAction_success now _ rl lim Hl) as (_ & Hl' & Hh').
    pose proof (RecordAction_counter now _ rl lim Hl) as Hcnt.
    rewrite Hl', Hn in *. split; [assumption|]. split.
    - unfold historyOf at 1. rewrite Hh', lookup_insert_eq. simpl. by rewrite Hh.
    - cbn [CooldownAfter CooldownDuration lim] in Hcnt.
      destruct (Z.leb_spec 5 (wrap64 (n + 1))); injection Hcnt as -> ->;
        split; intros; try lia; auto. }
  assert (H0 : limits (NewRateLimiter c) !! ActionConnectionReq = Some lim)
    by reflexivity.
  destruct (Hstep t0 _ 0 [] H0 eq_refl eq_refl) as (L1 & A1 & N1 & _).
  specialize (N1 eq_refl).
  destruct (Hstep (t0 + 90 * Second) _ _ _ L1 N1 A1) as (L2 & A2 & N2 & _).
  specialize (N2 eq_refl).
  destruct (Hstep (t0 + 180 * Second) _ _ _ L2 N2 A2) as (L3 & A3 & N3 & _).
  specialize (N3 eq_refl).
  destruct (Hstep (t0 + 270 * Second) _ _ _ L3 N3 A3) as (L4 & A4 & N4 & _).
  specialize (N4 eq_refl).
  destruct (Hstep (t0 + 360 * Second) _ _ _ L4 N4 A4) as (L5 & A5 & _ & N5).
  destruct N5 as [N5 U5]; [by vm_compute|].
  split; [|exact A5].
  unfold afterFiveRequests. rewrite A5. repeat split.
  - exact L5.
  - rewrite U5. unfold Minute, Second, Millisecond, Microsecond, Nanosecond. lia.
  - exact N5.
  - simpl. lia.
  - intros t Ht. unfold Second, Millisecond, Microsecond, Nanosecond in *.
    repeat (apply elem_of_cons in Ht as [->|Ht]; [lia|]).
    by apply elem_of_nil in Ht.
Qed.

(** With the scenario's facts in hand, a request is refused for the
    cooldown up to 960 seconds and allowed from then on. *)
Lemma afterFiveRequests_verdict t0 now rl :
  afterFiveRequests t0 rl ->
  (t0 + 360 * Second <= now < t0 + 960 * Second ->
     (CanPerformAction now ActionConnectionReq rl).1
     = (false, "In cooldown period. Wait "
                 +:+ DurationString (Round (t0 + 960 * Second - now) Second))) /\
  (t0 + 960 * Second <= now ->
     (CanPerformAction now ActionConnectionReq rl).1 = (true, "")).
Proof.
  intros (Hl & Hc & Hn & Hlen & Hh). split; intros Hnow.
  - rewrite CanPerformAction_cooldown by lia. cbn [fst].
    unfold Until. rewrite Hc, Sub_clamp.
    replace (Z.max minDuration (Z.min (t0 + 960 * Second - now) maxDuration))
      with (t0 + 960 * Second - now); [reflexivity|].
    unfold minDuration, maxDuration, Second, Millisecond, Microsecond, Nanosecond in *.
    lia.
  - unfold CanPerformAction, Before. rewrite Hc, Hl.
    destruct (Z.ltb_spec now (t0 + 960 * Second)); [lia|].
    set (h := historyOf (cleanHistory now ActionConnectionReq rl) ActionConnectionReq).
    assert (Hlen' : (length h <= 5)%nat).
    { subst h. rewrite cleanHistory_same.
      pose proof (keepRecent_length now (historyOf rl ActionConnectionReq)). lia. }
    assert (Hh' : forall t, t ∈ h -> t <= t0 + 360 * Second).
    { subst h. intros t. rewrite cleanHistory_same.
      intros Ht. apply keepRecent_spec in Ht as [Ht _]. by apply Hh. }
    pose proof (countActionsInWindow_bounds now h Hour) as Hhour.
    pose proof (countActionsInWindow_bounds now h (24 * Hour)) as Hday.
    cbn [HourlyMax DailyMax MinInterval].
    destruct (Z.leb_spec 10 (countActionsInWindow now h Hour)); [lia|].
    destruct (Z.leb_spec 50 (countActionsInWindow now h (24 * Hour))); [lia|].
    destruct (last h) as [l|] eqn:Hlast; [|reflexivity].
    apply last_elem_of, Hh' in Hlast. rewrite Sub_clamp.
    destruct (Z.ltb_spec (Z.max minDuration (Z.min (now - l) maxDuration))
                         (90 * Second)) as [Hlt|_]; [|reflexivity].
    unfold minDuration, maxDuration, Second, Millisecond, Microsecond, Nanosecond in *.
    lia.
Qed.

(** C1. On a limiter built by [NewRateLimiter] (connection requests are
    limited to 10 an hour, 50 a day, 90 seconds apart, with a ten minute
    cooldown after 5 actions), after five recorded connection requests at
    [t0], [t0]+90s, ..., [t0]+360s the cooldown ends at [t0]+960s and the
    consecutive counter is zero. From then on, whatever queries are made in
    between and as long as nothing is recorded, [CanPerformAction] refuses
    a connection request with the cooldown reason at every instant from
    [t0]+360s up to but excluding [t0]+960s, and allows it at every
    instant from [t0]+960s on. *)
Theorem cooldown_after_five_connection_requests :
  forall (c t0 : Time),
    let rl := cooldownScenario c t0 in
    limits rl !! ActionConnectionReq
      = Some (mkActionLimit 10 50 (90 * Second) 5 (10 * Minute)) /\
    historyOf rl ActionConnectionReq
      = [t0; t0 + 90 * Second; t0 + 180 * Second; t0 + 270 * Second; t0 + 360 * Second] /\
    cooldownUntil rl = t0 + 960 * Second /\
    consecutiveActions rl = 0 /\
    forall (qs : list (Time * string)) (now : Time),
      (t0 + 360 * Second <= now < t0 + 960 * Second ->
         (CanPerformAction now ActionConnectionReq (queryAll qs rl)).1
         = (false, "In cooldown period. Wait "
                     +:+ DurationString (Round (t0 + 960 * Second - now) Second))) /\
      (t0 + 960 * Second <= now ->
         (CanPerformAction now ActionConnectionReq (queryAll qs rl)).1 = (true, "")).
Proof.
  intros c t0 rl. subst rl.
  destruct (afterFiveRequests_scenario c t0) as (Hinv & Hh).
  pose proof Hinv as (Hl & Hc & Hn & _).
  repeat (split; [assumption|]).
  intros qs now. apply afterFiveRequests_verdict.
  by apply afterFiveRequests_queryAll.
Qed.

(** ** The activity scheduler *)

Lemma HourIn_range loc t : 0 <= HourIn loc t < 24.
Proof.
  unfold HourIn.
  pose proof (Z.mod_pos_bound (localSeconds loc t) 86400 ltac:(lia)) as Hm.
  split.
  - apply Z.div_pos; lia.
  - apply Z.div_lt_upper_bound; lia.
Qed.

Lemma MinuteIn_range loc t : 0 <= MinuteIn loc t < 60.
Proof.
  unfold MinuteIn.
  pose proof (Z.mod_pos_bound (localSeconds loc t) 3600 ltac:(lia)) as Hm.
  split.
  - apply Z.div_pos; lia.
  - apply Z.div_lt_upper_bound; lia.
Qed.

(** The two thresholds are the doubles nearest to 7/10 and 4/10. *)
Lemma f64_thresholds_nearest :
  (Qabs (f64_0_70 - (7 # 10)) <= 1 # (2 ^ 54))%Q /\
  (Qabs (f64_0_40 - (4 # 10)) <= 1 # (2 ^ 55))%Q.
Proof. split; vm_compute; discriminate. Qed.

(** C8. [NewActivityScheduler] returns a scheduler and a nil error for
    every timezone string, whatever the zone database answers: the
    scheduler has the loaded location when the name resolves and UTC when
    it does not, work hours 9 and 18, and every field other than the
    timezone is the same as for any other timezone string at the same
    instant. *)
Theorem NewActivityScheduler_never_fails :
  forall (LoadLocation : string -> option Location) (Rand : Type)
         (NewSource : Z -> Rand) (now : Time) (tz : string),
    let New := NewActivityScheduler LoadLocation Rand NewSource now in
    (New tz).2 = None /\
    (LoadLocation tz = None -> timezone (New tz).1 = UTC) /\
    (forall loc, LoadLocation tz = Some loc -> timezone (New tz).1 = loc) /\
    workHoursStart (New tz).1 = 9 /\
    workHoursEnd (New tz).1 = 18 /\
    forall tz',
      workHoursStart (New tz).1 = workHoursStart (New tz').1 /\
      workHoursEnd (New tz).1 = workHoursEnd (New tz').1 /\
      breakTimes (New tz).1 = breakTimes (New tz').1 /\
      lastActivityTime (New tz).1 = lastActivityTime (New tz').1 /\
      dailyActionCount (New tz).1 = dailyActionCount (New tz').1 /\
      rand (New tz).1 = rand (New tz').1.
Proof.
  intros LoadLocation Rand NewSource now tz New. subst New.
  unfold NewActivityScheduler. cbn [fst snd timezone workHoursStart workHoursEnd].
  split; [reflexivity|]. split; [by intros ->|]. split; [by intros loc ->|].
  repeat split; reflexivity.
Qed.

(** C9. With the local time of day of the scheduler's timezone in minutes:
    outside 12:00-13:29, 10:00-10:14 and 15:00-15:14 [IsBreakTime] answers
    false and draws nothing, for every generator and state; inside the
    lunch band the answer is whether one draw is below the constant 0.70,
    inside the other two whether one draw is below 0.40, and the generator
    has advanced by that one draw. *)
Theorem IsBreakTime_bands :
  forall (Rand : Type) (Float64 : Rand -> Q * Rand) (now : Time)
         (sch : ActivityScheduler Rand),
    let m := minuteOfDay (timezone sch) now in
    let draw := Float64 (rand sch) in
    (~ (720 <= m <= 809) /\ ~ (600 <= m <= 614) /\ ~ (900 <= m <= 914) ->
       IsBreakTime Float64 now sch = (false, sch)) /\
    (720 <= m <= 809 ->
       IsBreakTime Float64 now sch = (f64_lt draw.1 f64_0_70, set_rand draw.2 sch)) /\
    (600 <= m <= 614 \/ 900 <= m <= 914 ->
       IsBreakTime Float64 now sch = (f64_lt draw.1 f64_0_40, set_rand draw.2 sch)).
Proof.
  intros Rand Float64 now sch m draw. subst m draw. unfold minuteOfDay, IsBreakTime.
  pose proof (HourIn_range (timezone sch) now) as Hh.
  pose proof (MinuteIn_range (timezone sch) now) as Hm.
  destruct (Float64 (rand sch)) as [x r]. cbn [fst snd].
  destruct (Z.eqb_spec (HourIn (timezone sch) now) 12);
    destruct (Z.eqb_spec (HourIn (timezone sch) now) 13);
    destruct (Z.eqb_spec (HourIn (timezone sch) now) 10);
    destruct (Z.eqb_spec (HourIn (timezone sch) now) 15);
    destruct (Z.ltb_spec (MinuteIn (timezone sch) now) 30);
    destruct (Z.ltb_spec (MinuteIn (timezone sch) now) 15);
    cbn [orb andb];
    (split; [intros (? & ? & ?) | split; [intros ? | intros [?|?]]]);
    first [reflexivity | lia].
Qed.

(** ** Concrete runs *)

(** The scenario from instant 0, queried once at 400s in between: refused
    at 500s, allowed at 960s. *)
Lemma cooldown_scenario_run :
  (0 + 360 * Second <= 500 * Second < 0 + 960 * Second) /\
  (CanPerformAction (500 * Second) ActionConnectionReq
     (queryAll [(400 * Second, ActionConnectionReq)] (cooldownScenario 0 0))).1
  = (false, "In cooldown period. Wait 7m40s") /\
  (CanPerformAction (960 * Second) ActionConnectionReq
     (queryAll [(400 * Second, ActionConnectionReq)] (cooldownScenario 0 0))).1
  = (true, "").
Proof.
  assert (Hin : 0 + 360 * Second <= 500 * Second < 0 + 960 * Second)
    by (vm_compute; split; [discriminate | reflexivity]).
  split; [exact Hin|].
  destruct (cooldown_after_five_connection_requests 0 0) as (_ & _ & _ & _ & Hq).
  destruct (Hq [(400 * Second, ActionConnectionReq)] (500 * Second)) as [Hno _].
  destruct (Hq [(400 * Second, ActionConnectionReq)] (960 * Second)) as [_ Hyes].
  split.
  - rewrite (Hno Hin). reflexivity.
  - apply Hyes. vm_compute. discriminate.
Defined.

(** C2 as stated fails: a message recorded at instant 0 is gone from the
    limiter after a query 25 hours later. *)
Lemma CanPerformAction_removes_stale_entry :
  historyOf oneMessage ActionMessage = [0] /\
  historyOf (CanPerformAction (25 * Hour) ActionMessage oneMessage).2 ActionMessage = [] /\
  (CanPerformAction (25 * Hour) ActionMessage oneMessage).2 <> oneMessage.
Proof.
  split; [reflexivity|]. split; [reflexivity|].
  intros Heq. apply (f_equal (fun rl => historyOf rl ActionMessage)) in Heq.
  vm_compute in Heq. discriminate.
Qed.

(** The same query on the same limiter, through the theorem: no cooldown
    is active and messages are configured, so the history is pruned (here to
    nothing) and the limiter changes; the other fields stay, and a second
    call repeats the first. *)
Lemma CanPerformAction_only_prunes_run :
  cooldownUntil oneMessage <= 25 * Hour /\
  limits oneMessage !! ActionMessage <> None /\
  (exists t, t ∈ historyOf oneMessage ActionMessage /\ t <= 25 * Hour - 24 * Hour) /\
  historyOf (CanPerformAction (25 * Hour) ActionMessage oneMessage).2 ActionMessage
    = keepRecent (25 * Hour) [0] /\
  (CanPerformAction (25 * Hour) ActionMessage oneMessage).2 <> oneMessage /\
  cooldownUntil (CanPerformAction (25 * Hour) ActionMessage oneMessage).2
    = cooldownUntil oneMessage /\
  CanPerformAction (25 * Hour) ActionMessage
    (CanPerformAction (25 * Hour) ActionMessage oneMessage).2
  = ((true, ""), (CanPerformAction (25 * Hour) ActionMessage oneMessage).2).
Proof.
  assert (Hcool : cooldownUntil oneMessage <= 25 * Hour) by (vm_compute; discriminate).
  assert (Hl : limits oneMessage !! ActionMessage <> None) by (vm_compute; discriminate).
  assert (Hh : historyOf oneMessage ActionMessage = [0]) by (vm_compute; reflexivity).
  assert (Hstale : exists t, t ∈ historyOf oneMessage ActionMessage /\
                             t <= 25 * Hour - 24 * Hour).
  { exists 0. rewrite Hh. split; [by left | vm_compute; discriminate]. }
  destruct (CanPerformAction_only_prunes (25 * Hour) ActionMessage oneMessage)
    as ((_ & _ & _ & Hc & _) & _ & _ & _ & Hagain & Hprune & _ & Hchange).
  split; [exact Hcool|]. split; [exact Hl|]. split; [exact Hstale|].
  split; [rewrite <- Hh; exact (proj1 (Hprune Hcool Hl))|].
  split; [exact (proj2 Hchange (conj Hcool (conj Hl Hstale)))|].
  split; [exact Hc|]. rewrite Hagain. reflexivity.
Defined.

(** C3 as stated fails: during the cooldown of the scenario a kind without
    a limit is refused. *)
Lemma CanPerformAction_unconfigured_refused :
  limits (cooldownScenario 0 0) !! "share" = None /\
  361 * Second < cooldownUntil (cooldownScenario 0 0) /\
  (CanPerformAction (361 * Second) "share" (cooldownScenario 0 0)).1
  = (false, "In cooldown period. Wait 9m59s").
Proof. split; [reflexivity|]. split; reflexivity. Qed.

Lemma CanPerformAction_unconfigured_run :
  limits (cooldownScenario 0 0) !! "share" = None /\
  cooldownUntil (cooldownScenario 0 0) <= 960 * Second /\
  CanPerformAction (960 * Second) "share" (cooldownScenario 0 0)
  = ((true, ""), cooldownScenario 0 0).
Proof.
  assert (Hl : limits (cooldownScenario 0 0) !! "share" = None) by reflexivity.
  assert (Hc : cooldownUntil (cooldownScenario 0 0) <= 960 * Second)
    by (vm_compute; discriminate).
  split; [exact Hl|]. split; [exact Hc|].
  destruct (CanPerformAction_unconfigured (960 * Second) "share"
              (cooldownScenario 0 0) Hl) as [Hok _].
  exact (Hok Hc).
Defined.

(** C4 as stated fails: at 50s the cooldown has 108s left and the comment's
    minimum interval 110s; [GetWaitTime] returns the 108s. *)
Lemma GetWaitTime_returns_shorter_cooldown :
  limits scrollsThenComment !! ActionComment
    = Some (mkActionLimit 8 30 (120 * Second) 3 (15 * Minute)) /\
  cooldownUntil scrollsThenComment - 50 * Second = 108 * Second /\
  last (historyOf scrollsThenComment ActionComment) = Some (40 * Second) /\
  120 * Second - (50 * Second - 40 * Second) = 110 * Second /\
  GetWaitTime (50 * Second) ActionComment scrollsThenComment = 108 * Second /\
  GetWaitTime (50 * Second) ActionComment scrollsThenComment
    <> Z.max (108 * Second) (110 * Second).
Proof. repeat split; try reflexivity. vm_compute. discriminate. Qed.

Lemma GetWaitTime_cooldown_first_run :
  limits scrollsThenComment !! ActionComment
    = Some (mkActionLimit 8 30 (120 * Second) 3 (15 * Minute)) /\
  (minDuration <= 120 * Second <= maxDuration) /\
  50 * Second < cooldownUntil scrollsThenComment /\
  GetWaitTime (50 * Second) ActionComment scrollsThenComment
  = Z.min (cooldownUntil scrollsThenComment - 50 * Second) maxDuration.
Proof.
  assert (Hl : limits scrollsThenComment !! ActionComment
               = Some (mkActionLimit 8 30 (120 * Second) 3 (15 * Minute)))
    by reflexivity.
  assert (Hr : minDuration <= 120 * Second <= maxDuration)
    by (vm_compute; split; discriminate).
  assert (Hc : 50 * Second < cooldownUntil scrollsThenComment) by reflexivity.
  split; [exact Hl|]. split; [exact Hr|]. split; [exact Hc|].
  destruct (GetWaitTime_cooldown_first (50 * Second) ActionComment
              scrollsThenComment _ Hl Hr) as (_ & Hcool & _).
  exact (Hcool Hc).
Defined.

(** C5 as stated fails: one second before the cooldown ends the wait is 1s,
    at its end 2s. *)
Lemma GetWaitTime_jumps_at_cooldown_end :
  157 * Second < 158 * Second /\
  GetWaitTime (157 * Second) ActionComment scrollsThenComment = 1 * Second /\
  GetWaitTime (158 * Second) ActionComment scrollsThenComment = 2 * Second /\
  ~ (GetWaitTime (158 * Second) ActionComment scrollsThenComment
     <= GetWaitTime (157 * Second) ActionComment scrollsThenComment).
Proof. repeat split; try reflexivity. vm_compute. intros H. by apply H. Qed.

Lemma GetWaitTime_nonneg_piecewise_decreasing_run :
  limits scrollsThenComment !! ActionComment
    = Some (mkActionLimit 8 30 (120 * Second) 3 (15 * Minute)) /\
  (minDuration <= 120 * Second <= maxDuration) /\
  (forall l, last (historyOf scrollsThenComment ActionComment) = Some l ->
             l <= 50 * Second) /\
  50 * Second <= 60 * Second /\
  0 <= GetWaitTime (50 * Second) ActionComment scrollsThenComment /\
  GetWaitTime (60 * Second) ActionComment scrollsThenComment
  <= GetWaitTime (50 * Second) ActionComment scrollsThenComment.
Proof.
  assert (Hl : limits scrollsThenComment !! ActionComment
               = Some (mkActionLimit 8 30 (120 * Second) 3 (15 * Minute)))
    by reflexivity.
  assert (Hr : minDuration <= 120 * Second <= maxDuration)
    by (vm_compute; split; discriminate).
  assert (Hp : forall l, last (historyOf scrollsThenComment ActionComment) = Some l ->
                         l <= 50 * Second).
  { intros l Hlast. vm_compute in Hlast. injection Hlast as <-.
    vm_compute. discriminate. }
  assert (Hle : 50 * Second <= 60 * Second) by (vm_compute; discriminate).
  split; [exact Hl|]. split; [exact Hr|]. split; [exact Hp|]. split; [exact Hle|].
  destruct (GetWaitTime_nonneg_piecewise_decreasing (50 * Second) (60 * Second)
              ActionComment scrollsThenComment _ Hl Hr Hp Hle) as (H0 & Hmono & _).
  split; [exact H0|]. apply Hmono. left. reflexivity.
Defined.

(** A prune through each of the three paths, on the limiter with the one
    message of instant 0 and at 25 hours: nothing is left. *)
Lemma prune_leaves_only_last_24h_run :
  cooldownUntil oneMessage <= 25 * Hour /\
  limits oneMessage !! ActionMessage <> None /\
  historyOf (cleanHistory (25 * Hour) ActionMessage oneMessage) ActionMessage = [] /\
  historyOf (ResetDaily (25 * Hour) oneMessage) ActionMessage = [] /\
  historyOf (CanPerformAction (25 * Hour) ActionMessage oneMessage).2 ActionMessage = [].
Proof.
  assert (Hc : cooldownUntil oneMessage <= 25 * Hour) by (vm_compute; discriminate).
  assert (Hl : limits oneMessage !! ActionMessage <> None) by (vm_compute; discriminate).
  split; [exact Hc|]. split; [exact Hl|].
  destruct (prune_leaves_only_last_24h (25 * Hour) oneMessage ActionMessage)
    as ((H1 & _) & (H2 & _) & H3).
  destruct (H3 Hc Hl) as (H3' & _).
  rewrite H1, H2, H3'. repeat split; reflexivity.
Defined.

(** A refused and an accepted record on a fresh limiter. *)
Lemma RecordAction_error_iff_unconfigured_run :
  limits (NewRateLimiter 0) !! "share" = None /\
  RecordAction 5 "share" (NewRateLimiter 0)
  = (Some "no limit defined for action type: share", NewRateLimiter 0) /\
  limits (NewRateLimiter 0) !! ActionMessage <> None /\
  (RecordAction 5 ActionMessage (NewRateLimiter 0)).1 = None /\
  historyOf (RecordAction 5 ActionMessage (NewRateLimiter 0)).2 ActionMessage = [5].
Proof.
  assert (Hn : limits (NewRateLimiter 0) !! "share" = None) by reflexivity.
  assert (Hs : limits (NewRateLimiter 0) !! ActionMessage <> None)
    by (vm_compute; discriminate).
  split; [exact Hn|].
  destruct (RecordAction_error_iff_unconfigured 5 "share" (NewRateLimiter 0))
    as (_ & Herr & _).
  destruct (RecordAction_error_iff_unconfigured 5 ActionMessage (NewRateLimiter 0))
    as (_ & _ & Hok).
  destruct (Herr Hn) as (He & Hst). destruct (Hok Hs) as (Hnil & Hh & _).
  split.
  - destruct (RecordAction 5 "share" (NewRateLimiter 0)) as [e rl'].
    cbn [fst snd] in He, Hst. rewrite He, Hst. reflexivity.
  - split; [exact Hs|]. split; [exact Hnil|]. rewrite Hh. reflexivity.
Defined.

(** Statistics for a kind without a limit and for one with. *)
Lemma GetActionStats_panics_iff_unconfigured_run :
  limits (NewRateLimiter 0) !! "share" = None /\
  GetActionStats 5 "share" (NewRateLimiter 0) = Panicked /\
  GetActionStats 5 ActionMessage (NewRateLimiter 0) <> Panicked.
Proof.
  assert (Hn : limits (NewRateLimiter 0) !! "share" = None) by reflexivity.
  split; [exact Hn|].
  destruct (GetActionStats_panics_iff_unconfigured 5 "share" (NewRateLimiter 0))
    as ([_ Hp] & _).
  destruct (GetActionStats_panics_iff_unconfigured 5 ActionMessage (NewRateLimiter 0))
    as ([Hq _] & _).
  split; [exact (Hp Hn)|].
  intros Hpanic. specialize (Hq Hpanic). vm_compute in Hq. discriminate.
Defined.

(** Construction with a name the sample zone table does not know, and with
    one it knows. *)
Lemma NewActivityScheduler_never_fails_run :
  sampleLoadLocation "Mars/Olympus" = None /\
  (NewActivityScheduler sampleLoadLocation Z sampleNewSource 0 "Mars/Olympus").2 = None /\
  timezone (NewActivityScheduler sampleLoadLocation Z sampleNewSource 0 "Mars/Olympus").1
  = UTC /\
  workHoursStart
    (NewActivityScheduler sampleLoadLocation Z sampleNewSource 0 "Mars/Olympus").1
  = workHoursStart
      (NewActivityScheduler sampleLoadLocation Z sampleNewSource 0 "Asia/Kolkata").1.
Proof.
  assert (Hn : sampleLoadLocation "Mars/Olympus" = None) by reflexivity.
  split; [exact Hn|].
  destruct (NewActivityScheduler_never_fails sampleLoadLocation Z sampleNewSource
              0 "Mars/Olympus") as (Herr & Hutc & _ & _ & _ & Hsame).
  split; [exact Herr|]. split; [exact (Hutc Hn)|].
  destruct (Hsame "Asia/Kolkata") as (Hs & _). exact Hs.
Defined.

(** Break time at 09:00 UTC (no band) and at 12:15 UTC (lunch) of the
    first day, with the sample generator. *)
Lemma IsBreakTime_bands_run :
  let sch := (NewActivityScheduler sampleLoadLocation Z sampleNewSource 0 "UTC").1 in
  minuteOfDay (timezone sch) (9 * Hour) = 540 /\
  IsBreakTime sampleFloat64 (9 * Hour) sch = (false, sch) /\
  minuteOfDay (timezone sch) (12 * Hour + 15 * Minute) = 735 /\
  IsBreakTime sampleFloat64 (12 * Hour + 15 * Minute) sch
  = (f64_lt (sampleFloat64 (rand sch)).1 f64_0_70,
     set_rand (sampleFloat64 (rand sch)).2 sch).
Proof.
  intros sch.
  assert (H9 : minuteOfDay (timezone sch) (9 * Hour) = 540) by reflexivity.
  assert (H12 : minuteOfDay (timezone sch) (12 * Hour + 15 * Minute) = 735)
    by reflexivity.
  destruct (IsBreakTime_bands Z sampleFloat64 (9 * Hour) sch) as (Hout & _).
  destruct (IsBreakTime_bands Z sampleFloat64 (12 * Hour + 15 * Minute) sch)
    as (_ & Hlunch & _).
  split; [exact H9|]. split.
  - apply Hout. rewrite H9. repeat split; intros [? ?]; lia.
  - split; [exact H12|]. apply Hlunch. rewrite H12. lia.
Defined.

(** The two shorter scenarios of the design document, on
    [NewRateLimiter]'s connection-request limit (90 seconds apart): after
    one record at instant 0 a request is too soon at 50s and allowed at
    91s. *)
Example too_soon_then_allowed :
  let rl := recordAll ActionConnectionReq [0] (NewRateLimiter 0) in
  (CanPerformAction (50 * Second) ActionConnectionReq rl).1
    = (false, "Too soon. Wait 40s") /\
  (CanPerformAction (91 * Second) ActionConnectionReq rl).1 = (true, "").
Proof. split; reflexivity. Qed.

(** Ten connection requests within the hour exhaust the hourly limit once
    the cooldowns they caused are over; an hour after the first of them
    the count is 9 again. *)
Example hourly_limit_reached :
  let rl := recordAll ActionConnectionReq
              (List.map (fun i => 100 * Second * Z.of_nat i) (seq 0 10))
              (NewRateLimiter 0) in
  (CanPerformAction (1600 * Second) ActionConnectionReq rl).1
    = (false, "Hourly limit reached (10/10)") /\
  (CanPerformAction (3601 * Second) ActionConnectionReq rl).1 = (true, "").
Proof. split; reflexivity. Qed.

(** * Further properties of the limiter *)

(** ** Counting in a window *)

Lemma filter_After_none cutoff (l : list Time) :
  Forall (fun a => a <= cutoff) l -> List.filter (fun t => After t cutoff) l = [].
Proof.
  induction 1 as [|a l Ha _ IH]; simpl; [reflexivity|].
  unfold After at 1. destruct (Z.ltb_spec cutoff a); [lia | exact IH].
Qed.

(** On a time-ordered history the backward scan sees every entry after the
    cutoff. *)
Lemma countBackwards_sorted cutoff (h : list Time) :
  StronglySorted Z.le h ->
  countBackwards cutoff (rev h)
  = Z.of_nat (length (List.filter (fun t => After t cutoff) h)).
Proof.
  induction h as [|x h IH] using rev_ind; intros Hs; [reflexivity|].
  apply StronglySorted_app in Hs as (Hle & Hs & _).
  rewrite rev_unit, List.filter_app, length_app. cbn [countBackwards List.filter].
  destruct (After x cutoff) eqn:Hx.
  - rewrite (IH Hs). cbn [length]. lia.
  - rewrite filter_After_none; [reflexivity|].
    apply Forall_forall. intros a Ha.
    specialize (Hle a x Ha ltac:(by left)).
    unfold After in Hx. apply Z.ltb_ge in Hx. lia.
Qed.

Lemma countActionsInWindow_sorted now (h : list Time) window :
  StronglySorted Z.le h ->
  countActionsInWindow now h window = Z.of_nat (length (inWindow now window h)).
Proof.
  intros Hs. unfold countActionsInWindow, inWindow.
  destruct (length h =? 0)%nat eqn:E.
  - apply length_eqb_0 in E. subst h. reflexivity.
  - by apply countBackwards_sorted.
Qed.

(** The scan never counts more than there is, ordered or not. *)
Lemma countBackwards_le_filter cutoff (l : list Time) :
  countBackwards cutoff l
  <= Z.of_nat (length (List.filter (fun t => After t cutoff) l)).
Proof.
  induction l as [|t l IH]; simpl; [lia|].
  destruct (After t cutoff); simpl; lia.
Qed.

Lemma filter_rev_length {A} (f : A -> bool) (l : list A) :
  length (List.filter f (rev l)) = length (List.filter f l).
Proof.
  induction l as [|a l IH]; [reflexivity|].
  simpl. rewrite List.filter_app, length_app, IH. simpl.
  destruct (f a); simpl; lia.
Qed.

Lemma countActionsInWindow_le_inWindow now (h : list Time) window :
  countActionsInWindow now h window <= Z.of_nat (length (inWindow now window h)).
Proof.
  unfold countActionsInWindow, inWindow.
  destruct (length h =? 0)%nat; [lia|].
  rewrite <- filter_rev_length. apply countBackwards_le_filter.
Qed.

(** The scan counts fewer entries for a later cutoff. *)
Lemma countBackwards_mono c1 c2 (l : list Time) :
  c1 <= c2 -> countBackwards c2 l <= countBackwards c1 l.
Proof.
  intros Hc. induction l as [|t l IH]; simpl; [lia|].
  unfold After. destruct (Z.ltb_spec c2 t), (Z.ltb_spec c1 t); try lia.
  pose proof (countBackwards_bounds c1 l). lia.
Qed.

(** ** Histories along a run *)

Lemma filter_StronglySorted {A} (R : A -> A -> Prop) (f : A -> bool) (l : list A) :
  StronglySorted R l -> StronglySorted R (List.filter f l).
Proof.
  induction 1 as [|a l Hs IH Ha]; simpl; [constructor|].
  destruct (f a); [|exact IH].
  constructor; [exact IH|].
  apply Forall_forall. intros x Hx. apply list_elem_of_In, filter_In in Hx as [Hx _].
  rewrite Forall_forall in Ha. apply Ha. by apply list_elem_of_In.
Qed.

Lemma filter_Forall {A} (P : A -> Prop) (f : A -> bool) (l : list A) :
  Forall P l -> Forall P (List.filter f l).
Proof.
  rewrite !Forall_forall. intros H x Hx.
  apply list_elem_of_In, filter_In in Hx as [Hx _]. apply H. by apply list_elem_of_In.
Qed.

Lemma filter_filter_length_le {A} (f g : A -> bool) (l : list A) :
  (length (List.filter f (List.filter g l)) <= length (List.filter f l))%nat.
Proof.
  induction l as [|a l IH]; simpl; [lia|].
  destruct (g a), (f a) eqn:Ef; simpl; rewrite ?Ef; simpl; lia.
Qed.

(** The history of any kind after [RecordAction]. *)
Lemma RecordAction_history now k rl k' :
  historyOf (RecordAction now k rl).2 k'
  = match limits rl !! k with
    | Some _ => if decide (k = k') then historyOf rl k ++ [now] else historyOf rl k'
    | None => historyOf rl k'
    end.
Proof.
  destruct (limits rl !! k) as [limit|] eqn:Hl.
  - destruct (RecordAction_success now k rl limit Hl) as (_ & _ & Hh).
    unfold historyOf at 1. rewrite Hh.
    destruct (decide (k = k')) as [<-|Hne].
    + by rewrite lookup_insert_eq.
    + by rewrite lookup_insert_ne.
  - unfold RecordAction. by rewrite Hl.
Qed.

Lemma RecordAction_limits now k rl :
  limits (RecordAction now k rl).2 = limits rl.
Proof.
  destruct (limits rl !! k) as [limit|] eqn:Hl.
  - by destruct (RecordAction_success now k rl limit Hl) as (_ & ? & _).
  - unfold RecordAction. by rewrite Hl.
Qed.

(** The history of any kind after [CanPerformAction]: as before, or pruned. *)
Lemma CanPerformAction_history now k rl k' :
  historyOf (CanPerformAction now k rl).2 k' = historyOf rl k' \/
  historyOf (CanPerformAction now k rl).2 k' = keepRecent now (historyOf rl k').
Proof.
  destruct (CanPerformAction_frame now k rl) as (_ & Hother & Hsame).
  destruct (decide (k' = k)) as [->|Hne]; [exact Hsame|].
  left. unfold historyOf. by rewrite Hother.
Qed.

Lemma ResetDaily_limits now rl : limits (ResetDaily now rl) = limits rl.
Proof.
  unfold ResetDaily. cbn [limits set_dailyResetTime].
  induction (map_to_list (actionHistory rl)) as [|kv ks IH]; [reflexivity|].
  cbn [foldr]. by destruct (cleanHistory_fields now kv.1
    (foldr (fun kv rl => cleanHistory now kv.1 rl) rl ks)) as (-> & _).
Qed.

Lemma call_limits now c rl : limits (call now c rl) = limits rl.
Proof.
  destruct c as [k|k|k lag| |]; cbn [call].
  - by destruct (CanPerformAction_frame now k rl) as ((? & _) & _).
  - apply RecordAction_limits.
  - unfold attempt.
    destruct (CanPerformAction_frame now k rl) as ((Hl & _) & _).
    destruct (CanPerformAction now k rl) as [[[] ?] rl1]; cbn [snd] in Hl.
    + by rewrite RecordAction_limits.
    + exact Hl.
  - reflexivity.
  - apply ResetDaily_limits.
Qed.

Lemma runCalls_limits cs rl : limits (runCalls cs rl) = limits rl.
Proof.
  revert rl. induction cs as [|tc cs IH]; intros rl; [reflexivity|].
  cbn [runCalls foldl]. fold (runCalls cs (call tc.1 tc.2 rl)).
  by rewrite IH, call_limits.
Qed.

Lemma historiesOrdered_later t t' rl :
  t <= t' -> historiesOrdered t rl -> historiesOrdered t' rl.
Proof.
  intros Hle H k. destruct (H k) as [Hs Hb]. split; [exact Hs|].
  eapply Forall_impl; [exact Hb|]. simpl. intros. lia.
Qed.

Lemma historiesOrdered_check t now k rl :
  historiesOrdered t rl -> historiesOrdered t (CanPerformAction now k rl).2.
Proof.
  intros H k'. destruct (H k') as [Hs Hb].
  destruct (CanPerformAction_history now k rl k') as [-> | ->]; [by split|].
  split; [by apply filter_StronglySorted | by apply filter_Forall].
Qed.

Lemma historiesOrdered_record t now k rl :
  t <= now -> historiesOrdered t rl -> historiesOrdered now (RecordAction now k rl).2.
Proof.
  intros Hle H k'. rewrite RecordAction_history.
  destruct (historiesOrdered_later t now rl Hle H k') as [Hs' Hb'].
  destruct (limits rl !! k); [|by split].
  destruct (decide (k = k')) as [<-|Hne]; [|by split].
  split.
  - apply StronglySorted_app. split; [|split; [exact Hs' | repeat constructor]].
    intros x1 x2 Hx1 Hx2. apply list_elem_of_singleton in Hx2 as ->.
    rewrite Forall_forall in Hb'. by apply Hb'.
  - apply Forall_app. split; [exact Hb'|]. repeat constructor. lia.
Qed.

Lemma historiesOrdered_resetDaily t now rl :
  historiesOrdered t rl -> historiesOrdered t (ResetDaily now rl).
Proof.
  intros H k. destruct (H k) as [Hs Hb]. rewrite ResetDaily_history.
  split; [by apply filter_StronglySorted | by apply filter_Forall].
Qed.

Lemma historiesOrdered_call t now c rl :
  t <= now -> now <= callEnd now c ->
  historiesOrdered t rl -> historiesOrdered (callEnd now c) (call now c rl).
Proof.
  intros Hle Hend H. destruct c as [k|k|k lag| |]; cbn [call callEnd] in *.
  - apply (historiesOrdered_later t); [lia|]. by apply historiesOrdered_check.
  - by apply (historiesOrdered_record t).
  - unfold attempt.
    pose proof (historiesOrdered_check t now k rl H) as H1.
    destruct (CanPerformAction now k rl) as [[[] ?] rl1]; cbn [snd] in H1.
    + apply (historiesOrdered_record t); [lia | exact H1].
    + apply (historiesOrdered_later t); [lia | exact H1].
  - apply (historiesOrdered_later t); [lia|]. exact H.
  - apply (historiesOrdered_later t); [lia|]. by apply historiesOrdered_resetDaily.
Qed.

Lemma historiesOrdered_run t cs rl :
  clockOrdered t cs -> historiesOrdered t rl ->
  historiesOrdered (clockEnd t cs) (runCalls cs rl).
Proof.
  revert t rl. induction cs as [|tc cs IH]; intros t rl Hc H; [exact H|].
  destruct Hc as (H1 & H2 & Hc). cbn [runCalls clockEnd foldl].
  apply (IH (callEnd tc.1 tc.2)); [exact Hc|].
  by apply (historiesOrdered_call t).
Qed.

Lemma historiesOrdered_empty t rl :
  actionHistory rl = ∅ -> historiesOrdered t rl.
Proof.
  intros He k. unfold historyOf. rewrite He, lookup_empty. split; constructor.
Qed.

(** ** Quotas along a run of honoured checks *)

Lemma filter_length_impl {A} (f g : A -> bool) (l : list A) :
  (forall x, f x = true -> g x = true) ->
  (length (List.filter f l) <= length (List.filter g l))%nat.
Proof.
  intros Himp. induction l as [|a l IH]; simpl; [lia|].
  destruct (f a) eqn:Ef.
  - rewrite (Himp a Ef). simpl. lia.
  - destruct (g a); simpl; lia.
Qed.

Lemma inWindow_length_later t t' window (h : list Time) :
  t <= t' -> (length (inWindow t' window h) <= length (inWindow t window h))%nat.
Proof.
  intros Hle. apply filter_length_impl. intros x. unfold After, Add.
  rewrite !Z.ltb_lt. lia.
Qed.

Lemma inWindow_keepRecent_length t now window (h : list Time) :
  (length (inWindow t window (keepRecent now h)) <= length (inWindow t window h))%nat.
Proof. apply filter_filter_length_le. Qed.

Lemma inWindow_snoc now window (h : list Time) :
  0 < window -> inWindow now window (h ++ [now]) = inWindow now window h ++ [now].
Proof.
  intros Hw. unfold inWindow. rewrite List.filter_app. simpl.
  unfold After at 2, Add. destruct (Z.ltb_spec (now + - window) now); [reflexivity | lia].
Qed.

(** What an allowing answer says about the limiter it leaves. *)
Lemma CanPerformAction_allowed now k rl limit :
  limits rl !! k = Some limit ->
  (CanPerformAction now k rl).1.1 = true ->
  let h1 := historyOf (CanPerformAction now k rl).2 k in
  cooldownUntil rl <= now /\
  countActionsInWindow now h1 Hour < HourlyMax limit /\
  countActionsInWindow now h1 (24 * Hour) < DailyMax limit /\
  forall l, last h1 = Some l -> MinInterval limit <= Sub now l.
Proof.
  intros Hl. rewrite CanPerformAction_state. unfold CanPerformAction, Before.
  rewrite Hl.
  destruct (Z.ltb_spec now (cooldownUntil rl)) as [|Hc]; [discriminate|].
  cbn zeta.
  set (h1 := historyOf (cleanHistory now k rl) k).
  destruct (Z.leb_spec (HourlyMax limit) (countActionsInWindow now h1 Hour));
    [discriminate|].
  destruct (Z.leb_spec (DailyMax limit) (countActionsInWindow now h1 (24 * Hour)));
    [discriminate|].
  destruct (last h1) as [l|]; [|intros _; repeat split; try assumption; discriminate].
  destruct (Z.ltb_spec (Sub now l) (MinInterval limit)); [discriminate|].
  intros _. repeat split; try assumption. intros l' [= <-]. assumption.
Qed.

Lemma last_StronglySorted_le (h : list Time) l x :
  StronglySorted Z.le h -> last h = Some l -> x ∈ h -> x <= l.
Proof.
  intros Hs Hlast Hx. apply last_Some in Hlast as [h' ->].
  apply elem_of_app in Hx as [Hx|Hx].
  - apply StronglySorted_app in Hs as (Hle & _). apply (Hle x l Hx). by left.
  - apply list_elem_of_singleton in Hx as ->. lia.
Qed.

Lemma withinQuota_later t t' rl :
  t <= t' -> withinQuota t rl -> withinQuota t' rl.
Proof.
  intros Hle H k limit Hl. destruct (H k limit Hl) as (Hh & Hd & Hs).
  pose proof (inWindow_length_later t t' Hour (historyOf rl k) Hle).
  pose proof (inWindow_length_later t t' (24 * Hour) (historyOf rl k) Hle).
  repeat split; [lia | lia | exact Hs].
Qed.

Lemma withinQuota_pruned t rl rl' :
  limits rl' = limits rl ->
  (forall k, historyOf rl' k = historyOf rl k \/
             exists now, historyOf rl' k = keepRecent now (historyOf rl k)) ->
  withinQuota t rl -> withinQuota t rl'.
Proof.
  intros Hlim Hhist H k limit Hl. rewrite Hlim in Hl.
  destruct (H k limit Hl) as (Hh & Hd & Hs).
  destruct (Hhist k) as [-> | [now ->]]; [by repeat split|].
  pose proof (inWindow_keepRecent_length t now Hour (historyOf rl k)).
  pose proof (inWindow_keepRecent_length t now (24 * Hour) (historyOf rl k)).
  repeat split; [lia | lia | by apply filter_StronglySorted].
Qed.

Lemma withinQuota_check t now k rl :
  withinQuota t rl -> withinQuota t (CanPerformAction now k rl).2.
Proof.
  apply withinQuota_pruned.
  - by destruct (CanPerformAction_frame now k rl) as ((? & _) & _).
  - intros k'. destruct (CanPerformAction_history now k rl k') as [?|?]; eauto.
Qed.

Lemma withinQuota_resetDaily t now rl :
  withinQuota t rl -> withinQuota t (ResetDaily now rl).
Proof.
  apply withinQuota_pruned; [apply ResetDaily_limits|].
  intros k. right. exists now. apply ResetDaily_history.
Qed.

(** An allowed check followed by its record keeps the quotas. *)
Lemma withinQuota_attempt t now lag k rl :
  t <= now -> 0 <= lag ->
  historiesOrdered t rl -> withinQuota t rl ->
  withinQuota (now + lag) (attempt now k lag rl).
Proof.
  intros Hle Hlag Hord Hq. unfold attempt.
  pose proof (historiesOrdered_check t now k rl Hord) as Hord1.
  pose proof (withinQuota_check t now k rl Hq) as Hq1.
  destruct (CanPerformAction_frame now k rl) as ((Hlim1 & _) & _).
  pose proof (CanPerformAction_allowed now k rl) as Hall.
  destruct (CanPerformAction now k rl) as [[allowed reason] rl1].
  cbn [fst snd] in *.
  destruct allowed; [|apply (withinQuota_later t); [lia | exact Hq1]].
  intros k' limit Hl'. rewrite RecordAction_limits in Hl'.
  rewrite RecordAction_history.
  destruct (withinQuota_later t (now + lag) rl1 ltac:(lia) Hq1 k' limit Hl')
    as (Hh & Hd & Hs).
  destruct (limits rl1 !! k) as [limit0|] eqn:Hk; [|by repeat split].
  destruct (decide (k = k')) as [<-|Hne]; [|by repeat split].
  assert (limit0 = limit) as -> by congruence.
  rewrite Hlim1 in Hk.
  destruct (Hall limit Hk eq_refl) as (_ & Hhour & Hday & Hlast).
  destruct (Hord1 k) as [Hsorted Hbound].
  rewrite (countActionsInWindow_sorted _ _ _ Hsorted) in Hhour.
  rewrite (countActionsInWindow_sorted _ _ _ Hsorted) in Hday.
  pose proof (inWindow_length_later now (now + lag) Hour (historyOf rl1 k) ltac:(lia)).
  pose proof (inWindow_length_later now (now + lag) (24 * Hour) (historyOf rl1 k)
                ltac:(lia)).
  rewrite !inWindow_snoc by (vm_compute; reflexivity).
  rewrite !length_app. cbn [length].
  split; [lia|]. split; [lia|].
  apply StronglySorted_app. split; [|split; [exact Hs | repeat constructor]].
  intros x1 x2 Hx1 Hx2. apply list_elem_of_singleton in Hx2 as ->.
  destruct (last (historyOf rl1 k)) as [l|] eqn:El.
  - pose proof (last_StronglySorted_le _ l x1 Hsorted El Hx1).
    specialize (Hlast l eq_refl). rewrite Sub_clamp in Hlast.
    rewrite Forall_forall in Hbound.
    pose proof (Hbound l (last_elem_of _ _ El)).
    unfold minDuration, maxDuration in Hlast. lia.
  - apply last_None in El. rewrite El in Hx1. by apply elem_of_nil in Hx1.
Qed.

Lemma quota_call t now c rl :
  t <= now -> now <= callEnd now c ->
  (match c with CallRecordAction _ => False | _ => True end) ->
  historiesOrdered t rl -> withinQuota t rl ->
  withinQuota (callEnd now c) (call now c rl).
Proof.
  intros Hle Hend Hc Hord Hq. destruct c as [k|k|k lag| |]; cbn [call callEnd] in *.
  - apply (withinQuota_later t); [lia|]. by apply withinQuota_check.
  - contradiction.
  - apply (withinQuota_attempt t); [lia | lia | assumption | assumption].
  - apply (withinQuota_later t); [lia|]. exact Hq.
  - apply (withinQuota_later t); [lia|]. by apply withinQuota_resetDaily.
Qed.

Lemma quota_run t cs rl :
  clockOrdered t cs -> checksFirst cs ->
  historiesOrdered t rl -> withinQuota t rl ->
  withinQuota (clockEnd t cs) (runCalls cs rl).
Proof.
  revert t rl. induction cs as [|tc cs IH]; intros t rl Hc Hh Hord Hq; [exact Hq|].
  destruct Hc as (H1 & H2 & Hc). apply Forall_cons in Hh as [Hh1 Hh].
  cbn [runCalls clockEnd foldl].
  apply (IH (callEnd tc.1 tc.2)); [exact Hc | exact Hh | |].
  - by apply (historiesOrdered_call t).
  - by apply (quota_call t).
Qed.

Lemma withinQuota_empty t rl : actionHistory rl = ∅ -> withinQuota t rl.
Proof.
  intros He k limit _. unfold historyOf. rewrite He, lookup_empty. simpl.
  repeat split; try lia. constructor.
Qed.

(** ** What the runs establish *)

(** X1. The backward scan of [countActionsInWindow] never counts more than
    the entries of the history newer than [now - window], and on a history
    in time order it counts exactly those. *)
Theorem countActionsInWindow_exact_when_ordered :
  forall (now : Time) (window : Duration) (h : list Time),
    countActionsInWindow now h window <= Z.of_nat (length (inWindow now window h)) /\
    (StronglySorted Z.le h ->
       countActionsInWindow now h window = Z.of_nat (length (inWindow now window h))).
Proof.
  intros now window h. split.
  - apply countActionsInWindow_le_inWindow.
  - apply countActionsInWindow_sorted.
Qed.

(** Out of time order the scan stops early: the entry 50 is inside the
    window but hidden behind the older 0. *)
Example countActionsInWindow_undercounts :
  countActionsInWindow 100 [50; 0; 60] 60 = 1 /\
  inWindow 100 60 [50; 0; 60] = [50; 60].
Proof. split; reflexivity. Qed.

Lemma countActionsInWindow_exact_when_ordered_run :
  StronglySorted Z.le [0; 10; 60] /\
  countActionsInWindow 100 [0; 10; 60] 95 = 2.
Proof.
  assert (Hs : StronglySorted Z.le [0; 10; 60]).
  { repeat (constructor; [|repeat constructor; lia]). constructor. }
  split; [exact Hs|].
  destruct (countActionsInWindow_exact_when_ordered 100 95 [0; 10; 60]) as [_ Heq].
  rewrite (Heq Hs). reflexivity.
Defined.

Lemma countActionsInWindow_window_mono now (h : list Time) w1 w2 :
  w1 <= w2 -> countActionsInWindow now h w1 <= countActionsInWindow now h w2.
Proof.
  intros Hw. unfold countActionsInWindow. destruct (length h =? 0)%nat; [lia|].
  apply countBackwards_mono. unfold Add. lia.
Qed.

(** X2. In the statistics of a configured kind the hourly count is never
    above the daily count, and neither is negative or above the length of
    the history, whatever the history holds. *)
Theorem GetActionStats_counts_nested :
  forall (now : Time) (k : string) (rl : RateLimiter) (limit : ActionLimit),
    limits rl !! k = Some limit ->
    exists stats hourly daily,
      GetActionStats now k rl = Returned stats /\
      stats !! "hourly_count" = Some (VInt hourly) /\
      stats !! "daily_count" = Some (VInt daily) /\
      0 <= hourly <= daily /\
      daily <= Z.of_nat (length (historyOf rl k)).
Proof.
  intros now k rl limit Hl. unfold GetActionStats. rewrite Hl.
  eexists _, _, _. split; [reflexivity|]. split; [reflexivity|].
  split; [reflexivity|].
  pose proof (countActionsInWindow_bounds now (historyOf rl k) Hour).
  pose proof (countActionsInWindow_bounds now (historyOf rl k) (24 * Hour)).
  pose proof (countActionsInWindow_window_mono now (historyOf rl k) Hour (24 * Hour)
                ltac:(vm_compute; discriminate)).
  lia.
Qed.

Lemma GetActionStats_counts_nested_run :
  limits oneMessage !! ActionMessage
    = Some (mkActionLimit 15 80 (60 * Second) 7 (8 * Minute)) /\
  exists stats hourly daily,
    GetActionStats (2 * Hour) ActionMessage oneMessage = Returned stats /\
    stats !! "hourly_count" = Some (VInt hourly) /\
    stats !! "daily_count" = Some (VInt daily) /\
    0 <= hourly <= daily /\
    daily <= Z.of_nat (length (historyOf oneMessage ActionMessage)).
Proof.
  assert (Hl : limits oneMessage !! ActionMessage
               = Some (mkActionLimit 15 80 (60 * Second) 7 (8 * Minute)))
    by reflexivity.
  split; [exact Hl|].
  exact (GetActionStats_counts_nested (2 * Hour) ActionMessage oneMessage _ Hl).
Defined.

(** X3. Whatever calls a client makes on a limiter that starts without
    history (checks, records reported without asking, resets), as long as
    the clock never goes back every history stays in time order and holds
    no instant after the clock, so the window counts of the backward scan
    are exact. *)
Theorem runCalls_histories_ordered :
  forall (t0 : Time) (cs : list (Time * Call)) (rl0 : RateLimiter) (k : string),
    actionHistory rl0 = ∅ ->
    clockOrdered t0 cs ->
    let h := historyOf (runCalls cs rl0) k in
    StronglySorted Z.le h /\
    Forall (fun x => x <= clockEnd t0 cs) h /\
    forall now window,
      countActionsInWindow now h window = Z.of_nat (length (inWindow now window h)).
Proof.
  intros t0 cs rl0 k He Hc h. subst h.
  destruct (historiesOrdered_run t0 cs rl0 Hc (historiesOrdered_empty t0 rl0 He) k)
    as [Hs Hb].
  split; [exact Hs|]. split; [exact Hb|].
  intros now window. by apply countActionsInWindow_sorted.
Qed.

Lemma sampleCalls_clockOrdered : clockOrdered 0 sampleCalls.
Proof. repeat split; vm_compute; discriminate. Qed.

Lemma sampleCalls_checksFirst : checksFirst sampleCalls.
Proof. repeat constructor. Qed.

Lemma runCalls_histories_ordered_run :
  actionHistory (NewRateLimiter 0) = ∅ /\
  clockOrdered 0 sampleCalls /\
  historyOf (runCalls sampleCalls (NewRateLimiter 0)) ActionMessage
    = [1 * Second; 102 * Second] /\
  StronglySorted Z.le (historyOf (runCalls sampleCalls (NewRateLimiter 0)) ActionMessage).
Proof.
  assert (He : actionHistory (NewRateLimiter 0) = ∅) by reflexivity.
  split; [exact He|]. split; [exact sampleCalls_clockOrdered|].
  split; [reflexivity|].
  exact (proj1 (runCalls_histories_ordered 0 sampleCalls (NewRateLimiter 0)
                  ActionMessage He sampleCalls_clockOrdered)).
Defined.

(** X4. A client that only records what [CanPerformAction] has just
    allowed, on a limiter that starts without history and with a clock
    that never goes back, never has more entries of a configured kind in
    the trailing hour than [HourlyMax], nor more in the trailing 24 hours
    than [DailyMax], at the end of its calls or at any later instant. *)
Theorem honoured_checks_keep_caps :
  forall (t0 : Time) (cs : list (Time * Call)) (rl0 : RateLimiter)
         (k : string) (limit : ActionLimit) (t : Time),
    actionHistory rl0 = ∅ ->
    clockOrdered t0 cs ->
    checksFirst cs ->
    limits rl0 !! k = Some limit ->
    clockEnd t0 cs <= t ->
    let h := historyOf (runCalls cs rl0) k in
    Z.of_nat (length (inWindow t Hour h)) <= Z.max 0 (HourlyMax limit) /\
    Z.of_nat (length (inWindow t (24 * Hour) h)) <= Z.max 0 (DailyMax limit).
Proof.
  intros t0 cs rl0 k limit t He Hc Hf Hl Ht h. subst h.
  pose proof (quota_run t0 cs rl0 Hc Hf (historiesOrdered_empty t0 rl0 He)
                (withinQuota_empty t0 rl0 He)) as Hq.
  apply (withinQuota_later _ t) in Hq; [|exact Ht].
  destruct (Hq k limit) as (Hh & Hd & _); [by rewrite runCalls_limits|].
  by split.
Qed.

Lemma honoured_checks_keep_caps_run :
  actionHistory (NewRateLimiter 0) = ∅ /\
  clockOrdered 0 sampleCalls /\
  checksFirst sampleCalls /\
  limits (NewRateLimiter 0) !! ActionMessage
    = Some (mkActionLimit 15 80 (60 * Second) 7 (8 * Minute)) /\
  clockEnd 0 sampleCalls <= 400 * Second /\
  Z.of_nat (length (inWindow (400 * Second) Hour
              (historyOf (runCalls sampleCalls (NewRateLimiter 0)) ActionMessage)))
  <= Z.max 0 15.
Proof.
  assert (He : actionHistory (NewRateLimiter 0) = ∅) by reflexivity.
  assert (Hl : limits (NewRateLimiter 0) !! ActionMessage
               = Some (mkActionLimit 15 80 (60 * Second) 7 (8 * Minute)))
    by reflexivity.
  assert (Ht : clockEnd 0 sampleCalls <= 400 * Second) by (vm_compute; discriminate).
  split; [exact He|]. split; [exact sampleCalls_clockOrdered|].
  split; [exact sampleCalls_checksFirst|]. split; [exact Hl|]. split; [exact Ht|].
  exact (proj1 (honoured_checks_keep_caps 0 sampleCalls (NewRateLimiter 0)
                  ActionMessage _ (400 * Second) He sampleCalls_clockOrdered
                  sampleCalls_checksFirst Hl Ht)).
Defined.

(** [RecordAction] itself never refuses: eleven connection requests
    reported without asking are all in the trailing hour, one more than
    the cap of ten. *)
Example unchecked_records_exceed_cap :
  let rl := recordAll ActionConnectionReq
              (List.map (fun i => 100 * Second * Z.of_nat i) (seq 0 11))
              (NewRateLimiter 0) in
  length (inWindow (1000 * Second) Hour (historyOf rl ActionConnectionReq)) = 11%nat.
Proof. reflexivity. Qed.

(** X5. For the same client, any two recorded instants of a configured
    kind are at least [MinInterval] apart. *)
Theorem honoured_checks_keep_spacing :
  forall (t0 : Time) (cs : list (Time * Call)) (rl0 : RateLimiter)
         (k : string) (limit : ActionLimit),
    actionHistory rl0 = ∅ ->
    clockOrdered t0 cs ->
    checksFirst cs ->
    limits rl0 !! k = Some limit ->
    StronglySorted (fun a b => a + MinInterval limit <= b)
                   (historyOf (runCalls cs rl0) k).
Proof.
  intros t0 cs rl0 k limit He Hc Hf Hl.
  pose proof (quota_run t0 cs rl0 Hc Hf (historiesOrdered_empty t0 rl0 He)
                (withinQuota_empty t0 rl0 He)) as Hq.
  destruct (Hq k limit) as (_ & _ & Hs); [by rewrite runCalls_limits|].
  exact Hs.
Qed.

Lemma honoured_checks_keep_spacing_run :
  actionHistory (NewRateLimiter 0) = ∅ /\
  clockOrdered 0 sampleCalls /\
  checksFirst sampleCalls /\
  limits (NewRateLimiter 0) !! ActionMessage
    = Some (mkActionLimit 15 80 (60 * Second) 7 (8 * Minute)) /\
  StronglySorted (fun a b => a + 60 * Second <= b)
    (historyOf (runCalls sampleCalls (NewRateLimiter 0)) ActionMessage).
Proof.
  assert (He : actionHistory (NewRateLimiter 0) = ∅) by reflexivity.
  assert (Hl : limits (NewRateLimiter 0) !! ActionMessage
               = Some (mkActionLimit 15 80 (60 * Second) 7 (8 * Minute)))
    by reflexivity.
  split; [exact He|]. split; [exact sampleCalls_clockOrdered|].
  split; [exact sampleCalls_checksFirst|]. split; [exact Hl|].
  exact (honoured_checks_keep_spacing 0 sampleCalls (NewRateLimiter 0)
           ActionMessage _ He sampleCalls_clockOrdered sampleCalls_checksFirst Hl).
Defined.

(** ** Answers that agree *)

(** X6. When [CanPerformAction] allows a kind, its reason is empty, and on
    the limiter it leaves the other queries agree at that instant: no
    cooldown is active and [GetWaitTime] for the kind is zero. *)
Theorem allowed_means_no_wait :
  forall (now : Time) (k : string) (rl : RateLimiter),
    (CanPerformAction now k rl).1.1 = true ->
    let rl1 := (CanPerformAction now k rl).2 in
    (CanPerformAction now k rl).1.2 = "" /\
    IsInCooldown now rl1 = false /\
    GetCooldownRemaining now rl1 = 0 /\
    GetWaitTime now k rl1 = 0.
Proof.
  intros now k rl Hok rl1. subst rl1.
  destruct (CanPerformAction_frame now k rl) as ((Hlim & _ & _ & Hcu & _) & _).
  assert (Hc : cooldownUntil rl <= now).
  { destruct (Z.ltb_spec now (cooldownUntil rl)) as [Hlt|]; [|assumption].
    rewrite (CanPerformAction_cooldown now k rl Hlt) in Hok. discriminate. }
  assert (Hreason : (CanPerformAction now k rl).1.2 = "").
  { revert Hok. unfold CanPerformAction.
    repeat (match goal with
            | |- context [if ?b then _ else _] => destruct b
            | |- context [match ?o with Some _ => _ | None => _ end] => destruct o
            end; cbn [fst snd]); congruence. }
  split; [exact Hreason|].
  unfold IsInCooldown, GetCooldownRemaining, GetWaitTime, Before. rewrite Hcu, Hlim.
  destruct (Z.ltb_spec now (cooldownUntil rl)); [lia|].
  split; [reflexivity|]. split; [reflexivity|].
  destruct (limits rl !! k) as [limit|] eqn:Hl; [|reflexivity].
  destruct (CanPerformAction_allowed now k rl limit Hl Hok) as (_ & _ & _ & Hlast).
  destruct (last (historyOf (CanPerformAction now k rl).2 k)) as [l|]; [|reflexivity].
  specialize (Hlast l eq_refl). unfold Since.
  destruct (Z.ltb_spec (Sub now l) (MinInterval limit)); [lia | reflexivity].
Qed.

Lemma allowed_means_no_wait_run :
  (CanPerformAction (960 * Second) ActionConnectionReq (cooldownScenario 0 0)).1.1 = true /\
  GetWaitTime (960 * Second) ActionConnectionReq
    (CanPerformAction (960 * Second) ActionConnectionReq (cooldownScenario 0 0)).2 = 0.
Proof.
  assert (Hok : (CanPerformAction (960 * Second) ActionConnectionReq
                   (cooldownScenario 0 0)).1.1 = true) by reflexivity.
  split; [exact Hok|].
  exact (proj2 (proj2 (proj2 (allowed_means_no_wait (960 * Second)
                                ActionConnectionReq (cooldownScenario 0 0) Hok)))).
Defined.

(** The converse fails: at its hourly cap a kind has no wait to report and
    is refused all the same. *)
Example no_wait_yet_refused :
  let rl := recordAll ActionConnectionReq
              (List.map (fun i => 100 * Second * Z.of_nat i) (seq 0 10))
              (NewRateLimiter 0) in
  GetWaitTime (1600 * Second) ActionConnectionReq rl = 0 /\
  (CanPerformAction (1600 * Second) ActionConnectionReq rl).1.1 = false.
Proof. split; reflexivity. Qed.

(** X7. A successful [RecordAction] that brings the shared counter to the
    [CooldownAfter] of the recorded kind resets the counter and starts a
    cooldown of that kind's [CooldownDuration]: until it ends every kind,
    configured or not, is refused and the refusal leaves the limiter as it
    is. Below the threshold the counter goes up by one and the cooldown
    end stays. *)
Theorem RecordAction_starts_global_cooldown :
  forall (now : Time) (k : string) (rl : RateLimiter) (limit : ActionLimit),
    limits rl !! k = Some limit ->
    let rl' := (RecordAction now k rl).2 in
    (CooldownAfter limit <= wrap64 (consecutiveActions rl + 1) ->
       consecutiveActions rl' = 0 /\
       cooldownUntil rl' = now + CooldownDuration limit /\
       forall (t : Time) (k' : string),
         t < now + CooldownDuration limit ->
         (CanPerformAction t k' rl').1.1 = false /\
         (CanPerformAction t k' rl').2 = rl' /\
         IsInCooldown t rl' = true) /\
    (wrap64 (consecutiveActions rl + 1) < CooldownAfter limit ->
       consecutiveActions rl' = wrap64 (consecutiveActions rl + 1) /\
       cooldownUntil rl' = cooldownUntil rl).
Proof.
  intros now k rl limit Hl rl'. subst rl'.
  pose proof (RecordAction_counter now k rl limit Hl) as Hcnt.
  split; intros Hc.
  - destruct (Z.leb_spec (CooldownAfter limit) (wrap64 (consecutiveActions rl + 1)));
      [|lia].
    injection Hcnt as Hn Hu. split; [exact Hn|]. split; [exact Hu|].
    intros t k' Ht.
    rewrite CanPerformAction_cooldown by (rewrite Hu; exact Ht).
    cbn [fst snd]. split; [reflexivity|]. split; [reflexivity|].
    unfold IsInCooldown, Before. rewrite Hu. by apply Z.ltb_lt.
  - destruct (Z.leb_spec (CooldownAfter limit) (wrap64 (consecutiveActions rl + 1)));
      [lia|].
    injection Hcnt as Hn Hu. by split.
Qed.

Lemma RecordAction_starts_global_cooldown_run :
  let rl := recordAll ActionScroll [0; 1] (NewRateLimiter 0) in
  limits rl !! ActionComment
    = Some (mkActionLimit 8 30 (120 * Second) 3 (15 * Minute)) /\
  3 <= wrap64 (consecutiveActions rl + 1) /\
  2 + 899 * Second < 2 + 15 * Minute /\
  (CanPerformAction (2 + 899 * Second) ActionScroll
     (RecordAction 2 ActionComment rl).2).1.1 = false.
Proof.
  intros rl.
  assert (Hl : limits rl !! ActionComment
               = Some (mkActionLimit 8 30 (120 * Second) 3 (15 * Minute)))
    by reflexivity.
  assert (Hc : 3 <= wrap64 (consecutiveActions rl + 1)) by (vm_compute; discriminate).
  assert (Ht : 2 + 899 * Second < 2 + 15 * Minute) by reflexivity.
  split; [exact Hl|]. split; [exact Hc|]. split; [exact Ht|].
  destruct (RecordAction_starts_global_cooldown 2 ActionComment rl _ Hl) as [Hon _].
  destruct (Hon Hc) as (_ & _ & Hall).
  exact (proj1 (Hall (2 + 899 * Second) ActionScroll Ht)).
Defined.

(** X8. When no configured kind has a [CooldownAfter] above [N], the
    shared counter stays in [0, max 1 N) through any calls: it never runs
    away, and at most [N] records pass between two cooldowns. *)
Theorem consecutiveActions_stays_below_largest_threshold :
  forall (N : Z) (cs : list (Time * Call)) (rl0 : RateLimiter),
    map_Forall (fun _ limit => CooldownAfter limit <= N) (limits rl0) ->
    N <= maxDuration ->
    0 <= consecutiveActions rl0 < Z.max 1 N ->
    0 <= consecutiveActions (runCalls cs rl0) < Z.max 1 N.
Proof.
  intros N cs rl0 Hall HN. revert rl0 Hall.
  induction cs as [|tc cs IH]; intros rl0 Hall H0; [exact H0|].
  cbn [runCalls foldl]. apply IH; [by rewrite call_limits|].
  destruct tc as [t c]. cbn [fst snd].
  destruct c as [k|k|k lag| |]; cbn [call].
  - by destruct (CanPerformAction_frame t k rl0) as ((_ & _ & _ & _ & ->) & _).
  - destruct (limits rl0 !! k) as [limit|] eqn:Hl.
    + pose proof (RecordAction_counter t k rl0 limit Hl) as Hcnt.
      specialize (Hall k limit Hl). cbn beta in Hall.
      rewrite wrap64_small in Hcnt by (unfold minDuration, maxDuration in *; lia).
      destruct (Z.leb_spec (CooldownAfter limit) (consecutiveActions rl0 + 1));
        injection Hcnt as -> _; lia.
    + unfold RecordAction. rewrite Hl. exact H0.
  - unfold attempt.
    destruct (CanPerformAction_frame t k rl0) as ((Hlim & _ & _ & _ & Hn) & _).
    destruct (CanPerformAction t k rl0) as [[[] ?] rl1]; cbn [snd] in Hlim, Hn;
      [|by rewrite Hn].
    destruct (limits rl1 !! k) as [limit|] eqn:Hl.
    + pose proof (RecordAction_counter (t + lag) k rl1 limit Hl) as Hcnt.
      rewrite Hlim in Hl. specialize (Hall k limit Hl). cbn beta in Hall.
      rewrite Hn in Hcnt.
      rewrite wrap64_small in Hcnt by (unfold minDuration, maxDuration in *; lia).
      destruct (Z.leb_spec (CooldownAfter limit) (consecutiveActions rl0 + 1));
        injection Hcnt as -> _; lia.
    + unfold RecordAction. rewrite Hl. cbn [snd]. by rewrite Hn.
  - cbn. lia.
  - unfold ResetDaily. cbn [consecutiveActions set_dailyResetTime].
    induction (map_to_list (actionHistory rl0)) as [|kv ks IHk]; [exact H0|].
    cbn [foldr]. by destruct (cleanHistory_fields t kv.1
      (foldr (fun kv rl => cleanHistory t kv.1 rl) rl0 ks)) as (_ & _ & _ & _ & ->).
Qed.

Lemma NewRateLimiter_thresholds c :
  map_Forall (fun _ limit => CooldownAfter limit <= 20) (limits (NewRateLimiter c)).
Proof.
  unfold NewRateLimiter, resetTimers. limiter_fields.
  repeat (apply map_Forall_insert_2; [vm_compute; discriminate|]).
  apply map_Forall_empty.
Qed.

Lemma consecutiveActions_stays_below_largest_threshold_run :
  20 <= maxDuration /\
  0 <= consecutiveActions (NewRateLimiter 0) < Z.max 1 20 /\
  0 <= consecutiveActions (runCalls sampleCalls (NewRateLimiter 0)) < Z.max 1 20.
Proof.
  assert (HN : 20 <= maxDuration) by (vm_compute; discriminate).
  assert (H0 : 0 <= consecutiveActions (NewRateLimiter 0) < Z.max 1 20)
    by (vm_compute; split; [discriminate | reflexivity]).
  split; [exact HN|]. split; [exact H0|].
  exact (consecutiveActions_stays_below_largest_threshold 20 sampleCalls
           (NewRateLimiter 0) (NewRateLimiter_thresholds 0) HN H0).
Defined.

(** ** [ResetDaily], [GetAllStats] and the cooldown queries *)

Lemma ResetDaily_fields now rl :
  cooldownUntil (ResetDaily now rl) = cooldownUntil rl /\
  consecutiveActions (ResetDaily now rl) = consecutiveActions rl /\
  hourlyResetTime (ResetDaily now rl) = hourlyResetTime rl /\
  dailyResetTime (ResetDaily now rl) = now + 24 * Hour.
Proof.
  unfold ResetDaily. limiter_fields.
  split; [|split; [|split; [|reflexivity]]];
    (induction (map_to_list (actionHistory rl)) as [|kv ks IH]; [reflexivity|];
     cbn [foldr];
     destruct (cleanHistory_fields now kv.1
                 (foldr (fun kv rl => cleanHistory now kv.1 rl) rl ks))
       as (_ & _ & ? & ? & ?); congruence).
Qed.

(** The answer of [CanPerformAction] depends on the limiter only through
    its limits, its cooldown end and the pruned history of the kind. *)
Lemma CanPerformAction_answer_ext now k rl rl' :
  limits rl' = limits rl ->
  cooldownUntil rl' = cooldownUntil rl ->
  keepRecent now (historyOf rl' k) = keepRecent now (historyOf rl k) ->
  (CanPerformAction now k rl').1 = (CanPerformAction now k rl).1.
Proof.
  intros Hlim Hcu Hh. unfold CanPerformAction. rewrite Hlim, Hcu.
  destruct (Before now (cooldownUntil rl)); [reflexivity|].
  destruct (limits rl !! k) as [limit|]; [|reflexivity].
  rewrite !cleanHistory_same, Hh.
  repeat (match goal with
          | |- context [if ?b then _ else _] => destruct b
          | |- context [match last ?h with _ => _ end] => destruct (last h)
          end); reflexivity.
Qed.

(** X9. [ResetDaily] frees no quota: [CanPerformAction] answers the same
    for every kind right after it as it would have without it. It only
    prunes (a second [ResetDaily] at the same instant finds nothing more),
    keeps limits, cooldown end and counter, and leaves a history alone
    whose entries are all newer than 24 hours. *)
Theorem ResetDaily_frees_no_quota :
  forall (now : Time) (rl : RateLimiter) (k : string),
    (CanPerformAction now k (ResetDaily now rl)).1 = (CanPerformAction now k rl).1 /\
    historyOf (ResetDaily now (ResetDaily now rl)) k = historyOf (ResetDaily now rl) k /\
    limits (ResetDaily now rl) = limits rl /\
    cooldownUntil (ResetDaily now rl) = cooldownUntil rl /\
    consecutiveActions (ResetDaily now rl) = consecutiveActions rl /\
    ((forall t, t ∈ historyOf rl k -> now - 24 * Hour < t) ->
       historyOf (ResetDaily now rl) k = historyOf rl k).
Proof.
  intros now rl k.
  destruct (ResetDaily_fields now rl) as (Hcu & Hn & _).
  split; [|split; [|split; [|split; [|split]]]].
  - apply CanPerformAction_answer_ext;
      [apply ResetDaily_limits | exact Hcu |].
    rewrite ResetDaily_history. apply keepRecent_idemp.
  - rewrite !ResetDaily_history. apply keepRecent_idemp.
  - apply ResetDaily_limits.
  - exact Hcu.
  - exact Hn.
  - intros Hall. rewrite ResetDaily_history. by apply keepRecent_id.
Qed.

Lemma ResetDaily_frees_no_quota_run :
  (forall t, t ∈ historyOf oneMessage ActionMessage -> 30 * Second - 24 * Hour < t) /\
  (CanPerformAction (30 * Second) ActionMessage (ResetDaily (30 * Second) oneMessage)).1
  = (false, "Too soon. Wait 30s") /\
  historyOf (ResetDaily (30 * Second) oneMessage) ActionMessage = [0].
Proof.
  assert (Hall : forall t, t ∈ historyOf oneMessage ActionMessage ->
                           30 * Second - 24 * Hour < t).
  { intros t Ht. change (historyOf oneMessage ActionMessage) with [0] in Ht.
    apply list_elem_of_singleton in Ht as ->. reflexivity. }
  split; [exact Hall|].
  destruct (ResetDaily_frees_no_quota (30 * Second) oneMessage ActionMessage)
    as (Hans & _ & _ & _ & _ & Hsame).
  split; [rewrite Hans; reflexivity | rewrite (Hsame Hall); reflexivity].
Defined.

Lemma GetAllStats_fold now rl (l : list (string * ActionLimit)) :
  (forall kv, kv ∈ l -> limits rl !! kv.1 = Some kv.2) ->
  exists stats : gmap string (gmap string StatValue),
    foldr (fun kv acc =>
             match acc with
             | Panicked => Panicked
             | Returned stats =>
                 match GetActionStats now kv.1 rl with
                 | Panicked => Panicked
                 | Returned s => Returned (<[kv.1 := s]> stats)
                 end
             end) (Returned ∅) l = Returned stats /\
    forall k, stats !! k
              = if decide (k ∈ l.*1)
                then match GetActionStats now k rl with
                     | Returned s => Some s
                     | Panicked => None
                     end
                else None.
Proof.
  induction l as [|[k0 v0] l IH]; intros Hin.
  - exists ∅. split; [reflexivity|]. intros k. rewrite lookup_empty.
    destruct (decide (k ∈ [])) as [H|]; [by apply elem_of_nil in H | reflexivity].
  - destruct IH as (stats & Hfold & Hstats).
    { intros kv Hkv. apply Hin. by right. }
    cbn [foldr fst]. rewrite Hfold.
    pose proof (Hin (k0, v0) ltac:(by left)) as Hk0. cbn [fst snd] in Hk0.
    destruct (GetActionStats now k0 rl) as [s|] eqn:Hs.
    2:{ unfold GetActionStats in Hs. rewrite Hk0 in Hs. discriminate. }
    eexists. split; [reflexivity|]. intros k.
    cbn [fmap list_fmap fst].
    destruct (decide (k0 = k)) as [<-|Hne].
    + rewrite lookup_insert_eq, Hs. rewrite decide_True; [reflexivity | by left].
    + rewrite lookup_insert_ne by done. rewrite Hstats.
      destruct (decide (k ∈ l.*1)) as [Hl|Hl].
      * rewrite decide_True; [reflexivity | by right].
      * rewrite decide_False; [reflexivity|].
        intros [?|?]%elem_of_cons; [congruence | contradiction].
Qed.

(** X10. [GetAllStats] never panics: it only asks for the kinds that have
    a limit. Its result has exactly the configured kinds as keys, each
    with what [GetActionStats] returns for it. *)
Theorem GetAllStats_covers_configured_kinds :
  forall (now : Time) (rl : RateLimiter),
    exists all,
      GetAllStats now rl = Returned all /\
      dom all = dom (limits rl) /\
      forall k s, all !! k = Some s <-> GetActionStats now k rl = Returned s.
Proof.
  intros now rl. unfold GetAllStats.
  destruct (GetAllStats_fold now rl (map_to_list (limits rl))) as (all & Hfold & Hall).
  { intros [k v] Hkv. by apply elem_of_map_to_list in Hkv. }
  exists all. split; [exact Hfold|].
  assert (Hlook : forall k s, all !! k = Some s <-> GetActionStats now k rl = Returned s).
  { intros k s. rewrite Hall.
    destruct (decide (k ∈ (map_to_list (limits rl)).*1)) as [Hin|Hin].
    - destruct (GetActionStats now k rl); split; congruence.
    - split; [discriminate|]. intros Hs. exfalso. apply Hin.
      unfold GetActionStats in Hs.
      destruct (limits rl !! k) as [limit|] eqn:Hl; [|discriminate].
      apply list_elem_of_fmap. exists (k, limit). split; [reflexivity|].
      by apply elem_of_map_to_list. }
  split; [|exact Hlook].
  apply set_eq. intros k. rewrite !elem_of_dom. split.
  - intros [s Hs]. apply Hlook in Hs. unfold GetActionStats in Hs.
    destruct (limits rl !! k); [eauto | discriminate].
  - intros [limit Hl].
    destruct (GetActionStats now k rl) as [s|] eqn:Hs.
    + exists s. by apply Hlook.
    + unfold GetActionStats in Hs. rewrite Hl in Hs. discriminate.
Qed.

(** X11. The cooldown queries agree: [IsInCooldown] holds exactly when the
    instant is before the cooldown end, exactly when
    [GetCooldownRemaining] is positive; the remaining time is never
    negative; during a cooldown [GetWaitTime] equals it for every kind and
    [CanPerformAction] refuses. After [ResetCooldown], at any instant not
    before the zero Time, no cooldown is active and the counter is zero,
    while histories and limits are untouched. *)
Theorem cooldown_queries_agree :
  forall (now : Time) (rl : RateLimiter),
    (IsInCooldown now rl = true <-> now < cooldownUntil rl) /\
    (IsInCooldown now rl = true <-> 0 < GetCooldownRemaining now rl) /\
    0 <= GetCooldownRemaining now rl <= maxDuration /\
    (forall k, IsInCooldown now rl = true ->
               GetWaitTime now k rl = GetCooldownRemaining now rl /\
               (CanPerformAction now k rl).1.1 = false) /\
    (zeroTime <= now ->
       IsInCooldown now (ResetCooldown rl) = false /\
       GetCooldownRemaining now (ResetCooldown rl) = 0 /\
       consecutiveActions (ResetCooldown rl) = 0 /\
       actionHistory (ResetCooldown rl) = actionHistory rl /\
       limits (ResetCooldown rl) = limits rl).
Proof.
  intros now rl. unfold IsInCooldown, GetCooldownRemaining, Before, Until.
  split; [apply Z.ltb_lt|].
  destruct (Z.ltb_spec now (cooldownUntil rl)) as [Hc|Hc].
  - rewrite Sub_clamp. unfold minDuration, maxDuration.
    split; [split; [lia | reflexivity]|]. split; [lia|]. split.
    + intros k _. rewrite CanPerformAction_cooldown by exact Hc.
      split; [|reflexivity].
      unfold GetWaitTime, Before, Until.
      destruct (Z.ltb_spec now (cooldownUntil rl)); [|lia].
      rewrite Sub_clamp. reflexivity.
    + intros H0. unfold ResetCooldown. limiter_fields.
      destruct (Z.ltb_spec now zeroTime); [lia|]. repeat split.
  - unfold minDuration, maxDuration.
    split; [split; [discriminate | lia]|]. split; [lia|]. split.
    + intros k. discriminate.
    + intros H0. unfold ResetCooldown. limiter_fields.
      destruct (Z.ltb_spec now zeroTime); [lia|]. repeat split.
Qed.

Lemma cooldown_queries_agree_run :
  zeroTime <= 400 * Second /\
  IsInCooldown (400 * Second) (cooldownScenario 0 0) = true /\
  GetCooldownRemaining (400 * Second) (cooldownScenario 0 0) = 560 * Second /\
  IsInCooldown (400 * Second) (ResetCooldown (cooldownScenario 0 0)) = false.
Proof.
  assert (H0 : zeroTime <= 400 * Second) by (vm_compute; discriminate).
  split; [exact H0|]. split; [reflexivity|]. split; [reflexivity|].
  destruct (cooldown_queries_agree (400 * Second) (cooldownScenario 0 0))
    as (_ & _ & _ & _ & Hreset).
  exact (proj1 (Hreset H0)).
Defined.

(** * Further properties of the scheduler and of the timing helpers *)

(** Name the draw of every [Intn] in the goal and bound it. *)
Ltac bound_draws Hdraws :=
  repeat match goal with
         | |- context [?draw ?r ?n] =>
             match type of Hdraws with boundedDraws draw => idtac end;
             let H := fresh "Hdraw" in
             pose proof (Hdraws r n ltac:(lia)) as H;
             destruct (draw r n) as [? ?]; cbn [fst snd] in H |- *
         end.

Ltac unfold_units :=
  unfold durationOf, Hour, Minute, Second, Millisecond, Microsecond, Nanosecond in *.

Ltac no_wrap :=
  repeat match goal with
         | |- context [wrap64 ?z] =>
             rewrite (wrap64_small z) by (unfold minDuration, maxDuration; lia)
         end.

(** Wrapping an intermediate sum changes nothing once the whole is
    wrapped. *)
Lemma wrap64_add_wrap a b : wrap64 (wrap64 a + b) = wrap64 (a + b).
Proof.
  unfold wrap64. f_equal.
  replace ((a + 2 ^ 63) mod 2 ^ 64 - 2 ^ 63 + b + 2 ^ 63)
    with ((a + 2 ^ 63) mod 2 ^ 64 + b) by lia.
  rewrite Zplus_mod_idemp_l. f_equal. lia.
Qed.

Lemma sampleIntn_bounded : boundedDraws sampleIntn.
Proof.
  intros r n Hn. unfold sampleIntn. cbn [fst]. apply Z.mod_pos_bound. exact Hn.
Qed.

(** X12. With [Intn] drawing inside its bound, [GetBreakDuration] is a
    whole number of minutes between 2 and 45, in the tier its first draw
    selects: 2 to 5 minutes below 0.60, 5 to 15 from there up to 0.85, 15 to
    45 above. *)
Theorem GetBreakDuration_tiers :
  forall (Rand : Type) (Float64 : Rand -> Q * Rand) (Intn : Rand -> Z -> Z * Rand)
         (sch : ActivityScheduler Rand),
    boundedDraws Intn ->
    let x := (Float64 (rand sch)).1 in
    let d := (GetBreakDuration Float64 Intn sch).1 in
    2 * Minute <= d <= 45 * Minute /\
    d mod Minute = 0 /\
    (f64_lt x f64_0_60 = true -> d <= 5 * Minute) /\
    (f64_lt x f64_0_60 = false -> f64_lt x f64_0_85 = true ->
       5 * Minute <= d <= 15 * Minute) /\
    (f64_lt x f64_0_60 = false -> f64_lt x f64_0_85 = false -> 15 * Minute <= d).
Proof.
  intros Rand Float64 Intn sch Hdraws x d. subst x d. unfold GetBreakDuration.
  destruct (Float64 (rand sch)) as [x r]. cbn [fst].
  destruct (f64_lt x f64_0_60), (f64_lt x f64_0_85);
    bound_draws Hdraws; unfold_units; no_wrap;
    (repeat split; try congruence; try lia; intros;
     try (apply Z.mod_mul; lia); try lia).
Qed.


Lemma GetBreakDuration_tiers_run :
  boundedDraws sampleIntn /\
  f64_lt (sampleFloat64 (rand sampleScheduler)).1 f64_0_60 = false /\
  f64_lt (sampleFloat64 (rand sampleScheduler)).1 f64_0_85 = false /\
  15 * Minute <= (GetBreakDuration sampleFloat64 sampleIntn sampleScheduler).1.
Proof.
  split; [exact sampleIntn_bounded|]. split; [reflexivity|]. split; [reflexivity|].
  destruct (GetBreakDuration_tiers Z sampleFloat64 sampleIntn
              sampleScheduler sampleIntn_bounded)
    as (_ & _ & _ & _ & Hlong).
  apply Hlong; reflexivity.
Defined.

(** X13. [GetThinkTime] is a whole number of milliseconds between 1000 and
    14998. *)
Theorem GetThinkTime_range :
  forall (Rand : Type) (Float64 : Rand -> Q * Rand) (Intn : Rand -> Z -> Z * Rand)
         (sch : ActivityScheduler Rand),
    boundedDraws Intn ->
    let d := (GetThinkTime Float64 Intn sch).1 in
    1000 * Millisecond <= d <= 14998 * Millisecond /\
    d mod Millisecond = 0.
Proof.
  intros Rand Float64 Intn sch Hdraws d. subst d. unfold GetThinkTime.
  bound_draws Hdraws. destruct (Float64 _) as [x r'].
  destruct (f64_lt x f64_0_15); bound_draws Hdraws; cbn [fst];
    unfold_units; no_wrap;
    (repeat split; try lia; try (apply Z.mod_mul; lia)).
Qed.

Lemma GetThinkTime_range_run :
  boundedDraws sampleIntn /\
  1000 * Millisecond <= (GetThinkTime sampleFloat64 sampleIntn sampleScheduler).1
  <= 14998 * Millisecond.
Proof.
  split; [exact sampleIntn_bounded|].
  exact (proj1 (GetThinkTime_range Z sampleFloat64 sampleIntn sampleScheduler
                  sampleIntn_bounded)).
Defined.

(** X14. [GetActionInterval] is a whole number of seconds between 10 and
    119: at least 15 before 10 o'clock and after 17, at most 90 from 10 to
    17, and only from 10 to 15 can it go below 15, down to the floor of
    10. *)
Theorem GetActionInterval_range :
  forall (Rand : Type) (Intn : Rand -> Z -> Z * Rand) (now : Time)
         (sch : ActivityScheduler Rand),
    boundedDraws Intn ->
    let hour := HourIn (timezone sch) now in
    let d := (GetActionInterval Intn now sch).1 in
    10 * Second <= d <= 119 * Second /\
    d mod Second = 0 /\
    (hour < 10 \/ 17 < hour -> 15 * Second <= d) /\
    (10 <= hour <= 17 -> d <= 90 * Second) /\
    (16 <= hour <= 17 -> 15 * Second <= d).
Proof.
  intros Rand Intn now sch Hdraws hour d. subst hour d. unfold GetActionInterval.
  bound_draws Hdraws.
  destruct (Z.ltb_spec (HourIn (timezone sch) now) 10);
    destruct (Z.ltb_spec 17 (HourIn (timezone sch) now));
    destruct (Z.leb_spec 10 (HourIn (timezone sch) now));
    destruct (Z.leb_spec (HourIn (timezone sch) now) 15);
    try lia; cbn [orb andb]; bound_draws Hdraws;
    repeat match goal with |- context [if ?a <? ?b then _ else _] =>
                             destruct (Z.ltb_spec a b) end;
    cbn [fst]; unfold_units; no_wrap;
    (repeat split; try lia; try (apply Z.mod_mul; lia)).
Qed.

Lemma GetActionInterval_range_run :
  boundedDraws sampleIntn /\
  HourIn (timezone sampleScheduler) (12 * Hour) = 12 /\
  (GetActionInterval sampleIntn (12 * Hour) sampleScheduler).1 <= 90 * Second.
Proof.
  split; [exact sampleIntn_bounded|]. split; [reflexivity|].
  destruct (GetActionInterval_range Z sampleIntn (12 * Hour) sampleScheduler
              sampleIntn_bounded) as (_ & _ & _ & Hmid & _).
  apply Hmid. vm_compute. split; discriminate.
Defined.

(** X15. [GetScrollDelay] is 200 to 799 ms when its draw is below 0.70 and
    1000 to 2999 ms otherwise, so never between the two ranges. *)
Theorem GetScrollDelay_range :
  forall (Rand : Type) (Float64 : Rand -> Q * Rand) (Intn : Rand -> Z -> Z * Rand)
         (sch : ActivityScheduler Rand),
    boundedDraws Intn ->
    let x := (Float64 (rand sch)).1 in
    let d := (GetScrollDelay Float64 Intn sch).1 in
    (f64_lt x f64_0_70 = true -> 200 * Millisecond <= d <= 799 * Millisecond) /\
    (f64_lt x f64_0_70 = false -> 1000 * Millisecond <= d <= 2999 * Millisecond) /\
    ~ (799 * Millisecond < d < 1000 * Millisecond).
Proof.
  intros Rand Float64 Intn sch Hdraws x d. subst x d. unfold GetScrollDelay.
  destruct (Float64 (rand sch)) as [x r]. cbn [fst].
  destruct (f64_lt x f64_0_70); bound_draws Hdraws; unfold_units; no_wrap;
    (repeat split; try congruence; try lia; intros; lia).
Qed.

Lemma GetScrollDelay_range_run :
  boundedDraws sampleIntn /\
  f64_lt (sampleFloat64 (rand sampleScheduler)).1 f64_0_70 = false /\
  1000 * Millisecond <= (GetScrollDelay sampleFloat64 sampleIntn sampleScheduler).1
  <= 2999 * Millisecond.
Proof.
  split; [exact sampleIntn_bounded|]. split; [reflexivity|].
  destruct (GetScrollDelay_range Z sampleFloat64 sampleIntn sampleScheduler
              sampleIntn_bounded) as (_ & Hslow & _).
  apply Hslow. reflexivity.
Defined.

(** X16. [GetTypingDelay] is between 50 and 1199 ms and never between
    200 and 350 ms (a pause adds at least 300 ms to a keystroke of at
    least 50); [GetPageLoadWait] is between 2000 and 4999 ms. *)
Theorem GetTypingDelay_GetPageLoadWait_range :
  forall (Rand : Type) (Float64 : Rand -> Q * Rand) (Intn : Rand -> Z -> Z * Rand)
         (sch : ActivityScheduler Rand),
    boundedDraws Intn ->
    let d := (GetTypingDelay Float64 Intn sch).1 in
    let w := (GetPageLoadWait Intn sch).1 in
    50 * Millisecond <= d <= 1199 * Millisecond /\
    ~ (200 * Millisecond < d < 350 * Millisecond) /\
    2000 * Millisecond <= w <= 4999 * Millisecond.
Proof.
  intros Rand Float64 Intn sch Hdraws d w. subst d w.
  unfold GetTypingDelay, GetPageLoadWait.
  bound_draws Hdraws. destruct (Float64 _) as [x r'].
  destruct (f64_lt x f64_0_10); bound_draws Hdraws; cbn [fst];
    unfold_units; no_wrap; (repeat split; try lia; intros; lia).
Qed.

Lemma GetTypingDelay_GetPageLoadWait_range_run :
  boundedDraws sampleIntn /\
  2000 * Millisecond <= (GetPageLoadWait sampleIntn sampleScheduler).1
  <= 4999 * Millisecond.
Proof.
  split; [exact sampleIntn_bounded|].
  exact (proj2 (proj2 (GetTypingDelay_GetPageLoadWait_range Z sampleFloat64 sampleIntn
                         sampleScheduler sampleIntn_bounded))).
Defined.

(** X17. [SimulateHumanRhythm] is between 800 and 5999 ms, in the range
    of the hour: 2000-4999 from 9 to 11, 800-1999 from 11 to 14, 1500-3499
    from 14 to 16, 2500-5999 from 16 to 18, and 1500-3499 at any other
    hour. *)
Theorem SimulateHumanRhythm_range :
  forall (Rand : Type) (Intn : Rand -> Z -> Z * Rand) (now : Time)
         (sch : ActivityScheduler Rand),
    boundedDraws Intn ->
    let hour := HourIn (timezone sch) now in
    let d := (SimulateHumanRhythm Intn now sch).1 in
    800 * Millisecond <= d <= 5999 * Millisecond /\
    (9 <= hour < 11 -> 2000 * Millisecond <= d <= 4999 * Millisecond) /\
    (11 <= hour < 14 -> d <= 1999 * Millisecond) /\
    (14 <= hour < 16 -> 1500 * Millisecond <= d <= 3499 * Millisecond) /\
    (16 <= hour < 18 -> 2500 * Millisecond <= d) /\
    (hour < 9 \/ 18 <= hour -> 1500 * Millisecond <= d <= 3499 * Millisecond).
Proof.
  intros Rand Intn now sch Hdraws hour d. subst hour d. unfold SimulateHumanRhythm.
  repeat match goal with
         | |- context [?a <=? ?b] => destruct (Z.leb_spec a b)
         | |- context [?a <? ?b] => destruct (Z.ltb_spec a b)
         end; cbn [andb]; bound_draws Hdraws; unfold_units; no_wrap;
    (repeat split; try lia; intros; lia).
Qed.

Lemma SimulateHumanRhythm_range_run :
  boundedDraws sampleIntn /\
  (11 <= HourIn (timezone sampleScheduler) (12 * Hour) < 14) /\
  (SimulateHumanRhythm sampleIntn (12 * Hour) sampleScheduler).1 <= 1999 * Millisecond.
Proof.
  assert (Hh : 11 <= HourIn (timezone sampleScheduler) (12 * Hour) < 14)
    by (vm_compute; split; [discriminate | reflexivity]).
  split; [exact sampleIntn_bounded|]. split; [exact Hh|].
  destruct (SimulateHumanRhythm_range Z sampleIntn (12 * Hour) sampleScheduler
              sampleIntn_bounded) as (_ & _ & Hmid & _).
  exact (Hmid Hh).
Defined.

(** X18. For bounds within a trillion milliseconds, [GetRandomDelay]
    never panics: a range given reversed or empty is replaced by the
    second after [minMs], and the delay is a whole number of milliseconds
    in the resulting range. [RandomDelay] of [timing.go] has no such
    repair and panics on every reversed or empty range; on a proper range
    the two sleep the same. *)
Theorem GetRandomDelay_repairs_reversed_bounds :
  forall (Rand : Type) (Intn : Rand -> Z -> Z * Rand) (minMs maxMs : Z)
         (sch : ActivityScheduler Rand),
    boundedDraws Intn ->
    - 10 ^ 12 <= minMs <= 10 ^ 12 ->
    - 10 ^ 12 <= maxMs <= 10 ^ 12 ->
    let upper := if maxMs <=? minMs then minMs + 1000 else maxMs in
    (exists d r,
       GetRandomDelay Intn minMs maxMs sch = Returned (d, set_rand r sch) /\
       minMs * Millisecond <= d < upper * Millisecond /\
       d mod Millisecond = 0) /\
    (maxMs <= minMs -> RandomDelay Intn minMs maxMs (rand sch) = Panicked) /\
    (minMs < maxMs ->
       exists d r,
         RandomDelay Intn minMs maxMs (rand sch) = Returned (d, r) /\
         GetRandomDelay Intn minMs maxMs sch = Returned (d, set_rand r sch)).
Proof.
  intros Rand Intn minMs maxMs sch Hdraws Hmin Hmax upper. subst upper.
  change (10 ^ 12) with 1000000000000 in *.
  unfold GetRandomDelay, RandomDelay, IntnChecked.
  destruct (Z.leb_spec maxMs minMs) as [Hrev|Hord].
  - rewrite (wrap64_small (minMs + 1000)) by (unfold minDuration, maxDuration; lia).
    replace (minMs + 1000 - minMs) with 1000 by lia.
    change (wrap64 1000 <=? 0) with false. cbv iota.
    rewrite (wrap64_small (maxMs - minMs)) by (unfold minDuration, maxDuration; lia).
    destruct (Z.leb_spec (maxMs - minMs) 0); [|lia].
    change (wrap64 1000) with 1000.
    pose proof (Hdraws (rand sch) 1000 ltac:(lia)) as Hd.
    destruct (Intn (rand sch) 1000) as [i r]. cbn [fst] in Hd.
    split; [|split; [reflexivity | lia]].
    eexists _, r. split; [reflexivity|].
    unfold_units; no_wrap. split; [lia | apply Z.mod_mul; lia].
  - rewrite (wrap64_small (maxMs - minMs)) by (unfold minDuration, maxDuration; lia).
    destruct (Z.leb_spec (maxMs - minMs) 0); [lia|].
    pose proof (Hdraws (rand sch) (maxMs - minMs) ltac:(lia)) as Hd.
    destruct (Intn (rand sch) (maxMs - minMs)) as [i r]. cbn [fst] in Hd.
    split; [|split; [lia|]].
    + eexists _, r. split; [reflexivity|].
      unfold_units; no_wrap. split; [lia | apply Z.mod_mul; lia].
    + intros _. eexists _, r. split; reflexivity.
Qed.

Lemma GetRandomDelay_repairs_reversed_bounds_run :
  boundedDraws sampleIntn /\
  (- 10 ^ 12 <= 500 <= 10 ^ 12) /\
  (- 10 ^ 12 <= 100 <= 10 ^ 12) /\
  100 <= 500 /\
  RandomDelay sampleIntn 500 100 (rand sampleScheduler) = Panicked /\
  exists d r,
    GetRandomDelay sampleIntn 500 100 sampleScheduler
    = Returned (d, set_rand r sampleScheduler) /\
    500 * Millisecond <= d < 1500 * Millisecond /\ d mod Millisecond = 0.
Proof.
  assert (H1 : - 10 ^ 12 <= 500 <= 10 ^ 12) by (vm_compute; split; discriminate).
  assert (H2 : - 10 ^ 12 <= 100 <= 10 ^ 12) by (vm_compute; split; discriminate).
  assert (H3 : 100 <= 500) by (vm_compute; discriminate).
  split; [exact sampleIntn_bounded|]. split; [exact H1|]. split; [exact H2|].
  split; [exact H3|].
  destruct (GetRandomDelay_repairs_reversed_bounds Z sampleIntn 500 100
              sampleScheduler sampleIntn_bounded H1 H2) as (Hok & Hpanic & _).
  split; [exact (Hpanic H3) | exact Hok].
Defined.

(** X19. On a weekday [IsWorkingHours] is certainly true from the start
    hour up to two hours before the end hour, and certainly false earlier
    than one hour before the start or from one hour after the end; in
    between the answer depends on the two draws. On Saturday and Sunday
    the answer is whether one draw is below 0.10. *)
Theorem IsWorkingHours_sure_hours :
  forall (Rand : Type) (Float64 : Rand -> Q * Rand) (Intn : Rand -> Z -> Z * Rand)
         (now : Time) (sch : ActivityScheduler Rand),
    boundedDraws Intn ->
    minDuration < workHoursStart sch <= maxDuration ->
    minDuration < workHoursEnd sch < maxDuration ->
    let hour := HourIn (timezone sch) now in
    let weekday := WeekdayIn (timezone sch) now in
    let answer := (IsWorkingHours Float64 Intn now sch).1 in
    (weekday = Saturday \/ weekday = Sunday ->
       answer = f64_lt (Float64 (rand sch)).1 f64_0_10) /\
    (weekday <> Saturday -> weekday <> Sunday ->
       (workHoursStart sch <= hour < workHoursEnd sch - 1 -> answer = true) /\
       (hour < workHoursStart sch - 1 \/ workHoursEnd sch + 1 <= hour ->
          answer = false)).
Proof.
  intros Rand Float64 Intn now sch Hdraws Hs He hour weekday answer.
  subst hour weekday answer. unfold IsWorkingHours.
  destruct (Z.eqb_spec (WeekdayIn (timezone sch) now) Saturday) as [Hsat|Hsat];
    destruct (Z.eqb_spec (WeekdayIn (timezone sch) now) Sunday) as [Hsun|Hsun];
    cbn [orb];
    try (destruct (Float64 (rand sch)) as [x r]; cbn [fst];
         split; [reflexivity | intros; contradiction]).
  bound_draws Hdraws. cbn [fst].
  change (?a - 1) with (a + -1). rewrite !wrap64_add_wrap.
  unfold minDuration, maxDuration in *. no_wrap.
  split; [intros [?|?]; contradiction|]. intros _ _.
  split; intros Hh.
  - apply andb_true_iff. split; [apply Z.leb_le | apply Z.ltb_lt]; lia.
  - apply andb_false_iff. destruct Hh; [left; apply Z.leb_gt | right; apply Z.ltb_ge]; lia.
Qed.

Lemma IsWorkingHours_sure_hours_run :
  boundedDraws sampleIntn /\
  (minDuration < workHoursStart sampleScheduler <= maxDuration) /\
  (minDuration < workHoursEnd sampleScheduler < maxDuration) /\
  WeekdayIn (timezone sampleScheduler) (12 * Hour) = 1 /\
  HourIn (timezone sampleScheduler) (12 * Hour) = 12 /\
  (IsWorkingHours sampleFloat64 sampleIntn (12 * Hour) sampleScheduler).1 = true.
Proof.
  assert (Hs : minDuration < workHoursStart sampleScheduler <= maxDuration)
    by (vm_compute; split; [reflexivity | discriminate]).
  assert (He : minDuration < workHoursEnd sampleScheduler < maxDuration)
    by (vm_compute; split; reflexivity).
  split; [exact sampleIntn_bounded|]. split; [exact Hs|]. split; [exact He|].
  split; [reflexivity|]. split; [reflexivity|].
  destruct (IsWorkingHours_sure_hours Z sampleFloat64 sampleIntn (12 * Hour)
              sampleScheduler sampleIntn_bounded Hs He) as (_ & Hweek).
  destruct Hweek as (Hyes & _); [vm_compute; discriminate | vm_compute; discriminate |].
  apply Hyes. vm_compute. split; [discriminate | reflexivity].
Defined.

Lemma recordActivities_count {Rand : Type} (times : list Time)
    (sch : ActivityScheduler Rand) :
  0 <= dailyActionCount sch ->
  dailyActionCount sch + Z.of_nat (length times) <= maxDuration ->
  let sch' := recordActivities times sch in
  dailyActionCount sch' = dailyActionCount sch + Z.of_nat (length times) /\
  lastActivityTime sch' = default (lastActivityTime sch) (last times) /\
  timezone sch' = timezone sch /\ workHoursStart sch' = workHoursStart sch /\
  workHoursEnd sch' = workHoursEnd sch /\ rand sch' = rand sch.
Proof.
  revert sch. induction times as [|t times IH]; intros sch H0 Hmax.
  - cbn. repeat split; lia.
  - cbn [recordActivities foldl]. fold (recordActivities times (RecordActivity t sch)).
    cbn [length] in Hmax.
    destruct (IH (RecordActivity t sch)) as (Hc & Hl & Hrest).
    + cbn. rewrite wrap64_small; unfold minDuration, maxDuration in *; lia.
    + cbn. rewrite wrap64_small; unfold minDuration, maxDuration in *; lia.
    + split; [|split; [|exact Hrest]].
      * rewrite Hc. cbn. rewrite wrap64_small; unfold minDuration, maxDuration in *; lia.
      * rewrite Hl. cbn [lastActivityTime RecordActivity].
        destruct times as [|t' times]; [reflexivity|].
        change (last (t :: t' :: times)) with (last (t' :: times)).
        destruct (last (t' :: times)) eqn:E; [reflexivity|].
        apply last_None in E. discriminate.
Qed.

(** X20. After [ResetDailyCount], [GetDailyActionCount] is the number of
    [RecordActivity] calls made since, the last activity is the instant of
    the last of them, and another reset brings the count back to zero. *)
Theorem GetDailyActionCount_counts_activities :
  forall (Rand : Type) (times : list Time) (sch : ActivityScheduler Rand),
    Z.of_nat (length times) <= maxDuration ->
    let sch' := recordActivities times (ResetDailyCount sch) in
    GetDailyActionCount sch' = Z.of_nat (length times) /\
    lastActivityTime sch' = default (lastActivityTime sch) (last times) /\
    GetDailyActionCount (ResetDailyCount sch') = 0.
Proof.
  intros Rand times sch Hlen sch'. subst sch'.
  destruct (recordActivities_count times (ResetDailyCount sch)) as (Hc & Hl & _).
  - cbn. lia.
  - cbn. lia.
  - unfold GetDailyActionCount. rewrite Hc, Hl. cbn. repeat split.
Qed.

Lemma GetDailyActionCount_counts_activities_run :
  Z.of_nat (length [5; 9; 12]) <= maxDuration /\
  GetDailyActionCount (recordActivities [5; 9; 12] (ResetDailyCount sampleScheduler)) = 3.
Proof.
  assert (H : Z.of_nat (length [5; 9; 12]) <= maxDuration) by (vm_compute; discriminate).
  split; [exact H|].
  exact (proj1 (GetDailyActionCount_counts_activities Z [5; 9; 12] sampleScheduler H)).
Defined.

(** ** [timing.go] *)

Lemma quot4_nonpos d : d < 4 -> Z.quot d 4 <= 0.
Proof.
  intros Hd. destruct (Z.le_gt_cases 0 d) as [Hpos|Hneg].
  - rewrite Z.quot_small; lia.
  - replace d with (- (- d)) by lia. rewrite Z.quot_opp_l by lia.
    pose proof (Z.quot_pos (- d) 4 ltac:(lia) ltac:(lia)). lia.
Qed.

Lemma wrap64_mul_min b : wrap64 (b * (- 2 ^ 63)) <= 0.
Proof.
  unfold wrap64. destruct (Z.Even_or_Odd b) as [[m ->]|[m ->]].
  - replace (2 * m * - 2 ^ 63 + 2 ^ 63) with (2 ^ 63 + (- m) * 2 ^ 64) by lia.
    rewrite Z_mod_plus_full. change (2 ^ 63 mod 2 ^ 64) with (2 ^ 63). lia.
  - replace ((2 * m + 1) * - 2 ^ 63 + 2 ^ 63) with (0 + (- m) * 2 ^ 64) by lia.
    rewrite Z_mod_plus_full. change (0 mod 2 ^ 64) with 0. lia.
Qed.

(** X21. [ExponentialBackoff] for an attempt from 0 to 61 whose doubled
    delay fits: with [d] the smaller of [baseDelay * 2^attempt] and
    [maxDelay], it returns a delay from [d] up to, not including,
    [d + d/4] when [d] is at least 4 nanoseconds, and panics when [d] is
    smaller (the jitter is drawn from an empty range). For a negative
    attempt and for every attempt from 63 on it panics, whatever the
    delays: the shift overflows. *)
Theorem ExponentialBackoff_range_and_panics :
  forall (Rand : Type) (Int63n : Rand -> Z -> Z * Rand) (attempt : Z)
         (baseDelay maxDelay : Duration) (r : Rand),
    boundedDraws Int63n ->
    (0 <= attempt < 62 -> 0 < baseDelay -> baseDelay * 2 ^ attempt <= 2 ^ 62 ->
       let d := Z.min (baseDelay * 2 ^ attempt) maxDelay in
       (4 <= d ->
          exists v r',
            ExponentialBackoff Int63n attempt baseDelay maxDelay r = Returned (v, r') /\
            d <= v < d + d / 4) /\
       (d < 4 -> ExponentialBackoff Int63n attempt baseDelay maxDelay r = Panicked)) /\
    (minDuration <= attempt <= maxDuration -> attempt < 0 \/ 63 <= attempt ->
       ExponentialBackoff Int63n attempt baseDelay maxDelay r = Panicked).
Proof.
  intros Rand Int63n attempt baseDelay maxDelay r Hdraws. split.
  - intros Ha Hb Hfit d. subst d.
    assert (Hp : 0 < 2 ^ attempt) by (apply Z.pow_pos_nonneg; lia).
    assert (Hp2 : 2 ^ attempt <= 2 ^ 62) by nia.
    unfold ExponentialBackoff, shiftOne, Int63nChecked.
    rewrite (Z.mod_small attempt) by lia.
    destruct (Z.ltb_spec attempt 64); [|lia].
    rewrite (wrap64_small (2 ^ attempt)) by (unfold minDuration, maxDuration; lia).
    rewrite (wrap64_small (baseDelay * 2 ^ attempt))
      by (unfold minDuration, maxDuration; lia).
    set (delay := baseDelay * 2 ^ attempt) in *.
    replace (if maxDelay <? delay then maxDelay else delay) with (Z.min delay maxDelay)
      by (destruct (Z.ltb_spec maxDelay delay); lia).
    set (d := Z.min delay maxDelay). assert (Hd : d <= 2 ^ 62) by lia.
    split; intros Hd4.
    + rewrite Z.quot_div_nonneg by lia.
      assert (Hq : 0 < d / 4) by (apply Z.div_str_pos; lia).
      assert (Hq2 : d / 4 <= d) by (apply Z.div_le_upper_bound; lia).
      destruct (Z.leb_spec (d / 4) 0); [lia|].
      pose proof (Hdraws r (d / 4) Hq) as Hj.
      destruct (Int63n r (d / 4)) as [j r']. cbn [fst] in Hj.
      eexists _, r'. split; [reflexivity|].
      rewrite wrap64_small by (unfold minDuration, maxDuration; lia). lia.
    + pose proof (quot4_nonpos d Hd4).
      destruct (Z.leb_spec (Z.quot d 4) 0); [reflexivity | lia].
  - intros Hint Hout.
    assert (Hdelay : wrap64 (baseDelay * shiftOne attempt) <= 0).
    { unfold shiftOne, minDuration, maxDuration in *.
      destruct (Z.eq_dec attempt 63) as [->|Hne].
      - change (63 mod 2 ^ 64) with 63. change (63 <? 64) with true. cbv iota.
        change (wrap64 (2 ^ 63)) with (- 2 ^ 63). apply wrap64_mul_min.
      - assert (Hcount : 64 <= attempt mod 2 ^ 64).
        { destruct Hout as [Hneg|Hbig].
          - replace attempt with (attempt + 2 ^ 64 + (-1) * 2 ^ 64) by lia.
            rewrite Z_mod_plus_full. rewrite Z.mod_small; lia.
          - rewrite Z.mod_small; lia. }
        destruct (Z.ltb_spec (attempt mod 2 ^ 64) 64); [lia|].
        rewrite Z.mul_0_r. vm_compute. discriminate. }
    unfold ExponentialBackoff, Int63nChecked. cbv zeta.
    set (delay := wrap64 (baseDelay * shiftOne attempt)) in *.
    match goal with
    | |- context [?q <=? 0] => assert (Hq : (q <=? 0) = true)
    end.
    { apply Z.leb_le, quot4_nonpos. destruct (Z.ltb_spec maxDelay delay); lia. }
    rewrite Hq. reflexivity.
Qed.

Lemma ExponentialBackoff_range_and_panics_run :
  boundedDraws sampleIntn /\
  (0 <= 3 < 62) /\ 0 < 100 * Millisecond /\ 100 * Millisecond * 2 ^ 3 <= 2 ^ 62 /\
  4 <= Z.min (100 * Millisecond * 2 ^ 3) (5 * Second) /\
  (exists v r',
     ExponentialBackoff sampleIntn 3 (100 * Millisecond) (5 * Second) 7 = Returned (v, r') /\
     800 * Millisecond <= v < 1000 * Millisecond) /\
  (minDuration <= 64 <= maxDuration) /\
  ExponentialBackoff sampleIntn 64 (100 * Millisecond) (5 * Second) 7 = Panicked.
Proof.
  assert (Ha : 0 <= 3 < 62) by (vm_compute; split; [discriminate | reflexivity]).
  assert (Hb : 0 < 100 * Millisecond) by reflexivity.
  assert (Hf : 100 * Millisecond * 2 ^ 3 <= 2 ^ 62) by (vm_compute; discriminate).
  assert (Hd : 4 <= Z.min (100 * Millisecond * 2 ^ 3) (5 * Second))
    by (vm_compute; discriminate).
  assert (Hi : minDuration <= 64 <= maxDuration) by (vm_compute; split; discriminate).
  split; [exact sampleIntn_bounded|]. split; [exact Ha|]. split; [exact Hb|].
  split; [exact Hf|]. split; [exact Hd|].
  destruct (ExponentialBackoff_range_and_panics Z sampleIntn 3 (100 * Millisecond)
              (5 * Second) 7 sampleIntn_bounded) as (Hin & _).
  destruct (ExponentialBackoff_range_and_panics Z sampleIntn 64 (100 * Millisecond)
              (5 * Second) 7 sampleIntn_bounded) as (_ & Hout).
  split; [exact (proj1 (Hin Ha Hb Hf) Hd)|]. split; [exact Hi|].
  apply (Hout Hi). right. vm_compute. discriminate.
Defined.

(** X22. [RandomizeSchedule] with a window of 1 to 10^8 minutes returns an
    instant a whole number of seconds after [baseTime] and inside the
    window; with a window of zero or fewer minutes it panics. *)
Theorem RandomizeSchedule_within_window :
  forall (Rand : Type) (Intn : Rand -> Z -> Z * Rand) (baseTime : Time)
         (windowMinutes : Z) (r : Rand),
    boundedDraws Intn ->
    (0 < windowMinutes <= 10 ^ 8 ->
       exists t r',
         RandomizeSchedule Intn baseTime windowMinutes r = Returned (t, r') /\
         baseTime <= t < baseTime + windowMinutes * Minute /\
         (t - baseTime) mod Second = 0) /\
    (- 10 ^ 8 <= windowMinutes <= 0 ->
       RandomizeSchedule Intn baseTime windowMinutes r = Panicked).
Proof.
  intros Rand Intn baseTime windowMinutes r Hdraws.
  change (10 ^ 8) with 100000000.
  unfold RandomizeSchedule, IntnChecked, Add. split; intros Hw.
  - rewrite (wrap64_small (windowMinutes * 60))
      by (unfold minDuration, maxDuration; lia).
    destruct (Z.leb_spec (windowMinutes * 60) 0); [lia|].
    pose proof (Hdraws r (windowMinutes * 60) ltac:(lia)) as Hj.
    destruct (Intn r (windowMinutes * 60)) as [j r']. cbn [fst] in Hj.
    eexists _, r'. split; [reflexivity|].
    unfold_units; no_wrap. split; [lia|].
    replace (baseTime + j * (1000 * (1000 * (1000 * 1))) - baseTime)
      with (j * (1000 * (1000 * (1000 * 1)))) by lia.
    apply Z.mod_mul. lia.
  - rewrite (wrap64_small (windowMinutes * 60))
      by (unfold minDuration, maxDuration; lia).
    destruct (Z.leb_spec (windowMinutes * 60) 0); [reflexivity | lia].
Qed.

Lemma RandomizeSchedule_within_window_run :
  boundedDraws sampleIntn /\
  (0 < 30 <= 10 ^ 8) /\
  exists t r',
    RandomizeSchedule sampleIntn (9 * Hour) 30 7 = Returned (t, r') /\
    9 * Hour <= t < 9 * Hour + 30 * Minute /\ (t - 9 * Hour) mod Second = 0.
Proof.
  assert (Hw : 0 < 30 <= 10 ^ 8) by (vm_compute; split; [reflexivity | discriminate]).
  split; [exact sampleIntn_bounded|]. split; [exact Hw|].
  exact (proj1 (RandomizeSchedule_within_window Z sampleIntn (9 * Hour) 30 7
                  sampleIntn_bounded) Hw).
Defined.

(** * Two string helpers *)

Lemma splitLoop_spec (text : list rune) words current :
  Forall properWord words ->
  Forall (fun c => c <> spaceRune) current ->
  let '(words', current') := splitLoop text words current in
  Forall properWord words' /\
  Forall (fun c => c <> spaceRune) current' /\
  concat words' ++ current'
  = concat words ++ current ++ List.filter (fun c => negb (c =? spaceRune)) text.
Proof.
  revert words current. induction text as [|char text IH]; intros words current Hw Hc.
  - cbn. split; [exact Hw|]. split; [exact Hc|]. by rewrite app_nil_r.
  - cbn [splitLoop List.filter]. destruct (Z.eqb_spec char spaceRune) as [->|Hne].
    + cbn [negb]. destruct current as [|c current]; cbn [isEmpty negb].
      * apply IH; assumption.
      * specialize (IH (words ++ [c :: current]) []).
        destruct (splitLoop text (words ++ [c :: current]) []) as [words' current'].
        destruct IH as (H1 & H2 & H3).
        { apply Forall_app. split; [exact Hw|]. apply Forall_singleton.
          split; [discriminate | exact Hc]. }
        { constructor. }
        split; [exact H1|]. split; [exact H2|].
        rewrite H3, concat_app. cbn. by rewrite !app_nil_r, <- !app_assoc.
    + cbn [negb]. specialize (IH words (current ++ [char])).
      destruct (splitLoop text words (current ++ [char])) as [words' current'].
      destruct IH as (H1 & H2 & H3).
      { exact Hw. }
      { apply Forall_app. split; [exact Hc|]. by repeat constructor. }
      split; [exact H1|]. split; [exact H2|].
      rewrite H3. by rewrite <- !app_assoc.
Qed.

Lemma splitLoop_word (w text : list rune) words current :
  Forall (fun c => c <> spaceRune) w ->
  splitLoop (w ++ text) words current = splitLoop text words (current ++ w).
Proof.
  revert current. induction w as [|c w IH]; intros current Hw.
  - by rewrite app_nil_r.
  - apply Forall_cons in Hw as [Hc Hw]. cbn [app splitLoop].
    destruct (Z.eqb_spec c spaceRune); [contradiction|].
    rewrite IH by exact Hw. by rewrite <- app_assoc.
Qed.

Lemma splitIntoWords_joinWords_from (ws : list (list rune)) words :
  Forall properWord ws ->
  (let '(words', current') := splitLoop (joinWords ws) words [] in
   if negb (isEmpty current') then words' ++ [current'] else words')
  = words ++ ws.
Proof.
  revert words. induction ws as [|w ws IH]; intros words Hws.
  - cbn. by rewrite app_nil_r.
  - apply Forall_cons in Hws as [[Hne Hw] Hws].
    destruct ws as [|w' ws].
    + cbn [joinWords]. rewrite <- (app_nil_r w) at 1.
      rewrite splitLoop_word by exact Hw. cbn.
      destruct w; [contradiction | reflexivity].
    + change (joinWords (w :: w' :: ws)) with (w ++ spaceRune :: joinWords (w' :: ws)).
      rewrite splitLoop_word by exact Hw. cbn [app splitLoop].
      change (spaceRune =? spaceRune) with true. cbv iota.
      destruct w as [|c w]; [contradiction|]. cbn [isEmpty negb].
      rewrite (IH (words ++ [c :: w]) Hws). by rewrite <- app_assoc.
Qed.

(** X23. [splitIntoWords] returns words that are not empty and hold no
    space; put end to end they are the text without its spaces. Joined
    with single spaces and split again they come back unchanged, and so
    does any list of such words. *)
Theorem splitIntoWords_words :
  forall (text : list rune),
    Forall properWord (splitIntoWords text) /\
    concat (splitIntoWords text)
    = List.filter (fun c => negb (c =? spaceRune)) text /\
    splitIntoWords (joinWords (splitIntoWords text)) = splitIntoWords text /\
    forall ws, Forall properWord ws -> splitIntoWords (joinWords ws) = ws.
Proof.
  intros text.
  assert (Hround : forall ws, Forall properWord ws -> splitIntoWords (joinWords ws) = ws).
  { intros ws Hws. unfold splitIntoWords.
    exact (splitIntoWords_joinWords_from ws [] Hws). }
  assert (Hspec : Forall properWord (splitIntoWords text) /\
                  concat (splitIntoWords text)
                  = List.filter (fun c => negb (c =? spaceRune)) text).
  { unfold splitIntoWords.
    pose proof (splitLoop_spec text [] [] ltac:(constructor) ltac:(constructor)) as H.
    destruct (splitLoop text [] []) as [words current].
    destruct H as (Hw & Hc & Heq). cbn [concat app] in Heq.
    destruct current as [|c current]; cbn [isEmpty negb].
    - rewrite app_nil_r in Heq. by split.
    - split.
      + apply Forall_app. split; [exact Hw|]. apply Forall_singleton.
        split; [discriminate | exact Hc].
      + rewrite concat_app. cbn. by rewrite app_nil_r. }
  destruct Hspec as [Hproper Hconcat].
  split; [exact Hproper|]. split; [exact Hconcat|].
  split; [by apply Hround | exact Hround].
Qed.

Lemma splitIntoWords_words_run :
  Forall properWord [[104; 105]; [121; 111; 117]] /\
  splitIntoWords (joinWords [[104; 105]; [121; 111; 117]]) = [[104; 105]; [121; 111; 117]] /\
  splitIntoWords [32; 104; 105; 32; 32; 121; 111; 117; 32] = [[104; 105]; [121; 111; 117]].
Proof.
  assert (Hp : Forall properWord [[104; 105]; [121; 111; 117]]).
  { apply Forall_cons. split; [|apply Forall_singleton];
      (split; [discriminate|]);
      repeat (apply Forall_cons; split; [discriminate|]); constructor. }
  split; [exact Hp|]. split; [|reflexivity].
  destruct (splitIntoWords_words []) as (_ & _ & _ & Hround).
  exact (Hround _ Hp).
Defined.

(** ** [contains] *)

Lemma containsFrom_true rounds i (s sub : list ascii) :
  containsFrom rounds i s sub = true ->
  exists j, (i <= j)%nat /\ (j + length sub <= length s)%nat /\
            take (length sub) (drop j s) = sub.
Proof.
  revert i. induction rounds as [|rounds IH]; intros i; cbn [containsFrom];
    [discriminate|].
  destruct (Nat.leb_spec (i + length sub) (length s)); [|discriminate].
  destruct (bool_decide (take (length sub) (drop i s) = sub)) eqn:E.
  - intros _. exists i. apply bool_decide_eq_true in E. repeat split; [lia | lia | exact E].
  - intros H'. destruct (IH (S i) H') as (j & ? & ? & ?). exists j. repeat split; [lia|lia|assumption].
Qed.

Lemma containsFrom_complete rounds i j (s sub : list ascii) :
  (i <= j < i + rounds)%nat -> (j + length sub <= length s)%nat ->
  take (length sub) (drop j s) = sub ->
  containsFrom rounds i s sub = true.
Proof.
  revert i. induction rounds as [|rounds IH]; intros i Hj Hlen Heq; [lia|].
  cbn [containsFrom].
  destruct (Nat.leb_spec (i + length sub) (length s)); [|lia].
  destruct (bool_decide (take (length sub) (drop i s) = sub)) eqn:E; [reflexivity|].
  apply bool_decide_eq_false in E.
  destruct (decide (i = j)) as [->|Hne]; [contradiction|].
  apply IH; [lia | exact Hlen | exact Heq].
Qed.

(** X24. [contains] answers true exactly when [sub] occurs in [s]: the
    empty string occurs in every string, and a string longer than [s] in
    none. *)
Theorem contains_iff_substring :
  forall (s sub : list ascii),
    (contains s sub = true <-> exists before after, s = before ++ sub ++ after) /\
    contains s [] = true /\
    ((length s < length sub)%nat -> contains s sub = false).
Proof.
  intros s sub.
  assert (Hiff : forall sub,
            contains s sub = true <-> exists before after, s = before ++ sub ++ after).
  { clear sub. intros sub. unfold contains. split.
    - intros H. apply containsFrom_true in H as (j & _ & Hlen & Heq).
      exists (take j s), (drop (length sub) (drop j s)).
      rewrite <- Heq at 1. by rewrite !take_drop.
    - intros (before & after & ->).
      apply (containsFrom_complete _ 0 (length before)).
      + rewrite !length_app. lia.
      + rewrite !length_app. lia.
      + rewrite drop_app_length. by rewrite take_app_length. }
  split; [apply Hiff|]. split.
  - apply Hiff. exists [], s. reflexivity.
  - intros Hlen. destruct (contains s sub) eqn:E; [|reflexivity].
    apply Hiff in E as (before & after & ->). rewrite !length_app in Hlen. lia.
Qed.

Lemma contains_iff_substring_run :
  (length (String.list_ascii_of_string "feed") < length (String.list_ascii_of_string "checkpoint"))%nat /\
  contains (String.list_ascii_of_string "feed") (String.list_ascii_of_string "checkpoint") = false /\
  contains (String.list_ascii_of_string "https://www.linkedin.com/checkpoint/challenge")
           (String.list_ascii_of_string "checkpoint") = true.
Proof.
  assert (Hlen : (length (String.list_ascii_of_string "feed")
                  < length (String.list_ascii_of_string "checkpoint"))%nat)
    by (vm_compute; lia).
  split; [exact Hlen|].
  destruct (contains_iff_substring (String.list_ascii_of_string "feed")
              (String.list_ascii_of_string "checkpoint")) as (_ & _ & Hshort).
  split; [exact (Hshort Hlen) | reflexivity].
Defined.

(** * Waiting *)

(** X25. [ThrottleAction], for a last action not in the future, sleeps
    exactly as long as it takes for [minInterval] to have passed since that
    action, never longer than [minInterval], and not at all when it has
    passed already. *)
Theorem ThrottleAction_waits_out_the_interval :
  forall (now lastActionTime : Time) (minInterval : Duration),
    minDuration <= minInterval <= maxDuration ->
    lastActionTime <= now ->
    let d := ThrottleAction now lastActionTime minInterval in
    0 <= d <= Z.max 0 minInterval /\
    minInterval <= now + d - lastActionTime /\
    (minInterval <= now - lastActionTime -> d = 0) /\
    (now - lastActionTime < minInterval -> now + d - lastActionTime = minInterval).
Proof.
  intros now lastActionTime minInterval Hmi Hpast d. subst d.
  unfold ThrottleAction, Since. rewrite Sub_clamp.
  unfold minDuration, maxDuration in *.
  destruct (Z.ltb_spec (Z.max (- 2 ^ 63) (Z.min (now - lastActionTime) (2 ^ 63 - 1)))
                       minInterval).
  - rewrite wrap64_small by (unfold minDuration, maxDuration; lia). lia.
  - lia.
Qed.

Lemma ThrottleAction_waits_out_the_interval_run :
  (minDuration <= 90 * Second <= maxDuration) /\
  10 * Second <= 40 * Second /\
  ThrottleAction (40 * Second) (10 * Second) (90 * Second) = 60 * Second /\
  90 * Second
  <= 40 * Second + ThrottleAction (40 * Second) (10 * Second) (90 * Second) - 10 * Second.
Proof.
  assert (H1 : minDuration <= 90 * Second <= maxDuration)
    by (vm_compute; split; discriminate).
  assert (H2 : 10 * Second <= 40 * Second) by (vm_compute; discriminate).
  split; [exact H1|]. split; [exact H2|]. split; [reflexivity|].
  exact (proj1 (proj2 (ThrottleAction_waits_out_the_interval (40 * Second)
                         (10 * Second) (90 * Second) H1 H2))).
Defined.

(** X26. No refusal is for ever: once the cooldown is over and every
    recorded instant of a configured kind with positive caps is 24 hours
    old or older, [CanPerformAction] allows the kind, whatever it answered
    before, and leaves its history empty and its wait at zero. *)
Theorem no_permanent_refusal :
  forall (now : Time) (k : string) (rl : RateLimiter) (limit : ActionLimit),
    limits rl !! k = Some limit ->
    0 < HourlyMax limit -> 0 < DailyMax limit ->
    cooldownUntil rl <= now ->
    (forall t, t ∈ historyOf rl k -> t <= now - 24 * Hour) ->
    (CanPerformAction now k rl).1 = (true, "") /\
    historyOf (CanPerformAction now k rl).2 k = [] /\
    GetWaitTime now k (CanPerformAction now k rl).2 = 0.
Proof.
  intros now k rl limit Hl Hh Hd Hc Hold.
  assert (Hempty : keepRecent now (historyOf rl k) = []).
  { unfold keepRecent. apply filter_After_none. apply Forall_forall.
    intros t Ht. specialize (Hold t Ht). unfold Add. lia. }
  assert (Hstate : historyOf (CanPerformAction now k rl).2 k = []).
  { rewrite CanPerformAction_state. unfold Before.
    destruct (Z.ltb_spec now (cooldownUntil rl)); [lia|]. rewrite Hl.
    by rewrite cleanHistory_same. }
  assert (Hans : (CanPerformAction now k rl).1 = (true, "")).
  { unfold CanPerformAction, Before.
    destruct (Z.ltb_spec now (cooldownUntil rl)); [lia|]. rewrite Hl.
    rewrite cleanHistory_same, Hempty. cbn.
    destruct (Z.leb_spec (HourlyMax limit) 0); [lia|].
    destruct (Z.leb_spec (DailyMax limit) 0); [lia|]. reflexivity. }
  split; [exact Hans|]. split; [exact Hstate|].
  unfold GetWaitTime, Before.
  destruct (CanPerformAction_frame now k rl) as ((-> & _ & _ & -> & _) & _).
  destruct (Z.ltb_spec now (cooldownUntil rl)); [lia|]. rewrite Hl, Hstate. reflexivity.
Qed.


Lemma no_permanent_refusal_run :
  limits tenRequests !! ActionConnectionReq
    = Some (mkActionLimit 10 50 (90 * Second) 5 (10 * Minute)) /\
  0 < 10 /\ 0 < 50 /\
  cooldownUntil tenRequests <= 25 * Hour /\
  (forall t, t ∈ historyOf tenRequests ActionConnectionReq -> t <= 25 * Hour - 24 * Hour) /\
  (CanPerformAction (1600 * Second) ActionConnectionReq tenRequests).1.1 = false /\
  (CanPerformAction (25 * Hour) ActionConnectionReq tenRequests).1 = (true, "").
Proof.
  assert (Hl : limits tenRequests !! ActionConnectionReq
               = Some (mkActionLimit 10 50 (90 * Second) 5 (10 * Minute)))
    by (vm_compute; reflexivity).
  assert (Hh : 0 < 10) by reflexivity.
  assert (Hd : 0 < 50) by reflexivity.
  assert (Hc : cooldownUntil tenRequests <= 25 * Hour) by (vm_compute; discriminate).
  assert (Hold : forall t, t ∈ historyOf tenRequests ActionConnectionReq ->
                           t <= 25 * Hour - 24 * Hour).
  { assert (Heq : historyOf tenRequests ActionConnectionReq
                  = [0; 100000000000; 200000000000; 300000000000; 400000000000;
                     500000000000; 600000000000; 700000000000; 800000000000;
                     900000000000])
      by (vm_compute; reflexivity).
    intros t Ht. rewrite Heq in Ht.
    assert (Hmax : t <= 900000000000).
    { clear Heq Hl Hc.
      repeat (apply elem_of_cons in Ht as [->|Ht]; [lia|]).
      by apply elem_of_nil in Ht. }
    unfold Hour, Minute, Second, Millisecond, Microsecond, Nanosecond. lia. }
  split; [exact Hl|]. split; [exact Hh|]. split; [exact Hd|]. split; [exact Hc|].
  split; [exact Hold|]. split; [vm_compute; reflexivity|].
  exact (proj1 (no_permanent_refusal (25 * Hour) ActionConnectionReq tenRequests
                  (mkActionLimit 10 50 (90 * Second) 5 (10 * Minute)) Hl Hh Hd Hc Hold)).
Defined.

(** ** [GetWaitTime] behind honoured checks *)

Lemma CanPerformAction_allowed_no_cooldown now k rl :
  (CanPerformAction now k rl).1.1 = true -> cooldownUntil rl <= now.
Proof.
  intros Hok. destruct (Z.ltb_spec now (cooldownUntil rl)) as [Hlt|]; [|assumption].
  rewrite (CanPerformAction_cooldown now k rl Hlt) in Hok. discriminate.
Qed.

Lemma cooldownCovers_later t t' rl :
  t <= t' -> cooldownCoversIntervals t rl -> cooldownCoversIntervals t' rl.
Proof.
  intros Hle (H0 & [Hc|Hc]); (split; [lia|]); [left; lia | right; exact Hc].
Qed.

Lemma cooldownCovers_pruned t rl rl' :
  limits rl' = limits rl -> cooldownUntil rl' = cooldownUntil rl ->
  (forall k, historyOf rl' k = historyOf rl k \/
             exists now, historyOf rl' k = keepRecent now (historyOf rl k)) ->
  cooldownCoversIntervals t rl -> cooldownCoversIntervals t rl'.
Proof.
  intros Hlim Hcu Hhist (H0 & Hc). split; [exact H0|]. rewrite Hcu, Hlim.
  destruct Hc as [Hc|Hc]; [by left|]. right. intros k limit l Hl Hin.
  apply (Hc k limit l Hl).
  destruct (Hhist k) as [Heq | [now Heq]]; rewrite Heq in Hin; [exact Hin|].
  by apply keepRecent_spec in Hin as [? _].
Qed.

Lemma cooldownCovers_check t now k rl :
  cooldownCoversIntervals t rl -> cooldownCoversIntervals t (CanPerformAction now k rl).2.
Proof.
  destruct (CanPerformAction_frame now k rl) as ((Hlim & _ & _ & Hcu & _) & _).
  intros Hcov. apply (cooldownCovers_pruned t rl); [exact Hlim | exact Hcu | | exact Hcov].
  intros k'. destruct (CanPerformAction_history now k rl k') as [?|?]; eauto.
Qed.

Lemma cooldownCovers_record t now k rl :
  intervalsWithinCooldowns (limits rl) ->
  historiesOrdered t rl -> t <= now -> zeroTime <= t ->
  cooldownUntil rl <= now ->
  cooldownCoversIntervals now (RecordAction now k rl).2.
Proof.
  intros Hcfg Hord Hle H0 Hc. split; [lia|].
  destruct (limits rl !! k) as [limit|] eqn:Hl.
  2:{ unfold RecordAction. rewrite Hl. by left. }
  pose proof (RecordAction_counter now k rl limit Hl) as Hcnt.
  destruct (Z.leb_spec (CooldownAfter limit) (wrap64 (consecutiveActions rl + 1)));
    injection Hcnt as _ Hcu; rewrite Hcu; [|left; exact Hc].
  right. intros k' limit' l Hl' Hin. rewrite RecordAction_limits in Hl'.
  destruct (Hcfg k' limit' k limit Hl' Hl) as [_ Hmi].
  destruct (historiesOrdered_record t now k rl Hle Hord k') as [_ Hb].
  rewrite Forall_forall in Hb. specialize (Hb l Hin). cbn beta in Hb. lia.
Qed.

Lemma cooldownCovers_call t now c rl :
  intervalsWithinCooldowns (limits rl) ->
  t <= now -> now <= callEnd now c ->
  (match c with CallRecordAction _ => False | _ => True end) ->
  historiesOrdered t rl -> cooldownCoversIntervals t rl ->
  cooldownCoversIntervals (callEnd now c) (call now c rl).
Proof.
  intros Hcfg Hle Hend Hc Hord Hcov.
  destruct c as [k|k|k lag| |]; cbn [call callEnd] in *.
  - apply (cooldownCovers_later t); [lia|]. by apply cooldownCovers_check.
  - contradiction.
  - unfold attempt.
    pose proof (cooldownCovers_check t now k rl Hcov) as Hcov1.
    pose proof (historiesOrdered_check t now k rl Hord) as Hord1.
    pose proof (CanPerformAction_allowed_no_cooldown now k rl) as Hno.
    destruct (CanPerformAction_frame now k rl) as ((Hlim & _ & _ & Hcu & _) & _).
    destruct (CanPerformAction now k rl) as [[[] ?] rl1]; cbn [fst snd] in *.
    + apply (cooldownCovers_record t); [by rewrite Hlim | exact Hord1 | lia | | ].
      * by destruct Hcov.
      * rewrite Hcu. specialize (Hno eq_refl). lia.
    + apply (cooldownCovers_later t); [lia | exact Hcov1].
  - destruct Hcov as [H0 _]. split; [lia|]. left. cbn. unfold zeroTime in *. lia.
  - apply (cooldownCovers_later t); [lia|].
    destruct (ResetDaily_fields now rl) as (Hcu & _).
    apply (cooldownCovers_pruned t rl);
      [apply ResetDaily_limits | exact Hcu | | exact Hcov].
    intros k. right. exists now. apply ResetDaily_history.
Qed.

Lemma cooldownCovers_run t cs rl :
  intervalsWithinCooldowns (limits rl) ->
  clockOrdered t cs -> checksFirst cs ->
  historiesOrdered t rl -> cooldownCoversIntervals t rl ->
  cooldownCoversIntervals (clockEnd t cs) (runCalls cs rl).
Proof.
  revert t rl. induction cs as [|tc cs IH]; intros t rl Hcfg Hc Hh Hord Hcov;
    [exact Hcov|].
  destruct Hc as (H1 & H2 & Hc). apply Forall_cons in Hh as [Hh1 Hh].
  cbn [runCalls clockEnd foldl].
  apply (IH (callEnd tc.1 tc.2)); [by rewrite call_limits | exact Hc | exact Hh | |].
  - by apply (historiesOrdered_call t).
  - by apply (cooldownCovers_call t).
Qed.

(** X27. On a limiter that starts without history or cooldown and in
    which no minimum interval is longer than any cooldown (as in
    [NewRateLimiter]), behind a client that only records what
    [CanPerformAction] has just allowed, [GetWaitTime] of a configured
    kind is never negative and never grows as time goes on: the jump at
    the end of a cooldown does not occur. *)
Theorem GetWaitTime_never_grows_behind_honoured_checks :
  forall (t0 : Time) (cs : list (Time * Call)) (rl0 : RateLimiter)
         (k : string) (limit : ActionLimit) (now1 now2 : Time),
    actionHistory rl0 = ∅ ->
    zeroTime <= t0 ->
    cooldownUntil rl0 <= t0 ->
    intervalsWithinCooldowns (limits rl0) ->
    clockOrdered t0 cs ->
    checksFirst cs ->
    limits rl0 !! k = Some limit ->
    clockEnd t0 cs <= now1 ->
    now1 <= now2 ->
    0 <= GetWaitTime now2 k (runCalls cs rl0) <= GetWaitTime now1 k (runCalls cs rl0).
Proof.
  intros t0 cs rl0 k limit now1 now2 He H0 Hc0 Hcfg Hclock Hfirst Hl Hend Hle.
  pose proof (historiesOrdered_run t0 cs rl0 Hclock (historiesOrdered_empty t0 rl0 He))
    as Hord.
  pose proof (cooldownCovers_run t0 cs rl0 Hcfg Hclock Hfirst
                (historiesOrdered_empty t0 rl0 He) (conj H0 (or_introl Hc0))) as Hcov.
  set (rl := runCalls cs rl0) in *.
  assert (Hl' : limits rl !! k = Some limit) by (subst rl; by rewrite runCalls_limits).
  destruct (Hcfg k limit k limit Hl Hl) as [Hmi _].
  destruct (Hord k) as [_ Hb]. rewrite Forall_forall in Hb.
  assert (Hpast : forall l, last (historyOf rl k) = Some l -> l <= now1).
  { intros l Hlast. specialize (Hb l (last_elem_of _ _ Hlast)). cbn beta in Hb. lia. }
  rewrite (GetWaitTime_closed_form now1 k rl limit Hl' Hmi Hpast).
  rewrite (GetWaitTime_closed_form now2 k rl limit Hl' Hmi)
    by (intros l Hlast; specialize (Hpast l Hlast); lia).
  destruct Hcov as (_ & Hcov).
  assert (Hcase : cooldownUntil rl <= now1 \/
                  forall l, last (historyOf rl k) = Some l ->
                            l + MinInterval limit <= cooldownUntil rl).
  { destruct Hcov as [Hc|Hc]; [left; lia|]. right. intros l Hlast.
    exact (Hc k limit l Hl' (last_elem_of _ _ Hlast)). }
  clear Hcov Hord Hb Hl' Hcfg Hclock Hfirst Hl He.
  unfold minDuration, maxDuration in *.
  destruct (Z.ltb_spec now1 (cooldownUntil rl));
    destruct (Z.ltb_spec now2 (cooldownUntil rl));
    destruct (last (historyOf rl k)) as [l|];
    try specialize (Hpast l eq_refl);
    destruct Hcase as [Hcase|Hcase]; try specialize (Hcase l eq_refl); lia.
Qed.

Lemma NewRateLimiter_intervalsWithinCooldowns c :
  intervalsWithinCooldowns (limits (NewRateLimiter c)).
Proof.
  assert (Hall : map_Forall
            (fun _ limit => (minDuration <= MinInterval limit <= maxDuration) /\
                            MinInterval limit <= 120 * Second /\
                            120 * Second <= CooldownDuration limit)
            (limits (NewRateLimiter c))).
  { unfold NewRateLimiter, resetTimers. limiter_fields.
    repeat (apply map_Forall_insert_2;
            [vm_compute; repeat split; discriminate|]).
    apply map_Forall_empty. }
  intros k1 limit1 k2 limit2 H1 H2.
  destruct (Hall k1 limit1 H1) as (Hr & Hmi & _).
  destruct (Hall k2 limit2 H2) as (_ & _ & Hcd).
  split; [exact Hr | lia].
Qed.

Lemma GetWaitTime_never_grows_behind_honoured_checks_run :
  actionHistory (NewRateLimiter 0) = ∅ /\
  zeroTime <= 0 /\
  cooldownUntil (NewRateLimiter 0) <= 0 /\
  intervalsWithinCooldowns (limits (NewRateLimiter 0)) /\
  clockOrdered 0 sampleCalls /\
  checksFirst sampleCalls /\
  limits (NewRateLimiter 0) !! ActionMessage
    = Some (mkActionLimit 15 80 (60 * Second) 7 (8 * Minute)) /\
  clockEnd 0 sampleCalls <= 300 * Second /\
  300 * Second <= 310 * Second /\
  0 <= GetWaitTime (310 * Second) ActionMessage (runCalls sampleCalls (NewRateLimiter 0))
    <= GetWaitTime (300 * Second) ActionMessage (runCalls sampleCalls (NewRateLimiter 0)).
Proof.
  assert (He : actionHistory (NewRateLimiter 0) = ∅) by reflexivity.
  assert (H0 : zeroTime <= 0) by (vm_compute; discriminate).
  assert (Hc : cooldownUntil (NewRateLimiter 0) <= 0) by (vm_compute; discriminate).
  assert (Hl : limits (NewRateLimiter 0) !! ActionMessage
               = Some (mkActionLimit 15 80 (60 * Second) 7 (8 * Minute)))
    by reflexivity.
  assert (Hend : clockEnd 0 sampleCalls <= 300 * Second) by (vm_compute; discriminate).
  assert (Hle : 300 * Second <= 310 * Second) by (vm_compute; discriminate).
  split; [exact He|]. split; [exact H0|]. split; [exact Hc|].
  split; [exact (NewRateLimiter_intervalsWithinCooldowns 0)|].
  split; [exact sampleCalls_clockOrdered|]. split; [exact sampleCalls_checksFirst|].
  split; [exact Hl|]. split; [exact Hend|]. split; [exact Hle|].
  exact (GetWaitTime_never_grows_behind_honoured_checks 0 sampleCalls (NewRateLimiter 0)
           ActionMessage _ (300 * Second) (310 * Second) He H0 Hc
           (NewRateLimiter_intervalsWithinCooldowns 0) sampleCalls_clockOrdered
           sampleCalls_checksFirst Hl Hend Hle).
Defined.
